(** * MEDEA entity linking: a shallow embedding of the linker and its dispatcher

    The development follows the Python sources

      - [entity_linking/entity_linking.py]            (class [EntityLinker])
      - [entity_linking/location_entity_linking.py]   (class [LocationEntityLinker])
      - [entity_linking/organization_entity_linker.py](class [OrganizationEntityLinker])
      - [MultiEntityLinker.py]                        (class [MultiEntityLinker])

    Python values are a tagged union [pyval]; a call either returns or raises,
    which is the type [result].  The network (the [requests] library), the
    sentence embedder and the NLTK tokenizers are oracles the functions take
    as arguments.  A floating point number is held as the rational it is
    (a cosine score, a weight; the weights of [np.linspace] as the exact
    values of the interpolation); the arithmetic of the disambiguator on
    them is the machine's, in binary64. *)

From Stdlib Require Import ZArith QArith List String Ascii Bool Lia Lqa Permutation.
From Stdlib Require Import SetoidList.
From Stdlib Require Import Floats.
Import ListNotations.

Local Open Scope string_scope.
Local Open Scope Z_scope.

(** ** Python exceptions and results *)

Inductive exn : Type :=
| KeyError
| TypeError
| IndexError
| ValueError
| UnboundLocalError
| AttributeError
| JSONDecodeError
| ConnectionError.

Inductive result (A : Type) : Type :=
| Ok (a : A)
| Raise (e : exn).

Arguments Ok {A} a.
Arguments Raise {A} e.

Definition bind {A B : Type} (m : result A) (k : A -> result B) : result B :=
  match m with
  | Ok a => k a
  | Raise e => Raise e
  end.

Declare Scope py_scope.
Delimit Scope py_scope with py.
Notation "x <- m ;; k" := (bind m (fun x => k))
  (at level 61, m at next level, right associativity) : py_scope.
Local Open Scope py_scope.

(** [try: m  except: h] with a handler that catches every exception. *)
Definition try_except {A : Type} (m : result A) (h : exn -> result A) : result A :=
  match m with
  | Ok a => Ok a
  | Raise e => h e
  end.

Definition is_ok {A : Type} (m : result A) : bool :=
  match m with Ok _ => true | Raise _ => false end.

(** Reading a local variable that an earlier loop may have left unbound. *)
Definition read_local {A : Type} (x : option A) : result A :=
  match x with
  | Some a => Ok a
  | None => Raise UnboundLocalError
  end.

Fixpoint mapM {A B : Type} (f : A -> result B) (l : list A) : result (list B) :=
  match l with
  | [] => Ok []
  | a :: l' => b <- f a ;; bs <- mapM f l' ;; Ok (b :: bs)
  end.

(** ** Strings and lists as Python has them *)

Definition len_str (s : string) : Z := Z.of_nat (String.length s).

Definition len {A : Type} (l : list A) : Z := Z.of_nat (List.length l).

(** [l[i]]: a negative index counts from the end, anything else out of range
    raises [IndexError]. *)
Definition getitem {A : Type} (l : list A) (i : Z) : result A :=
  let j := if i <? 0 then i + len l else i in
  if j <? 0 then Raise IndexError
  else match nth_error l (Z.to_nat j) with
       | Some a => Ok a
       | None => Raise IndexError
       end.

(** [l.index(x)]: position of the first element equal to [x]. *)
Fixpoint list_index (x : string) (l : list string) : result Z :=
  match l with
  | [] => Raise ValueError
  | y :: l' => if String.eqb y x then Ok 0
               else i <- list_index x l' ;; Ok (i + 1)
  end.

(** [l[:n]] *)
Definition slice_to {A : Type} (l : list A) (n : Z) : list A :=
  if n <? 0 then firstn (Z.to_nat (len l + n)) l
  else firstn (Z.to_nat n) l.

(** [sep.join(l)] *)
Definition join (sep : string) (l : list string) : string := String.concat sep l.

(** [x in s] for two strings: substring test. *)
Fixpoint is_prefix (p s : string) : bool :=
  match p, s with
  | EmptyString, _ => true
  | String a p', String b s' => Ascii.eqb a b && is_prefix p' s'
  | String _ _, EmptyString => false
  end.

Fixpoint is_substring (p s : string) : bool :=
  is_prefix p s ||
  match s with
  | EmptyString => false
  | String _ s' => is_substring p s'
  end.

(** [str.lower()] on code points below 256. *)
Definition lower_char (c : ascii) : ascii :=
  let n := nat_of_ascii c in
  if ((65 <=? n) && (n <=? 90))%nat then ascii_of_nat (n + 32)
  else if ((192 <=? n) && (n <=? 222) && negb (n =? 215))%nat then ascii_of_nat (n + 32)
  else c.

Fixpoint lower (s : string) : string :=
  match s with
  | EmptyString => EmptyString
  | String c s' => String (lower_char c) (lower s')
  end.

(** The class [\s] of [re] on code points below 256. *)
Definition is_space (c : ascii) : bool :=
  let n := nat_of_ascii c in
  ((9 <=? n) && (n <=? 13) || (28 <=? n) && (n <=? 32) || (n =? 133) || (n =? 160))%nat.

(** [re.split('\s', text)]: one cut per whitespace character, empty pieces kept. *)
Fixpoint re_split_space (text : string) : list string :=
  match text with
  | EmptyString => [EmptyString]
  | String c rest =>
      if is_space c then EmptyString :: re_split_space rest
      else match re_split_space rest with
           | w :: ws => String c w :: ws
           | [] => [String c EmptyString]
           end
  end.

(** [np.arange(lo, hi)], for bounds and a length that the 64-bit integers of
    numpy hold and that can be built in memory: the properties that depend
    on a window state a bound for it. *)
Definition arange (lo hi : Z) : list Z :=
  map (fun k => lo + Z.of_nat k) (seq 0 (Z.to_nat (hi - lo))).

(** [sorted] on integers: insertion sort. *)
Fixpoint insert_sorted (x : Z) (l : list Z) : list Z :=
  match l with
  | [] => [x]
  | y :: l' => if x <=? y then x :: l else y :: insert_sorted x l'
  end.

Definition sorted (l : list Z) : list Z := fold_right insert_sorted [] l.

(** ** Sets of integers

    A Python [set] is iterated in an order the language leaves to the
    runtime: each distinct element once.  [set_order] is that order, as a
    function of the sequence the set is built from. *)

Definition set_order : Type := list Z -> list Z.

Definition set_order_ok (set_iter : set_order) : Prop :=
  forall xs, NoDup (set_iter xs) /\ (forall x, In x (set_iter xs) <-> In x xs).

(** The order CPython gives to a set of small non-negative integers: the
    hash of an integer is the integer, the table has a power of two slots,
    an element sits in slot [hash mod slots] and iteration walks the slots.
    The table starts with 8 slots and is rebuilt with more than [4 * used]
    slots as soon as [5 * used >= 3 * (slots - 1)].  Elements that fall in the
    same slot keep their insertion order here, which is exact as long as no
    two elements collide: consecutive integers never do. *)

Fixpoint dedup (xs : list Z) : list Z :=
  match xs with
  | [] => []
  | x :: xs' => if existsb (Z.eqb x) xs' then dedup xs' else x :: dedup xs'
  end.

Fixpoint next_pow2_above (fuel : nat) (size minused : Z) : Z :=
  match fuel with
  | O => size
  | S f => if size <=? minused then next_pow2_above f (2 * size) minused else size
  end.

(** Table size after inserting [n] more distinct elements, [used] being in. *)
Fixpoint table_slots (n : nat) (used slots : Z) : Z :=
  match n with
  | O => slots
  | S n' =>
      let used' := used + 1 in
      if used' * 5 <? (slots - 1) * 3 then table_slots n' used' slots
      else table_slots n' used'
             (next_pow2_above 64 8 (if 50000 <? used' then used' * 2 else used' * 4))
  end.

Fixpoint insert_by_slot (slots x : Z) (l : list Z) : list Z :=
  match l with
  | [] => [x]
  | y :: l' => if x mod slots <? y mod slots then x :: l
               else y :: insert_by_slot slots x l'
  end.

Definition cpython_set_order : set_order :=
  fun xs =>
    let d := dedup (rev xs) in
    let slots := table_slots (List.length d) 0 8 in
    fold_right (insert_by_slot slots) [] d.

(** ** Context extraction ([EntityLinker.extract_context_by_*]) *)

(** The loop
<<
    for unit in units:
        character_count += len(unit) [+ 1]
        if character_count > start_char:
            selected_id = units.index(unit)
            break
>>
    [sep] is 0 for sentences and 1 for words.  The result is the binding of
    [selected_id] after the loop: [None] when the loop ran to its end. *)
Fixpoint anchor_loop (sep : Z) (all_units rest : list string)
         (character_count start_char : Z) : result (option Z) :=
  match rest with
  | [] => Ok None
  | unit :: rest' =>
      let character_count := character_count + len_str unit + sep in
      if start_char <? character_count
      then i <- list_index unit all_units ;; Ok (Some i)
      else anchor_loop sep all_units rest' character_count start_char
  end.

Definition clip_function (n : Z) (x : Z) : Z := Z.min (Z.max x 0) (n - 1).

(** The body of [extract_context_by_sentences] after [sent_tokenize]. *)
Definition context_of_sentences (set_iter : set_order) (sentences : list string)
           (start_char context_window : Z) : result string :=
  selected <- anchor_loop 0 sentences sentences 0 start_char ;;
  if context_window =? 0 then
    selected_sentence_id <- read_local selected ;;
    getitem sentences selected_sentence_id
  else
    selected_sentence_id <- read_local selected ;;
    let minimum_id := selected_sentence_id - context_window in
    let maximum_id := selected_sentence_id + context_window + 1 in
    let context_sentence_ids := arange minimum_id maximum_id in
    let clipped_context_sentence_ids :=
      set_iter (map (clip_function (len sentences)) context_sentence_ids) in
    parts <- mapM (getitem sentences) clipped_context_sentence_ids ;;
    Ok (join "" parts).

Definition extract_context_by_sentences (set_iter : set_order)
           (sent_tokenize : string -> list string)
           (text : string) (start_char context_window : Z) : result string :=
  context_of_sentences set_iter (sent_tokenize text) start_char context_window.

Definition extract_context_by_words (set_iter : set_order)
           (text : string) (start_char context_window : Z) : result string :=
  let words := re_split_space text in
  selected <- anchor_loop 1 words words 0 start_char ;;
  if context_window =? 0 then
    selected_word_id <- read_local selected ;;
    getitem words selected_word_id
  else
    selected_word_id <- read_local selected ;;
    let minimum_id := selected_word_id - context_window in
    let maximum_id := selected_word_id + context_window + 1 in
    let context_word_ids := arange minimum_id maximum_id in
    let clipped_context_word_ids :=
      set_iter (map (clip_function (len words)) context_word_ids) in
    let clipped_context_word_ids := sorted clipped_context_word_ids in
    parts <- mapM (getitem words) clipped_context_word_ids ;;
    Ok (join " " parts).


(** ** Python values

    What [response.json()] returns and what the linker builds from it.
    A [VDict] is an insertion-ordered dictionary with string keys: the first
    binding of a key in the list is the one the dictionary holds. *)

#[local] Set Warnings "-register-all".

Inductive pyval : Type :=
| VNone
| VBool (b : bool)
| VInt (n : Z)
| VFloat (q : Q)
| VStr (s : string)
| VList (l : list pyval)
| VDict (d : list (string * pyval)).

Definition pydict : Type := list (string * pyval).

Fixpoint dict_get {A : Type} (d : list (string * A)) (k : string) : option A :=
  match d with
  | [] => None
  | (k', v) :: d' => if String.eqb k' k then Some v else dict_get d' k
  end.

Definition dict_mem {A : Type} (d : list (string * A)) (k : string) : bool :=
  match dict_get d k with Some _ => true | None => false end.

(** [d[k] = v]: an existing key keeps its place, a new one goes last. *)
Fixpoint dict_set {A : Type} (d : list (string * A)) (k : string) (v : A)
  : list (string * A) :=
  match d with
  | [] => [(k, v)]
  | (k', v') :: d' => if String.eqb k' k then (k, v) :: d'
                      else (k', v') :: dict_set d' k v
  end.

Fixpoint mem_str (k : string) (l : list string) : bool :=
  match l with
  | [] => false
  | x :: l' => String.eqb x k || mem_str k l'
  end.

(** The items in iteration order, each key once. *)
Fixpoint dict_items_from {A : Type} (seen : list string) (d : list (string * A))
  : list (string * A) :=
  match d with
  | [] => []
  | (k, v) :: d' => if mem_str k seen then dict_items_from seen d'
                    else (k, v) :: dict_items_from (k :: seen) d'
  end.

Definition dict_items {A : Type} (d : list (string * A)) : list (string * A) :=
  dict_items_from [] d.

Definition dict_keys {A : Type} (d : list (string * A)) : list string :=
  map fst (dict_items d).

Definition dict_values {A : Type} (d : list (string * A)) : list A :=
  map snd (dict_items d).

Definition truthy (v : pyval) : bool :=
  match v with
  | VNone => false
  | VBool b => b
  | VInt n => negb (n =? 0)
  | VFloat q => negb (Qeq_bool q 0)
  | VStr s => negb (String.eqb s "")
  | VList l => match l with [] => false | _ => true end
  | VDict d => match d with [] => false | _ => true end
  end.

(** [v == s] for a string literal [s]. *)
Definition eq_str (v : pyval) (s : string) : bool :=
  match v with
  | VStr s' => String.eqb s' s
  | _ => false
  end.

(** [v[k]] for a string key [k]. *)
Definition subscript (v : pyval) (k : string) : result pyval :=
  match v with
  | VDict d => match dict_get d k with
               | Some x => Ok x
               | None => Raise KeyError
               end
  | _ => Raise TypeError
  end.

(** [k in v] for a string [k]. *)
Definition contains (k : string) (v : pyval) : result bool :=
  match v with
  | VDict d => Ok (dict_mem d k)
  | VList l => Ok (existsb (fun x => eq_str x k) l)
  | VStr s => Ok (is_substring k s)
  | _ => Raise TypeError
  end.

(** [v.keys()] *)
Definition keys_of (v : pyval) : result (list string) :=
  match v with
  | VDict d => Ok (dict_keys d)
  | _ => Raise AttributeError
  end.

(** [for x in v] *)
Definition iterate (v : pyval) : result (list pyval) :=
  match v with
  | VDict d => Ok (map VStr (dict_keys d))
  | VList l => Ok l
  | VStr s => Ok (map (fun c => VStr (String c EmptyString)) (list_ascii_of_string s))
  | _ => Raise TypeError
  end.

(** Record ids are strings here; where the code uses a decoded value as an
    id (a dictionary key, a piece of a URL) and the value is no string, the
    model raises [TypeError]. *)
Definition as_id (v : pyval) : result string :=
  match v with
  | VStr s => Ok s
  | _ => Raise TypeError
  end.

(** ** The network *)

Record response : Type := Response {
  status_code : Z;
  body : option pyval
}.

(** [response.json()] *)
Definition json (r : response) : result pyval :=
  match body r with
  | Some v => Ok v
  | None => Raise JSONDecodeError
  end.

(** [requests.get(url, params)]: a response, or an exception of the
    transport.  The same request gets the same answer during one run. *)
Definition network : Type := string -> list (string * string) -> result response.

Definition entity_data_url (qid : string) : string :=
  "https://www.wikidata.org/wiki/Special:EntityData/" ++ qid ++ ".json".

Definition api_url : string := "https://www.wikidata.org/w/api.php".

(** ** [EntityLinker] (entity_linking.py)

    The section variables are what an instance holds or reaches: the
    network behind [requests.get], the similarity the sentence transformer
    and [util.cos_sim] compute between a query and a candidate's text, and
    the runtime's set order. *)

Section EntityLinker.

Variable requests_get : network.
Variable cos_sim : string -> string -> Q.
Variable set_iter : set_order.

(** Returns [True], [False] or, when the description is another one, [None]. *)
Definition check_wikimedia_disambiguation_page (qid lang_code : string) : result pyval :=
  response <- requests_get api_url
                [("action", "wbgetentities"); ("format", "json");
                 ("ids", qid); ("languages", lang_code)] ;;
  data <- json response ;;
  has_entities <- contains "entities" data ;;
  has_qid <- (if has_entities
              then entities <- subscript data "entities" ;; contains qid entities
              else Ok false) ;;
  if has_qid then
    entities <- subscript data "entities" ;;
    entity <- subscript entities qid ;;
    descriptions <- subscript entity "descriptions" ;;
    localized <- subscript descriptions lang_code ;;
    description <- subscript localized "value" ;;
    if eq_str description "Wikimedia disambiguation page"
    then Ok (VBool true)
    else Ok VNone
  else Ok (VBool false).

(** [v == True] *)
Definition is_True (v : pyval) : bool :=
  match v with
  | VBool b => b
  | VInt n => n =? 1
  | VFloat q => Qeq_bool q 1
  | _ => false
  end.

Definition get_qnumber (wikiarticle wikisite : string) : result string :=
  response <- requests_get api_url
                [("action", "wbgetentities"); ("titles", wikiarticle);
                 ("sites", wikisite); ("props", ""); ("format", "json")] ;;
  resp <- json response ;;
  entities <- subscript resp "entities" ;;
  ids <- iterate entities ;;
  first <- getitem ids 0 ;;
  q_number <- as_id first ;;
  disambiguation <- check_wikimedia_disambiguation_page q_number "en" ;;
  if is_True disambiguation then Ok "-1" else Ok q_number.

Definition get_entity_info (qid : string) : result pyval :=
  response <- requests_get (entity_data_url qid) [] ;;
  if status_code response =? 200 then
    data <- json response ;;
    entities <- subscript data "entities" ;;
    subscript entities qid
  else Ok VNone.

(** The selection the projection makes three times, for the label, the
    description and the label of a referenced record:
<<
    if lang_code in table.keys(): table[lang_code]["value"]
    else:                         table["en"]["value"]
>> *)
Definition localized_value (table : pyval) (lang_code : string) : result pyval :=
  ks <- keys_of table ;;
  if mem_str lang_code ks
  then entry <- subscript table lang_code ;; subscript entry "value"
  else entry <- subscript table "en" ;; subscript entry "value".

(** The body of the [try] around the lookup of a referenced record:
    [Some label] when a label is appended, [None] when the status is not 200. *)
Definition resolve_reference (value : pyval) (lang_code : string)
  : result (option pyval) :=
  value_id <- subscript value "id" ;;
  value_id <- as_id value_id ;;
  value_response <- requests_get (entity_data_url value_id) [] ;;
  if status_code value_response =? 200 then
    value_data <- json value_response ;;
    entities <- subscript value_data "entities" ;;
    entity <- subscript entities value_id ;;
    labels <- subscript entity "labels" ;;
    label <- localized_value labels lang_code ;;
    Ok (Some label)
  else Ok None.

(** [for claim in item_info["claims"][prop]: ...], threading [property_data]. *)
Fixpoint collect_property_data (lang_code : string) (claims : list pyval)
         (property_data : list pyval) : result (list pyval) :=
  match claims with
  | [] => Ok property_data
  | claim :: rest =>
      mainsnak <- subscript claim "mainsnak" ;;
      snaktype <- subscript mainsnak "snaktype" ;;
      if eq_str snaktype "value" then
        datavalue <- subscript mainsnak "datavalue" ;;
        value <- subscript datavalue "value" ;;
        has_id <- contains "id" value ;;
        if has_id then
          resolved <- try_except (resolve_reference value lang_code)
                                 (fun _ => Ok None) ;;
          match resolved with
          | Some label => collect_property_data lang_code rest (property_data ++ [label])
          | None => collect_property_data lang_code rest property_data
          end
        else collect_property_data lang_code rest (property_data ++ [value])
      else collect_property_data lang_code rest property_data
  end.

(** What is stored for a property:
    [property_data] if it is empty or longer than one, else [property_data[0]]. *)
Definition stored_property (property_data : list pyval) : result pyval :=
  if len property_data =? 0 then Ok (VList property_data)
  else if 1 <? len property_data then Ok (VList property_data)
       else getitem property_data 0.

(** [prop in entity_properties.keys()] for what the iteration over the
    claims yields: a list or a dictionary cannot be hashed. *)
Definition in_schema (prop : pyval) (entity_properties : list (string * string))
  : result bool :=
  match prop with
  | VStr p => Ok (dict_mem entity_properties p)
  | VList _ | VDict _ => Raise TypeError
  | _ => Ok false
  end.

Definition prop_id (prop : pyval) : string :=
  match prop with VStr p => p | _ => "" end.

(** [for prop in item_info["claims"]: ...], threading [entity_info]. *)
Fixpoint project_claims (item_claims : pyval) (entity_properties : list (string * string))
         (lang_code : string) (props : list pyval) (entity_info : pydict)
  : result pydict :=
  match props with
  | [] => Ok entity_info
  | prop :: rest =>
      requested <- in_schema prop entity_properties ;;
      if requested then
        prop_claims <- subscript item_claims (prop_id prop) ;;
        claims <- iterate prop_claims ;;
        property_data <- collect_property_data lang_code claims [] ;;
        stored <- stored_property property_data ;;
        match dict_get entity_properties (prop_id prop) with
        | Some field =>
            project_claims item_claims entity_properties lang_code rest
                           (dict_set entity_info field stored)
        | None => Raise KeyError
        end
      else project_claims item_claims entity_properties lang_code rest entity_info
  end.

Definition extract_wikidata_entity_info (wikidata_qid : string)
           (entity_properties : list (string * string)) (lang_code : string)
  : result pydict :=
  item_info <- get_entity_info wikidata_qid ;;
  let entity_info : pydict := [] in
  if truthy item_info then
    labels <- subscript item_info "labels" ;;
    entity_label <- localized_value labels lang_code ;;
    let entity_info := dict_set entity_info "label" entity_label in
    descriptions <- subscript item_info "descriptions" ;;
    description <- localized_value descriptions lang_code ;;
    let entity_info := dict_set entity_info "description" description in
    item_claims <- subscript item_info "claims" ;;
    props <- iterate item_claims ;;
    project_claims item_claims entity_properties lang_code props entity_info
  else Ok entity_info.

(** *** The disambiguator *)

(** A candidate set: record id to snippet and prior weight. *)
Definition candidates : Type := list (string * (pyval * Q)).

(** The text the encoder is given; the model raises [TypeError] for a
    snippet that is no string. *)
Definition as_text (v : pyval) : result string :=
  match v with
  | VStr s => Ok s
  | _ => Raise TypeError
  end.

(** The binary64 number nearest to a rational, ties to the even mantissa:
    the number itself when it is a binary64 (or float32) number.  The
    quotient is taken with two bits more than the mantissa holds and a
    sticky bit, and rounded once. *)
Definition binary64 (q : Q) : float :=
  let n := Qnum q in
  let d := Zpos (Qden q) in
  if n =? 0 then PrimFloat.zero
  else
    let k := Z.max 0 (Z.log2 d - Z.log2 (Z.abs n) + 56) in
    let scaled := Z.abs n * 2 ^ k in
    let m := 2 * (scaled / d) + (if scaled mod d =? 0 then 0 else 1) in
    SF2Prim (binary_normalize prec emax (if n <? 0 then - m else m) (- k - 1) false).

(** [a * b] on two arrays of one length: the float32 cosines are promoted
    to binary64, which is exact, and the products are those of binary64. *)
Definition multiply (a b : list Q) : list float :=
  map (fun p => (binary64 (fst p) * binary64 (snd p))%float) (combine a b).

(** One step of [a.max()]: [m] if it is a NaN or [m >= y], else [y]; a NaN is
    propagated. *)
Definition np_maximum (m y : float) : float :=
  if is_nan m then m else if (y <=? m)%float then m else y.

(** [a.max()] *)
Definition array_max (a : list float) : result float :=
  match a with
  | [] => Raise ValueError
  | x :: rest => Ok (fold_left np_maximum rest x)
  end.

(** [list(a).index(x)]: the first element that [==] finds equal to [x]. *)
Fixpoint index_of (x : float) (a : list float) : result Z :=
  match a with
  | [] => Raise ValueError
  | y :: rest => if (y =? x)%float then Ok 0
                 else i <- index_of x rest ;; Ok (i + 1)
  end.

Definition context_entity_matching (context : string) (entity_candidates : candidates)
  : result string :=
  let entity_information := dict_values entity_candidates in
  let entity_names := dict_keys entity_candidates in
  let entity_snippets := map fst entity_information in
  let entity_weights := map snd entity_information in
  snippet_texts <- mapM as_text entity_snippets ;;
  let cos_scores := map (cos_sim context) snippet_texts in
  let weighted_scores := multiply cos_scores entity_weights in
  max_score <- array_max weighted_scores ;;
  top_entity_id <- index_of max_score weighted_scores ;;
  getitem entity_names top_entity_id.

Definition entity_label_matching (entity_label : string)
           (candidate_labels : list (string * Q)) : result string :=
  let entity_weights := dict_values candidate_labels in
  let entity_names := dict_keys candidate_labels in
  let cos_scores := map (cos_sim entity_label) entity_names in
  let weighted_scores := multiply cos_scores entity_weights in
  max_score <- array_max weighted_scores ;;
  top_entity_id <- index_of max_score weighted_scores ;;
  getitem entity_names top_entity_id.

(** *** The typed linkers

    [LocationEntityLinker] and [OrganizationEntityLinker] have the same four
    methods, up to the entity type in their names and the two property
    tables an instance holds.  They are written once here, over the tables,
    and named as in the source after the section. *)

Section TypedLinker.

Variable filter_properties : list string.
Variable entity_properties : list (string * string).

(** [any(prop in data["entities"][qid]["claims"] for prop in self.filter_properties)] *)
Fixpoint any_filter_property (props : list string) (data : pyval) (qid : string)
  : result bool :=
  match props with
  | [] => Ok false
  | prop :: rest =>
      entities <- subscript data "entities" ;;
      entity <- subscript entities qid ;;
      claims <- subscript entity "claims" ;;
      found <- contains prop claims ;;
      if found then Ok true else any_filter_property rest data qid
  end.

(** The body of the [try] of the filter: does it reach [append] / [return qid]. *)
Definition passes_filter (response : response) (qid : string) : result bool :=
  data <- json response ;;
  entities <- subscript data "entities" ;;
  entity <- subscript entities qid ;;
  entity_type <- subscript entity "type" ;;
  if eq_str entity_type "item"
  then any_filter_property filter_properties data qid
  else Ok false.

Definition get_typed_qnumber (wikiarticle wikisite lang_code : string) : result string :=
  qid <- get_qnumber wikiarticle wikisite ;;
  response <- requests_get (entity_data_url qid) [] ;;
  if status_code response =? 200 then
    passed <- try_except (passes_filter response qid) (fun _ => Ok false) ;;
    if passed then Ok qid else Ok "-1"
  else Ok "-1".

Fixpoint filter_qids_loop (qid_list : list string) (typed_qids : list string)
  : result (list string) :=
  match qid_list with
  | [] => Ok typed_qids
  | qid :: rest =>
      response <- requests_get (entity_data_url qid) [] ;;
      if status_code response =? 200 then
        passed <- try_except (passes_filter response qid) (fun _ => Ok false) ;;
        filter_qids_loop rest (if passed then typed_qids ++ [qid] else typed_qids)
      else filter_qids_loop rest typed_qids
  end.

Definition filter_qids (qid_list : list string) : result (list string) :=
  filter_qids_loop qid_list [].

(** [search_results[:num_results]], as the sequence later iterated. *)
Definition slice_results (search_results : pyval) (num_results : Z) : result (list pyval) :=
  match search_results with
  | VList l => Ok (slice_to l num_results)
  | VStr s => items <- iterate (VStr s) ;; Ok (slice_to items num_results)
  | _ => Raise TypeError
  end.

(** [{result['title']: result['snippet'] for result in search_results
      if result['snippet'] != ''}] *)
Fixpoint results_information_of (search_results : list pyval) (acc : pydict)
  : result pydict :=
  match search_results with
  | [] => Ok acc
  | result :: rest =>
      snippet <- subscript result "snippet" ;;
      if negb (eq_str snippet "") then
        title <- subscript result "title" ;;
        title <- as_id title ;;
        snippet <- subscript result "snippet" ;;
        results_information_of rest (dict_set acc title snippet)
      else results_information_of rest acc
  end.

(** [np.linspace(start, stop, num)] *)
Definition linspace (start stop : Q) (num : Z) : result (list Q) :=
  if num <? 0 then Raise ValueError
  else
    let div := num - 1 in
    let step := ((stop - start) / inject_Z div)%Q in
    Ok (map (fun i => if (0 <? div) && (i =? div) then stop
                      else if 0 <? div then (inject_Z i * step + start)%Q
                           else (inject_Z i * (stop - start) + start)%Q)
            (arange 0 num)).

(** [{qid: [snippet, weights[results_qids.index(qid)]]
      for qid, snippet in results_information.items() if qid in filtered_qids}] *)
Fixpoint final_results_of (results_qids filtered_qids : list string) (weights : list Q)
         (items : list (string * pyval)) (acc : candidates) : result candidates :=
  match items with
  | [] => Ok acc
  | (qid, snippet) :: rest =>
      if mem_str qid filtered_qids then
        rank <- list_index qid results_qids ;;
        weight <- getitem weights rank ;;
        final_results_of results_qids filtered_qids weights rest
                         (dict_set acc qid (snippet, weight))
      else final_results_of results_qids filtered_qids weights rest acc
  end.

Definition search_params (search_phrase lang_code : string) : list (string * string) :=
  [("action", "query"); ("format", "json"); ("uselang", lang_code);
   ("list", "search"); ("formatversion", "2"); ("srsearch", search_phrase);
   ("srnamespace", "0"); ("srlimit", "max");
   ("srinfo", "totalhits|suggestion|rewrittenquery");
   ("srprop", "snippet|extensiondata"); ("srenablerewrites", "1");
   ("srsort", "relevance")].

Definition wikidata_search (search_phrase : string) (num_results : Z) (lang_code : string)
  : result candidates :=
  response <- requests_get api_url (search_params search_phrase lang_code) ;;
  resp <- json response ;;
  query <- subscript resp "query" ;;
  search_results <- subscript query "search" ;;
  search_results <- slice_results search_results num_results ;;
  results_information <- results_information_of search_results [] ;;
  let results_qids := dict_keys results_information in
  filtered_qids <- filter_qids results_qids ;;
  weights <- linspace 1 (1 # 100) num_results ;;
  final_results_of results_qids filtered_qids weights
                   (dict_items results_information) [].

Definition entity_extraction (text entity : string)
           (start_char num_search_results context_window : Z) (lang_code : string)
  : result pydict :=
  qid <- get_typed_qnumber entity (lang_code ++ "wiki") lang_code ;;
  if negb (String.eqb qid "-1") then
    extract_wikidata_entity_info qid entity_properties lang_code
  else
    search_results <- wikidata_search entity num_search_results lang_code ;;
    context <- extract_context_by_words set_iter text start_char context_window ;;
    match search_results with
    | [] => Ok []
    | _ :: _ =>
        top_entity <- context_entity_matching context search_results ;;
        extract_wikidata_entity_info top_entity entity_properties lang_code
    end.

End TypedLinker.

(** [LocationEntityLinker]: official language, population, contains
    administrative territorial entity, GeoNames ID. *)
Definition location_filter_properties : list string := ["P37"; "P1082"; "P150"; "P1566"].

Definition get_location_qnumber := get_typed_qnumber location_filter_properties.
Definition filter_location_qids := filter_qids location_filter_properties.
Definition location_wikidata_search := wikidata_search location_filter_properties.
Definition location_entity_extraction (location_properties : list (string * string)) :=
  entity_extraction location_filter_properties location_properties.

(** [OrganizationEntityLinker]: industry, has subsidiary, location of
    formation, founded by, employees, inception. *)
Definition organization_filter_properties : list string :=
  ["P452"; "P355"; "P740"; "P112"; "P1128"; "P571"].

Definition get_organization_qnumber := get_typed_qnumber organization_filter_properties.
Definition filter_organization_qids := filter_qids organization_filter_properties.
Definition organization_wikidata_search := wikidata_search organization_filter_properties.
Definition organization_entity_extraction (organization_properties : list (string * string)) :=
  entity_extraction organization_filter_properties organization_properties.

End EntityLinker.

(** ** [MultiEntityLinker] (MultiEntityLinker.py)

    [PersonEntityLinker] lives in a module the dispatcher imports; its
    [person_entity_extraction] is a variable here, as are NLTK's
    [word_tokenize] and the tables the constructor stores. *)

(** What [extract_entities] itself writes to standard output, in order: the
    header of a processed mention, and the record [pprint] shows for it.
    The lines the resolvers print in between (such as "Found exact entity
    match" or the candidates of a search) are not recorded. *)
Inductive event : Type :=
| PrintMention (entity entity_type processed_entity : string)
| PrintInfo (entity_info : pydict).

Section MultiEntityLinker.

Variable requests_get : network.
Variable cos_sim : string -> string -> Q.
Variable set_iter : set_order.
Variable word_tokenize : string -> list string.
Variable person_entity_extraction :
  string -> string -> Z -> Z -> Z -> string -> result pydict.
Variable organization_properties : list (string * string).
Variable location_properties : list (string * string).
Variable stopwords : list string.

Definition preprocess_entity_name (entity_label : string) : result string :=
  let title_tokens := word_tokenize entity_label in
  first <- getitem title_tokens 0 ;;
  if mem_str (lower first) stopwords
  then Ok (join " " (skipn 1 title_tokens))
  else Ok entity_label.

(** The [if / elif / elif] on the type tag: the new binding of [entity_info],
    which stays as it was when no branch is taken. *)
Definition route (entity_info : option pydict) (text processed_entity : string)
           (start_char : Z) (entity_type : string)
           (num_search_results context_window : Z) (lang_code : string)
  : result (option pydict) :=
  if String.eqb (lower entity_type) "per" then
    info <- person_entity_extraction text processed_entity start_char
              num_search_results context_window lang_code ;;
    Ok (Some info)
  else if String.eqb (lower entity_type) "org" then
    info <- organization_entity_extraction requests_get cos_sim set_iter
              organization_properties text processed_entity start_char
              num_search_results context_window lang_code ;;
    Ok (Some info)
  else if String.eqb (lower entity_type) "loc" || String.eqb (lower entity_type) "gpe" then
    info <- location_entity_extraction requests_get cos_sim set_iter
              location_properties text processed_entity start_char
              num_search_results context_window lang_code ;;
    Ok (Some info)
  else Ok entity_info.

(** [for entity, information in entity_dict.items(): ...].  The state is the
    binding of [entity_info] and the output so far; the result is the output
    and what the call returns ([None], there is no [return]) or raises. *)
Fixpoint extract_entities_loop (items : list (string * (Z * string))) (text : string)
         (num_search_results context_window : Z) (lang_code : string)
         (entity_info : option pydict) (out : list event)
  : list event * result pyval :=
  match items with
  | [] => (out, Ok VNone)
  | (entity, (start_char, entity_type)) :: rest =>
      match preprocess_entity_name entity with
      | Raise e => (out, Raise e)
      | Ok processed_entity =>
          if negb (String.eqb processed_entity "") then
            let out := (out ++ [PrintMention entity entity_type processed_entity])%list in
            match route entity_info text processed_entity start_char entity_type
                        num_search_results context_window lang_code with
            | Raise e => (out, Raise e)
            | Ok entity_info =>
                match read_local entity_info with
                | Raise e => (out, Raise e)
                | Ok info =>
                    extract_entities_loop rest text num_search_results context_window
                                          lang_code entity_info (out ++ [PrintInfo info])
                end
            end
          else extract_entities_loop rest text num_search_results context_window
                                     lang_code entity_info out
      end
  end.

Definition extract_entities (entity_dict : list (string * (Z * string))) (text : string)
           (num_search_results context_window : Z) (lang_code : string)
  : list event * result pyval :=
  extract_entities_loop (dict_items entity_dict) text num_search_results
                        context_window lang_code None [].

End MultiEntityLinker.

(** ** A small knowledge base

    A network that serves a handful of records in the shape of the Wikidata
    responses, for the examples below. *)

Definition localized_text (lang text : string) : pyval :=
  VDict [("language", VStr lang); ("value", VStr text)].

Definition snak (datavalue : pyval) : pyval :=
  VDict [("mainsnak", VDict [("snaktype", VStr "value");
                             ("datavalue", VDict [("value", datavalue)])]);
         ("rank", VStr "normal")].

Definition snak_novalue : pyval :=
  VDict [("mainsnak", VDict [("snaktype", VStr "novalue")]); ("rank", VStr "normal")].

Definition item_ref (qid : string) : pyval :=
  VDict [("entity-type", VStr "item"); ("id", VStr qid)].

Definition record (labels descriptions : list (string * string))
           (claims : list (string * list pyval)) : pyval :=
  VDict [("type", VStr "item");
         ("labels", VDict (map (fun p => (fst p, localized_text (fst p) (snd p))) labels));
         ("descriptions",
           VDict (map (fun p => (fst p, localized_text (fst p) (snd p))) descriptions));
         ("claims", VDict (map (fun p => (fst p, VList (snd p))) claims))].

Definition page (body : pyval) : result response := Ok (Response 200 (Some body)).

Definition entity_page (qid : string) (rec : pyval) : result response :=
  page (VDict [("entities", VDict [(qid, rec)])]).

Definition not_found : result response := Ok (Response 404 None).

Definition paris : pyval :=
  record [("en", "Paris"); ("fr", "Paris")]
         [("en", "capital of France")]
         [("P1082", [snak (VDict [("amount", VStr "+2145906"); ("unit", VStr "1")])]);
          ("P17", [snak (item_ref "Q142")]);
          ("P31", [snak (item_ref "Q515")])].

Definition france : pyval :=
  record [("en", "France"); ("fr", "France")] [("en", "country in Europe")] [].

Definition amazon_company : pyval :=
  record [("en", "Amazon")]
         [("en", "American technology company")]
         [("P571", [snak (VDict [("time", VStr "+1994-07-05T00:00:00Z")])]);
          ("P112", [snak (item_ref "Q312556")]);
          ("P452", [snak (item_ref "Q484847"); snak_novalue; snak (item_ref "Q126793")]);
          ("P31", [snak (item_ref "Q4830453")])].

Definition amazon_river : pyval :=
  record [("en", "Amazon")] [("en", "river in South America")]
         [("P31", [snak (item_ref "Q4022")])].

Definition ecommerce : pyval := record [("en", "e-commerce")] [] [].
Definition retail : pyval := record [("en", "retail")] [] [].

(** A record with a GeoNames ID and no label at all. *)
Definition atlantis : pyval :=
  record [] [("en", "fictional island")] [("P1566", [snak (VStr "0000000")])].

Definition sample_records : list (string * pyval) :=
  [("Q90", paris); ("Q142", france); ("Q3884", amazon_company);
   ("Q3783", amazon_river); ("Q484847", ecommerce); ("Q126793", retail);
   ("Q666", atlantis)].

Definition sample_titles : list (string * string) :=
  [("Paris", "Q90"); ("Atlantis", "Q666")].

Definition sample_hits : list (string * pyval) :=
  [("Amazon",
    VList [VDict [("title", VStr "Q295875"); ("snippet", VStr "")];
           VDict [("title", VStr "Q3783"); ("snippet", VStr "river in South America")];
           VDict [("title", VStr "Q3884"); ("snippet", VStr "American technology company")]])].

Definition sample_net : network :=
  fun url params =>
    if String.eqb url api_url then
      match dict_get params "action" with
      | Some action =>
          if String.eqb action "wbgetentities" then
            match dict_get params "titles", dict_get params "ids" with
            | Some title, _ =>
                match dict_get sample_titles title with
                | Some qid => page (VDict [("entities", VDict [(qid, VDict [("id", VStr qid)])])])
                | None => page (VDict [("entities",
                                        VDict [("-1", VDict [("title", VStr title);
                                                             ("missing", VStr "")])])])
                end
            | None, Some qid =>
                match dict_get sample_records qid with
                | Some rec => entity_page qid rec
                | None => page (VDict [("error", VDict [("code", VStr "no-such-entity")])])
                end
            | None, None => page (VDict [("error", VDict [("code", VStr "param-missing")])])
            end
          else if String.eqb action "query" then
            match dict_get params "srsearch" with
            | Some phrase =>
                match dict_get sample_hits phrase with
                | Some hits => page (VDict [("query", VDict [("search", hits)])])
                | None => page (VDict [("query", VDict [("search", VList [])])])
                end
            | None => page (VDict [("error", VDict [("code", VStr "param-missing")])])
            end
          else Ok (Response 400 None)
      | None => Ok (Response 400 None)
      end
    else
      match find (fun p => String.eqb url (entity_data_url (fst p))) sample_records with
      | Some (qid, rec) => entity_page qid rec
      | None => not_found
      end.

(** A network that is down: every request raises. *)
Definition offline_net : network := fun _ _ => Raise ConnectionError.

Definition sample_cos_sim : string -> string -> Q := fun _ _ => (1 # 2)%Q.

Definition sample_person_extraction
  : string -> string -> Z -> Z -> Z -> string -> result pydict :=
  fun _ _ _ _ _ _ => Ok [].

Definition sample_stopwords : list string := ["the"; "le"; "der"].

Definition sample_location_properties : list (string * string) :=
  [("P1082", "population"); ("P17", "country"); ("P36", "capital")].

Definition sample_organization_properties : list (string * string) :=
  [("P571", "inception"); ("P112", "founded by"); ("P452", "industry");
   ("P159", "headquarters location")].

Definition sample_text : string :=
  "Paris hosts an office of the Amazon company. Atlantis does not.".

Definition sample_linker :=
  extract_entities sample_net sample_cos_sim cpython_set_order re_split_space
                   sample_person_extraction sample_organization_properties
                   sample_location_properties sample_stopwords.


(** A stand-in for NLTK's [sent_tokenize] on plain prose: a sentence ends
    with its full stop, the blanks after it belong to no sentence. *)
Fixpoint split_sentences_from (current : string) (text : string) : list string :=
  match text with
  | EmptyString => if String.eqb current "" then [] else [current]
  | String c rest =>
      if Ascii.eqb c "." then (current ++ ".") :: split_sentences_from "" rest
      else if is_space c && String.eqb current "" then split_sentences_from current rest
           else split_sentences_from (current ++ String c "") rest
  end.

Definition split_sentences (text : string) : list string := split_sentences_from "" text.

Definition ten_sentences : string :=
  "Ann ran. Bob sat. Cy hid. Di sang. Ed dug. Flo won. Gus lost. Hal ate. Ida wept. Jo left.".

(** ** Notions the statements use *)

(** The characters the anchor loop counts over a sequence of units. *)
Fixpoint units_length (sep : Z) (units : list string) : Z :=
  match units with
  | [] => 0
  | unit :: rest => len_str unit + sep + units_length sep rest
  end.

(** The verdict of the candidate filter on one id, as the body of the filter
    loop decides it: the record is fetched with status 200 and the [try]
    block reaches the [append]. *)
Definition accepts (requests_get : network) (filter_properties : list string)
           (qid : string) : bool :=
  match requests_get (entity_data_url qid) [] with
  | Ok response =>
      (status_code response =? 200)
      && match passes_filter filter_properties response qid with
         | Ok passed => passed
         | Raise _ => false
         end
  | Raise _ => false
  end.

(** How the values of one property are stored, in the words of the
    specification: a scalar for exactly one value, the list otherwise. *)
Definition collapse (values : list pyval) : pyval :=
  match values with
  | [x] => x
  | _ => VList values
  end.

(** The values the projection extracts for one property of a record whose
    claims are [claims]: the three steps [project_claims] takes before it
    stores them. *)
Definition property_values (requests_get : network) (lang_code : string)
           (claims : pydict) (prop : string) : result (list pyval) :=
  prop_claims <- subscript (VDict claims) prop ;;
  prop_claims <- iterate prop_claims ;;
  collect_property_data requests_get lang_code prop_claims [].

(** [field] holds the stored values of a property among [props] that the
    schema maps to it. *)
Definition holds_property (requests_get : network)
           (entity_properties : list (string * string)) (lang_code : string)
           (claims : pydict) (props : list string) (info : pydict) (field : string)
  : Prop :=
  exists prop values,
    In prop props
    /\ dict_get entity_properties prop = Some field
    /\ property_values requests_get lang_code claims prop = Ok values
    /\ dict_get info field = Some (collapse values).

(** The prior weight of slot [rank] out of [num_results]: the straight line
    from 1.0 at the first slot to 0.01 at the last. *)
Definition interpolate (num_results rank : Z) : Q :=
  if num_results <=? 1 then 1
  else (1 + inject_Z rank * (((1 # 100) - 1) / inject_Z (num_results - 1)))%Q.

(** The first steps of [wikidata_search]: the snippet-bearing hits among the
    first [num_results] results, before any filter. *)
Definition results_information (requests_get : network)
           (search_phrase : string) (num_results : Z) (lang_code : string)
  : result pydict :=
  response <- requests_get api_url (search_params search_phrase lang_code) ;;
  resp <- json response ;;
  query <- subscript resp "query" ;;
  search_results <- subscript query "search" ;;
  search_results <- slice_results search_results num_results ;;
  results_information_of search_results [].

(** The rank the search engine gave a title: its place in the list of hits
    as the response holds it. *)
Fixpoint rank_among (qid : string) (hits : list pyval) : option Z :=
  match hits with
  | [] => None
  | hit :: rest =>
      match subscript hit "title" with
      | Ok title => if eq_str title qid then Some 0
                    else option_map (Z.add 1) (rank_among qid rest)
      | Raise _ => option_map (Z.add 1) (rank_among qid rest)
      end
  end.

Definition search_rank (requests_get : network) (search_phrase lang_code qid : string)
  : option Z :=
  match (response <- requests_get api_url (search_params search_phrase lang_code) ;;
         resp <- json response ;;
         query <- subscript resp "query" ;;
         search_results <- subscript query "search" ;;
         iterate search_results) with
  | Ok hits => rank_among qid hits
  | Raise _ => None
  end.

(** The last three steps of both matching functions: the name at the first
    index that holds the maximum of the weighted scores. *)
Definition pick_top (entity_names : list string) (weighted_scores : list float)
  : result string :=
  max_score <- array_max weighted_scores ;;
  top_entity_id <- index_of max_score weighted_scores ;;
  getitem entity_names top_entity_id.

(** The weighted scores of a candidate set as the code computes them, in
    binary64, in the iteration order of the set. *)
Definition context_scores (cos_sim : string -> string -> Q) (context : string)
           (c : candidates) : list float :=
  map (fun entry => match fst (snd entry) with
                    | VStr snippet =>
                        (binary64 (cos_sim context snippet)
                         * binary64 (snd (snd entry)))%float
                    | _ => PrimFloat.zero
                    end) c.

Definition label_scores (cos_sim : string -> string -> Q) (entity_label : string)
           (l : list (string * Q)) : list float :=
  map (fun entry => (binary64 (cos_sim entity_label (fst entry))
                     * binary64 (snd entry))%float) l.

(** Every snippet is a string. *)
Definition all_text (c : candidates) : Prop :=
  Forall (fun entry => exists snippet, fst (snd entry) = VStr snippet) c.

(** Two scores that [==] finds equal: a tie. *)
Definition tie (a b : float) : Prop := (a =? b)%float = true.

(** No two scores of the list tie. *)
Definition pairwise_distinct (scores : list float) : Prop := NoDupA tie scores.

(** No score is a NaN. *)
Definition all_numbers (scores : list float) : Prop :=
  Forall (fun s => is_nan s = false) scores.

(** Index [i] is the first one that holds the maximum of [scores]. *)
Definition first_max (i : nat) (scores : list float) : Prop :=
  exists s,
    nth_error scores i = Some s
    /\ (forall x, In x scores -> (x <=? s)%float = true)
    /\ (forall j x, (j < i)%nat -> nth_error scores j = Some x -> (x =? s)%float = false).

Definition two_candidates : candidates :=
  [("Q3884", (VStr "American technology company", 1%Q));
   ("Q3783", (VStr "river in South America", (3 # 10)%Q))].

Definition two_labels : list (string * Q) :=
  [("Amazon (company)", 1%Q); ("Amazon River", (3 # 10)%Q)].

(** A scorer that gives the label [B] the cosine 0.25 and every other label
    0.75, and two weighted label sets for it. *)
Definition quarter_cos_sim : string -> string -> Q :=
  fun _ text => if String.eqb text "B" then (1 # 4)%Q else (3 # 4)%Q.

Definition close_labels : list (string * Q) :=
  [("B", (3 # 10)%Q); ("A", (1 # 10)%Q)].

Definition rounded_tie_labels : list (string * Q) :=
  [("A", (1 # 3)%Q); ("B", 1%Q)].

(** *** Notions for the dispatcher *)

(** The type tags that have a resolver. *)
Definition registered (entity_type : string) : bool :=
  String.eqb (lower entity_type) "per"
  || String.eqb (lower entity_type) "org"
  || String.eqb (lower entity_type) "loc"
  || String.eqb (lower entity_type) "gpe".

(** A mention the dispatcher processes: one whose normalized label is not empty. *)
Record mention : Type := Mention {
  mention_entity : string;
  mention_processed : string;
  mention_start : Z;
  mention_type : string
}.

(** The header and the record printed for each processed mention. *)
Fixpoint printed (mentions : list mention) (records : list pydict) : list event :=
  match mentions, records with
  | m :: mentions', r :: records' =>
      PrintMention (mention_entity m) (mention_type m) (mention_processed m)
      :: PrintInfo r :: printed mentions' records'
  | _, _ => []
  end.

Section Dispatch.

Variable requests_get : network.
Variable cos_sim : string -> string -> Q.
Variable set_iter : set_order.
Variable word_tokenize : string -> list string.
Variable person_entity_extraction :
  string -> string -> Z -> Z -> Z -> string -> result pydict.
Variable organization_properties : list (string * string).
Variable location_properties : list (string * string).
Variable stopwords : list string.

(** The mentions of a document that are processed, in input order, when
    every label can be normalized. *)
Fixpoint processed_mentions (items : list (string * (Z * string)))
  : result (list mention) :=
  match items with
  | [] => Ok []
  | (entity, (start_char, entity_type)) :: rest =>
      processed_entity <- preprocess_entity_name word_tokenize stopwords entity ;;
      mentions <- processed_mentions rest ;;
      if String.eqb processed_entity ""
      then Ok mentions
      else Ok (Mention entity processed_entity start_char entity_type :: mentions)
  end.

(** The record the resolver of a mention's type returns for it. *)
Definition resolve (text : string) (num_search_results context_window : Z)
           (lang_code : string) (m : mention) : result pydict :=
  entity_info <- route requests_get cos_sim set_iter person_entity_extraction
                   organization_properties location_properties
                   None text (mention_processed m) (mention_start m) (mention_type m)
                   num_search_results context_window lang_code ;;
  read_local entity_info.

End Dispatch.

(** ** Further notions *)

(** [unit] is the unit the anchor loop stops at: the first one at which the
    running count exceeds [start_char]. *)
Definition stops_at (sep : Z) (units : list string) (start_char : Z) (unit : string)
  : Prop :=
  exists before after,
    units = (before ++ unit :: after)%list
    /\ (before = [] \/ units_length sep before <= start_char)
    /\ start_char < units_length sep before + len_str unit + sep.

(** The units at the indices [lo .. hi], in that order. *)
Definition units_between (units : list string) (lo hi : Z) : list string :=
  map (fun i => nth (Z.to_nat i) units "") (arange lo (hi + 1)).

(** The widest window the properties of a context are stated for.
    [np.arange] holds the indices in 64 bits and builds all of them,
    [2 * window + 1], before they are clipped to the text; up to this bound
    [arange] is what it computes. *)
Definition max_window : Z := 2 ^ 20.

(** [sample_net] with one more title in the exact-title index. *)
Definition sample_net_with_title (title qid : string) : network :=
  fun url params =>
    if String.eqb url api_url
       && match dict_get params "titles" with
          | Some t => String.eqb t title
          | None => false
          end
    then page (VDict [("entities", VDict [(qid, VDict [("id", VStr qid)])])])
    else sample_net url params.

(** A claim whose shape lets the projection read it: a dictionary with a
    main snak that has a snak type and, for the type "value", a data value
    that is a dictionary, a list or a string. *)
Definition claim_readable (claim : pyval) : bool :=
  match subscript claim "mainsnak" with
  | Ok mainsnak =>
      match subscript mainsnak "snaktype" with
      | Ok snaktype =>
          if eq_str snaktype "value" then
            match subscript mainsnak "datavalue" with
            | Ok datavalue =>
                match subscript datavalue "value" with
                | Ok value => is_ok (contains "id" value)
                | Raise _ => false
                end
            | Raise _ => false
            end
          else true
      | Raise _ => false
      end
  | Raise _ => false
  end.

(** What one claim contributes to the values of its property, taken on its
    own: nothing when its snak holds no value; the value itself when it is
    a literal (it has no "id"); the label of the record it refers to when the
    lookup returns one; nothing when the lookup answers with another status
    than 200 or raises. *)
Definition claim_values (requests_get : network) (lang_code : string) (claim : pyval)
  : list pyval :=
  match subscript claim "mainsnak" with
  | Ok mainsnak =>
      match subscript mainsnak "snaktype" with
      | Ok snaktype =>
          if eq_str snaktype "value" then
            match subscript mainsnak "datavalue" with
            | Ok datavalue =>
                match subscript datavalue "value" with
                | Ok value =>
                    match contains "id" value with
                    | Ok true =>
                        match resolve_reference requests_get value lang_code with
                        | Ok (Some label) => [label]
                        | _ => []
                        end
                    | Ok false => [value]
                    | Raise _ => []
                    end
                | Raise _ => []
                end
            | Raise _ => []
            end
          else []
      | Raise _ => []
      end
  | Raise _ => []
  end.

(** The request of the disambiguation check for [qid]. *)
Definition check_request (qid lang_code : string) : list (string * string) :=
  [("action", "wbgetentities"); ("format", "json"); ("ids", qid); ("languages", lang_code)].

(** ["entities" in data and qid in data["entities"]] *)
Definition has_entry (data : pyval) (qid : string) : result bool :=
  has_entities <- contains "entities" data ;;
  if has_entities
  then entities <- subscript data "entities" ;; contains qid entities
  else Ok false.

(** [data["entities"][qid]["descriptions"][lang_code]["value"]] *)
Definition description_of (data : pyval) (qid lang_code : string) : result pyval :=
  entities <- subscript data "entities" ;;
  entity <- subscript entities qid ;;
  descriptions <- subscript entity "descriptions" ;;
  localized <- subscript descriptions lang_code ;;
  subscript localized "value".

(** ** [EntityLinker.get_entity_property_values]

    The SPARQL endpoint is an oracle from the query text to what
    [endpoint.query().convert()] returns or raises. *)

Definition double_quote : string := String (ascii_of_nat 34) EmptyString.
Definition newline : string := String (ascii_of_nat 10) EmptyString.

(** The query template after [.format(qid, property_id, lang_code)]. *)
Definition sparql_query_text (qid property_id lang_code : string) : string :=
  newline
  ++ "        SELECT ?value ?valueLabel" ++ newline
  ++ "        WHERE {" ++ newline
  ++ "        wd:" ++ qid ++ " p:" ++ property_id ++ " ?statement." ++ newline
  ++ "        ?statement ps:" ++ property_id ++ " ?value." ++ newline
  ++ "        OPTIONAL { ?value rdfs:label ?valueLabel. FILTER(LANG(?valueLabel) = "
  ++ double_quote ++ lang_code ++ double_quote ++ ") }" ++ newline
  ++ "        }" ++ newline
  ++ "        ".

(** [for binding in result["results"]["bindings"]: ...], threading [values]. *)
Fixpoint collect_bindings (bindings : list pyval) (values : list pyval)
  : result (list pyval) :=
  match bindings with
  | [] => Ok values
  | binding :: rest =>
      has_value <- contains "value" binding ;;
      if has_value then
        value <- subscript binding "value" ;;
        value_type <- subscript value "type" ;;
        is_date <- (if eq_str value_type "literal"
                    then datatype <- subscript value "datatype" ;;
                         Ok (eq_str datatype "http://www.w3.org/2001/XMLSchema#dateTime")
                    else Ok false) ;;
        if is_date then
          raw <- subscript value "value" ;;
          collect_bindings rest (values ++ [raw])
        else
          has_label <- contains "valueLabel" binding ;;
          item <- (if has_label
                   then label <- subscript binding "valueLabel" ;; subscript label "value"
                   else subscript value "value") ;;
          collect_bindings rest (values ++ [item])
      else collect_bindings rest values
  end.

Definition get_entity_property_values (sparql_query : string -> result pyval)
           (qid property_id lang_code : string) : result pyval :=
  let query := sparql_query_text qid property_id lang_code in
  try_except
    (result <- sparql_query query ;;
     results <- subscript result "results" ;;
     bindings <- subscript results "bindings" ;;
     bindings <- iterate bindings ;;
     values <- collect_bindings bindings [] ;;
     Ok (VList values))
    (fun _ => Ok VNone).

(** A binding that carries a value. *)
Definition has_value (binding : pyval) : bool :=
  match contains "value" binding with
  | Ok found => found
  | Raise _ => false
  end.

(** A binding whose value is a literal without a datatype (a plain or
    language-tagged string). *)
Definition plain_literal (binding : pyval) : Prop :=
  exists fields value,
    binding = VDict fields
    /\ dict_get fields "value" = Some (VDict value)
    /\ dict_get value "type" = Some (VStr "literal")
    /\ dict_get value "datatype" = None.

Definition sample_bindings : list pyval :=
  [VDict [("value", VDict [("type", VStr "uri");
                           ("value", VStr "http://www.wikidata.org/entity/Q142")]);
          ("valueLabel", VDict [("type", VStr "literal"); ("value", VStr "France")])];
   VDict [("value", VDict [("type", VStr "literal");
                           ("datatype", VStr "http://www.w3.org/2001/XMLSchema#dateTime");
                           ("value", VStr "1994-07-05T00:00:00Z")])];
   VDict [("other", VStr "x")]].

Definition sample_sparql (bindings : list pyval) : string -> result pyval :=
  fun _ => Ok (VDict [("head", VDict []);
                      ("results", VDict [("bindings", VList bindings)])]).

Definition sample_plain_binding : pyval :=
  VDict [("value", VDict [("type", VStr "literal"); ("xml:lang", VStr "en");
                          ("value", VStr "Lutetia")])].

(** * Properties *)

(** ** Basic facts on results and lists *)

Lemma bind_ok {A B : Type} (m : result A) (k : A -> result B) (b : B) :
  bind m k = Ok b -> exists a, m = Ok a /\ k a = Ok b.
Proof.
  destruct m as [a|e]; simpl; intros H; [eauto | discriminate].
Qed.

Ltac inv_bind H :=
  let a := fresh "a" in
  let Ha := fresh "Hm" in
  apply bind_ok in H; destruct H as [a [Ha H]].

Tactic Notation "bind_inv" hyp(H) "as" ident(a) ident(Ha) :=
  apply bind_ok in H; destruct H as [a [Ha H]].

Lemma len_str_nonneg (s : string) : 0 <= len_str s.
Proof. unfold len_str; lia. Qed.

(** ** Context extraction *)

Lemma anchor_loop_runs_out (sep : Z) (all_units rest : list string) (count start_char : Z) :
  0 <= sep ->
  count + units_length sep rest <= start_char ->
  anchor_loop sep all_units rest count start_char = Ok None.
Proof.
  intros Hsep. revert count.
  induction rest as [|unit rest IH]; intros count Hle;
    cbn [anchor_loop units_length] in *.
  - reflexivity.
  - pose proof (len_str_nonneg unit) as Hu.
    assert (Hrest : 0 <= units_length sep rest).
    { clear -Hsep. induction rest as [|u r IHr]; cbn [units_length]; [lia|].
      pose proof (len_str_nonneg u). lia. }
    destruct (start_char <? count + len_str unit + sep) eqn:Hlt.
    + apply Z.ltb_lt in Hlt. lia.
    + apply IH. lia.
Qed.

Lemma re_split_space_nonempty (text : string) : re_split_space text <> [].
Proof.
  destruct text as [|c rest]; simpl; [discriminate|].
  destruct (is_space c); [discriminate|].
  destruct (re_split_space rest); discriminate.
Qed.

Lemma len_str_String (c : ascii) (s : string) : len_str (String c s) = len_str s + 1.
Proof. unfold len_str. cbn [String.length]. lia. Qed.

Lemma re_split_space_length (text : string) :
  units_length 1 (re_split_space text) = len_str text + 1.
Proof.
  induction text as [|c rest IH]; cbn [re_split_space].
  - reflexivity.
  - rewrite len_str_String. destruct (is_space c).
    + cbn [units_length]. rewrite IH. change (len_str "") with 0. lia.
    + pose proof (re_split_space_nonempty rest) as Hne.
      destruct (re_split_space rest) as [|w ws]; [congruence|].
      cbn [units_length] in *. rewrite len_str_String. lia.
Qed.

(** C5 (the code fails the claim).  With [start_char] past the end of the
    text the anchor loop of both extractors runs to its end without binding
    the selected index, and reading it raises [UnboundLocalError]: no unit is
    selected and no context is returned.  For sentences this holds for
    every tokenizer whose sentences are no longer than the text. *)
Theorem offset_past_end_raises
        (set_iter : set_order) (sent_tokenize : string -> list string)
        (text : string) (start_char context_window : Z) :
  len_str text < start_char ->
  units_length 0 (sent_tokenize text) <= len_str text ->
  extract_context_by_words set_iter text start_char context_window
    = Raise UnboundLocalError
  /\ extract_context_by_sentences set_iter sent_tokenize text start_char context_window
    = Raise UnboundLocalError.
Proof.
  intros Hpast Htok. split.
  - unfold extract_context_by_words.
    rewrite anchor_loop_runs_out.
    + simpl. destruct (context_window =? 0); reflexivity.
    + lia.
    + rewrite re_split_space_length. lia.
  - unfold extract_context_by_sentences, context_of_sentences.
    rewrite anchor_loop_runs_out.
    + simpl. destruct (context_window =? 0); reflexivity.
    + lia.
    + lia.
Qed.

Lemma offset_past_end_raises_witness :
  extract_context_by_words cpython_set_order "Paris is big. So is Rome." 40 2
    = Raise UnboundLocalError
  /\ extract_context_by_sentences cpython_set_order split_sentences
       "Paris is big. So is Rome." 40 2
    = Raise UnboundLocalError.
Proof.
  apply offset_past_end_raises; vm_compute; [reflexivity | discriminate].
Defined.

(** The anchor is [units.index(unit)]: the first unit equal to the one the
    loop stopped at.  In "a b a" the offset 4 lies in the third word, and
    the anchor is the first. *)
Example anchor_is_first_equal_unit :
  anchor_loop 1 (re_split_space "a b a") (re_split_space "a b a") 0 4 = Ok (Some 0)
  /\ extract_context_by_words cpython_set_order "a b a" 4 1 = Ok "a b".
Proof. split; vm_compute; reflexivity. Qed.

(** *** The window of units *)

Lemma In_arange (lo hi i : Z) : In i (arange lo hi) <-> lo <= i < hi.
Proof.
  unfold arange. rewrite in_map_iff. split.
  - intros [k [Hk Hin]]. apply in_seq in Hin. lia.
  - intros H. exists (Z.to_nat (i - lo)). split; [lia|].
    apply in_seq. lia.
Qed.

Lemma clipped_window_spec (n a w i : Z) :
  0 <= w -> 0 <= a < n ->
  In i (map (clip_function n) (arange (a - w) (a + w + 1)))
  <-> Z.max 0 (a - w) <= i <= Z.min (n - 1) (a + w).
Proof.
  intros Hw Ha. rewrite in_map_iff. unfold clip_function. split.
  - intros [x [Hx Hin]]. apply In_arange in Hin. lia.
  - intros Hi. exists i. split; [lia|]. apply In_arange. lia.
Qed.

(** A wider window selects every unit a narrower one does. *)
Lemma wider_window_keeps_units (n a w w' i : Z) :
  0 <= w <= w' -> 0 <= a < n ->
  In i (map (clip_function n) (arange (a - w) (a + w + 1))) ->
  In i (map (clip_function n) (arange (a - w') (a + w' + 1))).
Proof.
  intros Hw Ha Hin.
  apply clipped_window_spec in Hin; [|lia|lia].
  apply clipped_window_spec; lia.
Qed.

Lemma list_index_bounds (x : string) (l : list string) (i : Z) :
  list_index x l = Ok i -> 0 <= i < len l.
Proof.
  revert i. induction l as [|y l IH]; intros i H; cbn [list_index] in H.
  - discriminate.
  - unfold len in *. cbn [List.length]. destruct (String.eqb y x).
    + inversion H; subst. lia.
    + inv_bind H. inversion H; subst. specialize (IH _ Hm). lia.
Qed.

Lemma anchor_loop_bounds (sep : Z) (all_units rest : list string) (count start_char a : Z) :
  anchor_loop sep all_units rest count start_char = Ok (Some a) ->
  0 <= a < len all_units.
Proof.
  revert count. induction rest as [|unit rest IH]; intros count H;
    cbn [anchor_loop] in H.
  - discriminate.
  - destruct (start_char <? count + len_str unit + sep).
    + inv_bind H. inversion H; subst. eapply list_index_bounds; eauto.
    + eapply IH; eauto.
Qed.

Lemma getitem_in_range {A : Type} (l : list A) (i : Z) :
  0 <= i < len l -> exists a, getitem l i = Ok a /\ nth_error l (Z.to_nat i) = Some a.
Proof.
  intros Hi. unfold getitem.
  destruct (i <? 0) eqn:Hneg; [apply Z.ltb_lt in Hneg; lia|].
  rewrite Hneg.
  destruct (nth_error l (Z.to_nat i)) as [a|] eqn:Hnth; [eauto|].
  apply nth_error_None in Hnth. unfold len in Hi. lia.
Qed.

Lemma mapM_getitem_in_range {A : Type} (l : list A) (ids : list Z) :
  (forall i, In i ids -> 0 <= i < len l) ->
  exists units, mapM (getitem l) ids = Ok units /\ List.length units = List.length ids.
Proof.
  induction ids as [|i ids IH]; intros Hall; cbn [mapM].
  - exists []. split; reflexivity.
  - destruct (getitem_in_range l i) as [a [Ha _]]; [apply Hall; left; reflexivity|].
    destruct IH as [units [Hu Hlen]]; [intros j Hj; apply Hall; right; exact Hj|].
    rewrite Ha, Hu. simpl. exists (a :: units). split; [reflexivity|simpl; congruence].
Qed.

(** What the sentence extractor does get right for a window of at least
    one: it returns, and the sentences it joins are those of the clamped
    range, each once.  Their order is the order of the set. *)
Lemma context_of_sentences_selects
      (set_iter : set_order) (sentences : list string) (start_char w a : Z) :
  set_order_ok set_iter ->
  1 <= w ->
  anchor_loop 0 sentences sentences 0 start_char = Ok (Some a) ->
  exists ids units,
    NoDup ids
    /\ (forall i, In i ids <-> Z.max 0 (a - w) <= i <= Z.min (len sentences - 1) (a + w))
    /\ mapM (getitem sentences) ids = Ok units
    /\ context_of_sentences set_iter sentences start_char w = Ok (join "" units).
Proof.
  intros Hset Hw Hanchor.
  pose proof (anchor_loop_bounds _ _ _ _ _ _ Hanchor) as Ha.
  set (ids := set_iter (map (clip_function (len sentences)) (arange (a - w) (a + w + 1)))).
  destruct (Hset (map (clip_function (len sentences)) (arange (a - w) (a + w + 1))))
    as [Hnodup Hin].
  assert (Hspec : forall i, In i ids
                    <-> Z.max 0 (a - w) <= i <= Z.min (len sentences - 1) (a + w)).
  { intros i. unfold ids. rewrite Hin. apply clipped_window_spec; lia. }
  destruct (mapM_getitem_in_range sentences ids) as [units [Hunits _]].
  { intros i Hi. apply Hspec in Hi. lia. }
  exists ids, units. split; [exact Hnodup|]. split; [exact Hspec|].
  split; [exact Hunits|].
  unfold context_of_sentences. rewrite Hanchor. cbn [bind read_local].
  destruct (w =? 0) eqn:Hz; [apply Z.eqb_eq in Hz; lia|].
  fold ids. rewrite Hunits. reflexivity.
Qed.

(** The order CPython gives a set is an order of the set. *)

Lemma existsb_eqb_In (x : Z) (l : list Z) : existsb (Z.eqb x) l = true <-> In x l.
Proof.
  rewrite existsb_exists. split.
  - intros [y [Hin Heq]]. apply Z.eqb_eq in Heq. subst. exact Hin.
  - intros Hin. exists x. split; [exact Hin | apply Z.eqb_refl].
Qed.

Lemma dedup_In (x : Z) (l : list Z) : In x (dedup l) <-> In x l.
Proof.
  induction l as [|y l IH]; cbn [dedup]; [tauto|].
  destruct (existsb (Z.eqb y) l) eqn:Hex.
  - apply existsb_eqb_In in Hex. rewrite IH. simpl. split; [tauto|].
    intros [->|H]; assumption.
  - simpl. rewrite IH. tauto.
Qed.

Lemma dedup_NoDup (l : list Z) : NoDup (dedup l).
Proof.
  induction l as [|y l IH]; cbn [dedup]; [constructor|].
  destruct (existsb (Z.eqb y) l) eqn:Hex; [exact IH|].
  constructor; [|exact IH].
  rewrite dedup_In. intros Hin. apply existsb_eqb_In in Hin. congruence.
Qed.

Lemma insert_by_slot_In (slots x y : Z) (l : list Z) :
  In y (insert_by_slot slots x l) <-> y = x \/ In y l.
Proof.
  induction l as [|z l IH]; cbn [insert_by_slot].
  - simpl. intuition congruence.
  - destruct (x mod slots <? z mod slots); simpl; [intuition congruence|].
    rewrite IH. intuition congruence.
Qed.

Lemma insert_by_slot_NoDup (slots x : Z) (l : list Z) :
  NoDup l -> ~ In x l -> NoDup (insert_by_slot slots x l).
Proof.
  induction l as [|z l IH]; intros Hnd Hnin; cbn [insert_by_slot].
  - constructor; [exact Hnin | constructor].
  - destruct (x mod slots <? z mod slots).
    + constructor; assumption.
    + inversion Hnd; subst. constructor.
      * rewrite insert_by_slot_In. simpl in Hnin. intuition congruence.
      * apply IH; [assumption|]. simpl in Hnin. tauto.
Qed.

Lemma cpython_set_order_ok : set_order_ok cpython_set_order.
Proof.
  intros xs. unfold cpython_set_order.
  set (slots := table_slots _ 0 8). clearbody slots.
  assert (H : forall d, NoDup d ->
            NoDup (fold_right (insert_by_slot slots) [] d)
            /\ forall x, In x (fold_right (insert_by_slot slots) [] d) <-> In x d).
  { induction d as [|y d IH]; intros Hnd; cbn [fold_right].
    - split; [constructor | tauto].
    - inversion Hnd; subst. destruct (IH H2) as [IH1 IH2]. split.
      + apply insert_by_slot_NoDup; [exact IH1|]. rewrite IH2. exact H1.
      + intros x. rewrite insert_by_slot_In, IH2. simpl. intuition congruence. }
  destruct (H (dedup (rev xs)) (dedup_NoDup _)) as [H1 H2]. split; [exact H1|].
  intros x. rewrite H2, dedup_In. symmetry. apply in_rev.
Qed.

(** C6 (the code fails the claim).  Ten sentences, the offset in the ninth,
    a window of one: the sentences selected are the eighth, ninth and tenth,
    and the sentence extractor returns them as ninth, tenth, eighth, the
    order in which the set of their indices is iterated, where the word
    extractor sorts the indices first. *)
Theorem sentence_context_not_in_sentence_order :
  split_sentences ten_sentences
    = ["Ann ran."; "Bob sat."; "Cy hid."; "Di sang."; "Ed dug."; "Flo won.";
       "Gus lost."; "Hal ate."; "Ida wept."; "Jo left."]
  /\ anchor_loop 0 (split_sentences ten_sentences) (split_sentences ten_sentences) 0 66
     = Ok (Some 8)
  /\ cpython_set_order (map (clip_function 10) (arange (8 - 1) (8 + 1 + 1))) = [8; 9; 7]
  /\ extract_context_by_sentences cpython_set_order split_sentences ten_sentences 66 1
     = Ok "Ida wept.Jo left.Hal ate."
  /\ extract_context_by_sentences cpython_set_order split_sentences ten_sentences 66 1
     <> Ok "Hal ate.Ida wept.Jo left.".
Proof.
  repeat split; try (vm_compute; reflexivity).
  vm_compute. discriminate.
Qed.

(** ** Dictionaries *)

Lemma mem_str_In (k : string) (l : list string) : mem_str k l = true <-> In k l.
Proof.
  induction l as [|x l IH]; cbn [mem_str].
  - split; [discriminate | intros []].
  - rewrite orb_true_iff, IH, String.eqb_eq. simpl. tauto.
Qed.

Lemma dict_get_set_same {A : Type} (d : list (string * A)) (k : string) (v : A) :
  dict_get (dict_set d k v) k = Some v.
Proof.
  induction d as [|[k' v'] d IH]; cbn [dict_set dict_get].
  - rewrite String.eqb_refl. reflexivity.
  - destruct (String.eqb k' k) eqn:E; cbn [dict_get].
    + rewrite String.eqb_refl. reflexivity.
    + rewrite E. exact IH.
Qed.

Lemma dict_get_set_other {A : Type} (d : list (string * A)) (k k' : string) (v : A) :
  k' <> k -> dict_get (dict_set d k v) k' = dict_get d k'.
Proof.
  intros Hne. induction d as [|[k0 v0] d IH]; cbn [dict_set dict_get].
  - destruct (String.eqb k k') eqn:E; [apply String.eqb_eq in E; congruence|reflexivity].
  - destruct (String.eqb k0 k) eqn:E; cbn [dict_get].
    + apply String.eqb_eq in E. subst k0.
      destruct (String.eqb k k') eqn:E'; [apply String.eqb_eq in E'; congruence|reflexivity].
    + rewrite IH. reflexivity.
Qed.

Lemma dict_set_keys {A : Type} (d : list (string * A)) (k k' : string) (v : A) :
  In k' (map fst (dict_set d k v)) <-> k' = k \/ In k' (map fst d).
Proof.
  induction d as [|[k0 v0] d IH]; cbn [dict_set map fst In].
  - intuition congruence.
  - destruct (String.eqb k0 k) eqn:E; cbn [map fst In].
    + apply String.eqb_eq in E. subst. intuition congruence.
    + rewrite IH. intuition congruence.
Qed.

Lemma dict_set_NoDup {A : Type} (d : list (string * A)) (k : string) (v : A) :
  NoDup (map fst d) -> NoDup (map fst (dict_set d k v)).
Proof.
  induction d as [|[k0 v0] d IH]; intros Hnd; cbn [dict_set map fst].
  - constructor; [intros [] | constructor].
  - cbn [map fst] in Hnd. inversion Hnd; subst.
    destruct (String.eqb k0 k) eqn:E; cbn [map fst].
    + apply String.eqb_eq in E. subst. constructor; assumption.
    + constructor; [|apply IH; assumption].
      rewrite dict_set_keys. intros [->|Hin]; [|contradiction].
      rewrite String.eqb_refl in E. discriminate.
Qed.

Lemma dict_get_In {A : Type} (d : list (string * A)) (k : string) (v : A) :
  dict_get d k = Some v -> In (k, v) d.
Proof.
  induction d as [|[k0 v0] d IH]; cbn [dict_get]; [discriminate|].
  destruct (String.eqb k0 k) eqn:E.
  - apply String.eqb_eq in E. intros H. inversion H; subst. left. reflexivity.
  - intros H. right. apply IH. exact H.
Qed.

Lemma dict_get_None {A : Type} (d : list (string * A)) (k : string) :
  dict_get d k = None <-> ~ In k (map fst d).
Proof.
  induction d as [|[k0 v0] d IH]; cbn [dict_get map fst In]; [tauto|].
  destruct (String.eqb k0 k) eqn:E.
  - apply String.eqb_eq in E. split; [discriminate | tauto].
  - apply String.eqb_neq in E. rewrite IH. tauto.
Qed.

Lemma dict_mem_In {A : Type} (d : list (string * A)) (k : string) :
  dict_mem d k = true <-> In k (map fst d).
Proof.
  unfold dict_mem. destruct (dict_get d k) eqn:E.
  - split; [|reflexivity]. intros _. apply dict_get_In in E.
    apply (in_map fst) in E. exact E.
  - apply dict_get_None in E. split; [discriminate | contradiction].
Qed.

Lemma dict_items_from_disjoint {A : Type} (seen : list string) (d : list (string * A)) :
  NoDup (map fst d) -> (forall k, In k seen -> ~ In k (map fst d)) ->
  dict_items_from seen d = d.
Proof.
  revert seen. induction d as [|[k v] d IH]; intros seen Hnd Hdis;
    cbn [dict_items_from]; [reflexivity|].
  cbn [map fst] in Hnd. inversion Hnd; subst.
  destruct (mem_str k seen) eqn:E.
  - apply mem_str_In in E. exfalso. apply (Hdis k E). left. reflexivity.
  - f_equal. apply IH; [assumption|].
    intros k' [<-|Hin]; [assumption|].
    intros Hk'. apply (Hdis k' Hin). right. exact Hk'.
Qed.

(** A list with distinct keys is its own sequence of items. *)
Lemma dict_items_NoDup {A : Type} (d : list (string * A)) :
  NoDup (map fst d) -> dict_items d = d.
Proof.
  intros Hnd. apply dict_items_from_disjoint; [exact Hnd | intros k []].
Qed.

Lemma dict_items_from_incl {A : Type} (seen : list string) (d : list (string * A)) x :
  In x (dict_items_from seen d) -> In x d.
Proof.
  revert seen. induction d as [|[k v] d IH]; intros seen; cbn [dict_items_from];
    [tauto|].
  destruct (mem_str k seen).
  - intros H. right. eapply IH; eauto.
  - intros [H|H]; [left; exact H | right; eapply IH; eauto].
Qed.

Lemma dict_keys_incl {A : Type} (d : list (string * A)) (k : string) :
  In k (dict_keys d) -> In k (map fst d).
Proof.
  unfold dict_keys, dict_items. rewrite !in_map_iff.
  intros [x [Hx Hin]]. exists x. split; [exact Hx|].
  eapply dict_items_from_incl; eauto.
Qed.

(** ** The candidate filter *)

Section Filter.

Variable requests_get : network.
Variable filter_properties : list string.

(** Whenever the filter returns, it returns the accepted ids, in order. *)
Lemma filter_qids_loop_accepts (qid_list typed_qids out : list string) :
  filter_qids_loop requests_get filter_properties qid_list typed_qids = Ok out ->
  out = (typed_qids ++ filter (accepts requests_get filter_properties) qid_list)%list.
Proof.
  revert typed_qids. induction qid_list as [|qid rest IH]; intros typed_qids H;
    cbn [filter_qids_loop filter] in *.
  - inversion H. rewrite app_nil_r. reflexivity.
  - unfold accepts.
    destruct (requests_get (entity_data_url qid) []) as [response|e]; cbn [bind] in H;
      [|discriminate].
    destruct (status_code response =? 200); cbn [andb].
    + destruct (passes_filter filter_properties response qid) as [[|]|e];
        cbn [try_except bind] in H; apply IH in H; subst out.
      * rewrite <- app_assoc. reflexivity.
      * reflexivity.
      * reflexivity.
    + apply IH in H. exact H.
Qed.

(** It returns whenever every request gets a response, whatever the response. *)
Lemma filter_qids_loop_returns (qid_list typed_qids : list string) :
  (forall qid, In qid qid_list -> is_ok (requests_get (entity_data_url qid) []) = true) ->
  exists out, filter_qids_loop requests_get filter_properties qid_list typed_qids = Ok out.
Proof.
  revert typed_qids. induction qid_list as [|qid rest IH]; intros typed_qids Hall;
    cbn [filter_qids_loop].
  - eauto.
  - pose proof (Hall qid (or_introl eq_refl)) as Hq.
    destruct (requests_get (entity_data_url qid) []) as [response|e];
      [|discriminate]. cbn [bind].
    destruct (status_code response =? 200).
    + destruct (passes_filter filter_properties response qid) as [[|]|e];
        cbn [try_except bind]; apply IH; intros q Hin; apply Hall; right; exact Hin.
    + apply IH; intros q Hin; apply Hall; right; exact Hin.
Qed.

(** An exception of the request itself is outside the [try]. *)
Lemma filter_qids_request_raises (qid : string) (rest : list string) (e : exn) :
  requests_get (entity_data_url qid) [] = Raise e ->
  filter_qids requests_get filter_properties (qid :: rest) = Raise e.
Proof.
  intros H. unfold filter_qids. cbn [filter_qids_loop]. rewrite H. reflexivity.
Qed.

End Filter.

(** C9 (the code fails the claim).  When [requests.get] itself raises for an
    id (a transport error), the filter of either linker raises the same
    exception to its caller instead of leaving the id out: the request is
    made before the [try] block opens. *)
Theorem filter_propagates_transport_error
        (requests_get : network) (qid : string) (rest : list string) (e : exn) :
  requests_get (entity_data_url qid) [] = Raise e ->
  filter_location_qids requests_get (qid :: rest) = Raise e
  /\ filter_organization_qids requests_get (qid :: rest) = Raise e.
Proof.
  intros H. split; apply filter_qids_request_raises; exact H.
Qed.

Lemma filter_propagates_transport_error_witness :
  filter_location_qids offline_net ["Q90"; "Q142"] = Raise ConnectionError
  /\ filter_organization_qids offline_net ["Q90"; "Q142"] = Raise ConnectionError.
Proof.
  apply (filter_propagates_transport_error offline_net "Q90" ["Q142"] ConnectionError).
  reflexivity.
Defined.

(** ** Retrieval *)

Lemma getitem_In {A : Type} (l : list A) (i : Z) (a : A) :
  getitem l i = Ok a -> In a l.
Proof.
  unfold getitem. destruct ((if i <? 0 then i + len l else i) <? 0); [discriminate|].
  destruct (nth_error l _) as [x|] eqn:E; [|discriminate].
  intros H. inversion H; subst. eapply nth_error_In; eauto.
Qed.

Lemma final_results_of_keys
      (results_qids filtered_qids : list string) (weights : list Q)
      (items : list (string * pyval)) (acc res : candidates) (qid : string) :
  final_results_of results_qids filtered_qids weights items acc = Ok res ->
  In qid (map fst res) ->
  In qid (map fst acc) \/ In qid filtered_qids.
Proof.
  revert acc. induction items as [|[q snippet] rest IH]; intros acc H Hin;
    cbn [final_results_of] in H.
  - inversion H; subst. left. exact Hin.
  - destruct (mem_str q filtered_qids) eqn:E.
    + inv_bind H. inv_bind H. destruct (IH _ H Hin) as [Hacc|Hf]; [|right; exact Hf].
      apply dict_set_keys in Hacc. destruct Hacc as [->|Hacc]; [|left; exact Hacc].
      right. apply mem_str_In. exact E.
    + eapply IH; eauto.
Qed.

(** Every id of a returned candidate set was accepted by the filter. *)
Lemma wikidata_search_accepted
      (requests_get : network) (filter_properties : list string)
      (search_phrase : string) (num_results : Z) (lang_code : string)
      (res : candidates) (qid : string) :
  wikidata_search requests_get filter_properties search_phrase num_results lang_code
    = Ok res ->
  In qid (dict_keys res) ->
  accepts requests_get filter_properties qid = true.
Proof.
  unfold wikidata_search. intros H Hin.
  do 6 inv_bind H. bind_inv H as filtered_qids Hfilter. bind_inv H as weights Hweights.
  apply dict_keys_incl in Hin.
  destruct (final_results_of_keys _ _ _ _ _ _ _ H Hin) as [[]|Hf].
  unfold filter_qids in Hfilter. apply filter_qids_loop_accepts in Hfilter. subst.
  cbn [app] in Hf. apply filter_In in Hf. tauto.
Qed.

(** The winner of the scoring is one of the candidates it was given. *)
Lemma context_entity_matching_among
      (cos_sim : string -> string -> Q) (context : string) (c : candidates) (top : string) :
  context_entity_matching cos_sim context c = Ok top -> In top (dict_keys c).
Proof.
  unfold context_entity_matching. intros H. do 3 inv_bind H.
  eapply getitem_In; eauto.
Qed.

(** C7.  Every id in the candidate set that [location_wikidata_search] or
    [organization_wikidata_search] returns was accepted by the filter of
    that linker, and so is the id the scoring picks from it. *)
Theorem retrieved_candidates_passed_filter
        (requests_get : network) (cos_sim : string -> string -> Q)
        (search_phrase : string) (num_results : Z) (lang_code : string)
        (res : candidates) :
  (location_wikidata_search requests_get search_phrase num_results lang_code = Ok res ->
   (forall qid, In qid (dict_keys res) ->
                accepts requests_get location_filter_properties qid = true)
   /\ (forall context top,
          context_entity_matching cos_sim context res = Ok top ->
          accepts requests_get location_filter_properties top = true))
  /\
  (organization_wikidata_search requests_get search_phrase num_results lang_code = Ok res ->
   (forall qid, In qid (dict_keys res) ->
                accepts requests_get organization_filter_properties qid = true)
   /\ (forall context top,
          context_entity_matching cos_sim context res = Ok top ->
          accepts requests_get organization_filter_properties top = true)).
Proof.
  split; intros H; split.
  - intros qid Hin. eapply wikidata_search_accepted; eauto.
  - intros context top Htop. eapply wikidata_search_accepted; eauto.
    eapply context_entity_matching_among; eauto.
  - intros qid Hin. eapply wikidata_search_accepted; eauto.
  - intros context top Htop. eapply wikidata_search_accepted; eauto.
    eapply context_entity_matching_among; eauto.
Qed.

Lemma retrieved_candidates_passed_filter_witness :
  organization_wikidata_search sample_net "Amazon" 3 "en"
    = Ok [("Q3884", (VStr "American technology company", 101 # 200))]
  /\ accepts sample_net organization_filter_properties "Q3884" = true
  /\ accepts sample_net organization_filter_properties "Q3783" = false.
Proof.
  assert (H : organization_wikidata_search sample_net "Amazon" 3 "en"
              = Ok [("Q3884", (VStr "American technology company", 101 # 200))])
    by (vm_compute; reflexivity).
  split; [exact H|]. split; [|vm_compute; reflexivity].
  apply (proj1 (proj2 (retrieved_candidates_passed_filter
                         sample_net sample_cos_sim "Amazon" 3 "en" _) H)).
  vm_compute. left. reflexivity.
Defined.

(** ** Projection *)

Lemma stored_property_collapse (property_data : list pyval) :
  stored_property property_data = Ok (collapse property_data).
Proof.
  destruct property_data as [|x [|y rest]]; try reflexivity.
  unfold stored_property, len. cbn [List.length].
  destruct (Z.of_nat (S (S (List.length rest))) =? 0) eqn:E0; [apply Z.eqb_eq in E0; lia|].
  destruct (1 <? Z.of_nat (S (S (List.length rest)))) eqn:E1; [reflexivity|].
  apply Z.ltb_ge in E1. lia.
Qed.

Section Projection.

Variable requests_get : network.
Variable entity_properties : list (string * string).
Variable lang_code : string.
Variable claims : pydict.

Local Notation "'holds'" :=
  (holds_property requests_get entity_properties lang_code claims).

Lemma holds_property_more (p : string) (props : list string) (info : pydict) (field : string) :
  holds props info field -> holds (p :: props) info field.
Proof.
  intros [prop [values [Hin H]]]. exists prop, values. split; [right; exact Hin | exact H].
Qed.

Lemma project_claims_spec (props : list string) (info0 info : pydict) :
  project_claims requests_get (VDict claims) entity_properties lang_code
                 (map VStr props) info0 = Ok info ->
  (forall prop field,
      In prop props -> dict_get entity_properties prop = Some field ->
      holds props info field)
  /\ (forall field v,
         dict_get info0 field = Some v ->
         dict_get info field = Some v \/ holds props info field)
  /\ (forall field,
         In field (map fst info) ->
         In field (map fst info0)
         \/ exists prop, In prop props /\ dict_get entity_properties prop = Some field).
Proof.
  revert info0. induction props as [|p rest IH]; intros info0 H;
    cbn [map project_claims in_schema prop_id bind] in H.
  - inversion H; subst. repeat split.
    + intros prop field [].
    + intros field v Hv. left. exact Hv.
    + intros field Hin. left. exact Hin.
  - unfold dict_mem in H.
    destruct (dict_get entity_properties p) as [field_p|] eqn:Hp.
    + bind_inv H as prop_claims Hsub. bind_inv H as cls Hiter.
      bind_inv H as property_data Hdata. bind_inv H as stored Hstored.
      rewrite stored_property_collapse in Hstored. inversion Hstored; subst stored.
      assert (Hvalues : property_values requests_get lang_code claims p = Ok property_data).
      { unfold property_values. rewrite Hsub. cbn [bind]. rewrite Hiter. exact Hdata. }
      destruct (IH _ H) as [IH1 [IH2 IH3]].
      assert (Hfield_p : holds (p :: rest) info field_p).
      { destruct (IH2 field_p (collapse property_data) (dict_get_set_same _ _ _))
          as [Hkept|Hover].
        - exists p, property_data. repeat split; auto. left. reflexivity.
        - apply holds_property_more. exact Hover. }
      repeat split.
      * intros prop field [<-|Hin] Hfield.
        -- rewrite Hp in Hfield. inversion Hfield; subst. exact Hfield_p.
        -- apply holds_property_more. eapply IH1; eauto.
      * intros field v Hv.
        destruct (String.eqb field field_p) eqn:E.
        -- apply String.eqb_eq in E. subst field. right. exact Hfield_p.
        -- apply String.eqb_neq in E.
           destruct (IH2 field v) as [Hkept|Hover].
           ++ rewrite dict_get_set_other; auto.
           ++ left. exact Hkept.
           ++ right. apply holds_property_more. exact Hover.
      * intros field Hin. destruct (IH3 field Hin) as [Hin1|[prop [Hprop Hf]]].
        -- apply dict_set_keys in Hin1. destruct Hin1 as [->|Hin0].
           ++ right. exists p. split; [left; reflexivity | exact Hp].
           ++ left. exact Hin0.
        -- right. exists prop. split; [right; exact Hprop | exact Hf].
    + cbn [bind] in H. destruct (IH _ H) as [IH1 [IH2 IH3]]. repeat split.
      * intros prop field [<-|Hin] Hfield; [congruence|].
        apply holds_property_more. eapply IH1; eauto.
      * intros field v Hv. destruct (IH2 field v Hv) as [Hkept|Hover].
        -- left. exact Hkept.
        -- right. apply holds_property_more. exact Hover.
      * intros field Hin. destruct (IH3 field Hin) as [Hin0|[prop [Hprop Hf]]].
        -- left. exact Hin0.
        -- right. exists prop. split; [right; exact Hprop | exact Hf].
Qed.

End Projection.

(** C3 (as amended).  When the projection of a record returns, every
    requested property that is among the record's claims has its field in
    the output, holding the values extracted for a claimed property the
    schema maps to that field: the value itself for exactly one, the list
    for none or several.  The output has no other field besides the label
    and the description: a requested property the record has no claim for
    has none. *)
Theorem projection_keeps_claimed_requested_properties
        (requests_get : network) (wikidata_qid : string)
        (entity_properties : list (string * string)) (lang_code : string)
        (item_info : pyval) (claims info : pydict) :
  get_entity_info requests_get wikidata_qid = Ok item_info ->
  subscript item_info "claims" = Ok (VDict claims) ->
  extract_wikidata_entity_info requests_get wikidata_qid entity_properties lang_code
    = Ok info ->
  (forall prop field,
      In prop (dict_keys claims) ->
      dict_get entity_properties prop = Some field ->
      exists prop' values,
        In prop' (dict_keys claims)
        /\ dict_get entity_properties prop' = Some field
        /\ property_values requests_get lang_code claims prop' = Ok values
        /\ dict_get info field = Some (collapse values))
  /\ (forall field,
         In field (map fst info) ->
         field = "label" \/ field = "description"
         \/ exists prop,
             In prop (dict_keys claims)
             /\ dict_get entity_properties prop = Some field).
Proof.
  intros Hinfo Hclaims H. unfold extract_wikidata_entity_info in H.
  rewrite Hinfo in H. cbn [bind] in H.
  assert (Htruthy : truthy item_info = true).
  { destruct item_info as [| | | | |l|d]; try discriminate.
    destruct d; [discriminate | reflexivity]. }
  rewrite Htruthy in H.
  bind_inv H as labels Hlabels. bind_inv H as entity_label Hlabel.
  bind_inv H as descriptions Hdescs. bind_inv H as description Hdesc.
  rewrite Hclaims in H. cbn [bind iterate] in H.
  destruct (project_claims_spec _ _ _ _ _ _ _ H) as [H1 [_ H3]].
  split.
  - intros prop field Hin Hfield. exact (H1 prop field Hin Hfield).
  - intros field Hin. destruct (H3 field Hin) as [Hin0|Hprop].
    + cbn in Hin0. destruct Hin0 as [<-|[<-|[]]]; auto.
    + right. right. exact Hprop.
Qed.

Lemma projection_keeps_claimed_requested_properties_witness :
  exists claims info,
    subscript amazon_company "claims" = Ok (VDict claims)
    /\ extract_wikidata_entity_info sample_net "Q3884" sample_organization_properties "en"
       = Ok info
    /\ exists prop' values,
        In prop' (dict_keys claims)
        /\ dict_get sample_organization_properties prop' = Some "founded by"
        /\ property_values sample_net "en" claims prop' = Ok values
        /\ dict_get info "founded by" = Some (collapse values).
Proof.
  eexists. eexists.
  split; [vm_compute; reflexivity|].
  split; [vm_compute; reflexivity|].
  refine (proj1 (projection_keeps_claimed_requested_properties
                   sample_net "Q3884" sample_organization_properties "en"
                   amazon_company _ _ _ _ _) "P112" "founded by" _ _).
  - vm_compute. reflexivity.
  - vm_compute. reflexivity.
  - vm_compute. reflexivity.
  - vm_compute. right. left. reflexivity.
  - vm_compute. reflexivity.
Defined.

(** C3 (counterexample).  The schema requests the headquarters location
    (P159); the record of the company has no claim for it, and the projection
    returns a record without that field. *)
Lemma requested_property_without_claim_is_omitted :
  dict_get sample_organization_properties "P159" = Some "headquarters location"
  /\ exists info,
      extract_wikidata_entity_info sample_net "Q3884" sample_organization_properties "en"
        = Ok info
      /\ dict_mem info "headquarters location" = false
      /\ ~ In "headquarters location" (map fst info).
Proof.
  split; [reflexivity|]. eexists. split; [vm_compute; reflexivity|].
  split; [reflexivity|]. apply dict_get_None. reflexivity.
Qed.

(** C10.  When the fetch of a record's data answers with a status other
    than 200, [get_entity_info] returns [None] and the projection returns the
    empty dictionary: the value a linker returns for a mention whose search
    yields no candidate. *)
Theorem failed_fetch_projects_to_empty
        (requests_get : network) (wikidata_qid : string)
        (entity_properties : list (string * string)) (lang_code : string)
        (failed : response) :
  requests_get (entity_data_url wikidata_qid) [] = Ok failed ->
  status_code failed <> 200 ->
  get_entity_info requests_get wikidata_qid = Ok VNone
  /\ extract_wikidata_entity_info requests_get wikidata_qid entity_properties lang_code
     = Ok []
  /\ forall cos_sim set_iter filter_properties text entity
            start_char num_search_results context_window context,
      get_typed_qnumber requests_get filter_properties entity
                        (lang_code ++ "wiki") lang_code = Ok "-1" ->
      wikidata_search requests_get filter_properties entity num_search_results lang_code
        = Ok [] ->
      extract_context_by_words set_iter text start_char context_window = Ok context ->
      entity_extraction requests_get cos_sim set_iter filter_properties entity_properties
                        text entity start_char num_search_results context_window lang_code
      = extract_wikidata_entity_info requests_get wikidata_qid entity_properties lang_code.
Proof.
  intros Hget Hstatus.
  assert (Hnone : get_entity_info requests_get wikidata_qid = Ok VNone).
  { unfold get_entity_info. rewrite Hget. cbn [bind].
    destruct (status_code failed =? 200) eqn:E; [|reflexivity].
    apply Z.eqb_eq in E. contradiction. }
  assert (Hempty : extract_wikidata_entity_info requests_get wikidata_qid
                     entity_properties lang_code = Ok []).
  { unfold extract_wikidata_entity_info. rewrite Hnone. reflexivity. }
  split; [exact Hnone|]. split; [exact Hempty|].
  intros cos_sim set_iter filter_properties text entity start_char
         num_search_results context_window context Hq Hsearch Hcontext.
  rewrite Hempty. unfold entity_extraction.
  rewrite Hq. cbn [bind String.eqb negb]. rewrite Hsearch. cbn [bind].
  rewrite Hcontext. reflexivity.
Qed.

Lemma failed_fetch_projects_to_empty_witness :
  get_entity_info sample_net "Q64" = Ok VNone
  /\ extract_wikidata_entity_info sample_net "Q64" sample_location_properties "en" = Ok []
  /\ location_entity_extraction sample_net sample_cos_sim cpython_set_order
       sample_location_properties sample_text "Berlin" 0 3 2 "en"
     = extract_wikidata_entity_info sample_net "Q64" sample_location_properties "en".
Proof.
  destruct (failed_fetch_projects_to_empty
              sample_net "Q64" sample_location_properties "en" (Response 404 None))
    as [H1 [H2 H3]].
  - reflexivity.
  - discriminate.
  - split; [exact H1|]. split; [exact H2|].
    apply (H3 sample_cos_sim cpython_set_order location_filter_properties
              sample_text "Berlin" 0 3 2 "Paris hosts an");
      vm_compute; reflexivity.
Defined.

(** ** Prior weights *)

Lemma nth_error_arange (lo hi : Z) (k : nat) (x : Z) :
  nth_error (arange lo hi) k = Some x -> x = lo + Z.of_nat k /\ lo + Z.of_nat k < hi.
Proof.
  unfold arange. intros H.
  rewrite nth_error_map, nth_error_seq in H.
  destruct (k <? Z.to_nat (hi - lo))%nat eqn:E.
  - apply Nat.ltb_lt in E. cbn in H. inversion H. lia.
  - discriminate.
Qed.

Lemma linspace_weight (num_results rank : Z) (weights : list Q) (w : Q) :
  linspace 1 (1 # 100) num_results = Ok weights ->
  0 <= rank ->
  getitem weights rank = Ok w ->
  rank < num_results /\ (w == interpolate num_results rank)%Q.
Proof.
  unfold linspace. destruct (num_results <? 0) eqn:Hneg; [discriminate|].
  intros H Hrank Hget. inversion H; subst weights. clear H.
  unfold getitem in Hget.
  destruct (rank <? 0) eqn:Hr; [apply Z.ltb_lt in Hr; lia|]. rewrite Hr in Hget.
  destruct (nth_error _ (Z.to_nat rank)) as [x|] eqn:Hnth; [|discriminate].
  inversion Hget; subst x. clear Hget.
  rewrite nth_error_map in Hnth.
  destruct (nth_error (arange 0 num_results) (Z.to_nat rank)) as [i|] eqn:Hi;
    [|discriminate].
  apply nth_error_arange in Hi. destruct Hi as [Hi Hlt].
  assert (Hir : i = rank) by lia. clear Hi. subst i.
  cbn [option_map] in Hnth. inversion Hnth as [Hw]. clear Hnth.
  split; [lia|]. unfold interpolate.
  destruct (0 <? num_results - 1) eqn:Hdiv.
  - apply Z.ltb_lt in Hdiv.
    destruct (num_results <=? 1) eqn:Hle; [apply Z.leb_le in Hle; lia|].
    assert (Hnz : ~ (inject_Z (num_results - 1) == 0)%Q).
    { unfold Qeq. cbn. lia. }
    destruct (rank =? num_results - 1) eqn:Hlast; cbn [andb].
    + apply Z.eqb_eq in Hlast. rewrite Hlast. field. exact Hnz.
    + field. exact Hnz.
  - apply Z.ltb_ge in Hdiv. cbn [andb].
    assert (rank = 0) by lia. subst rank.
    destruct (num_results <=? 1) eqn:Hle; [|apply Z.leb_gt in Hle; lia].
    cbn. reflexivity.
Qed.

(** The weights fall strictly along the slots. *)
Lemma interpolate_decreasing (num_results r1 r2 : Z) :
  0 <= r1 < r2 -> r2 < num_results ->
  (interpolate num_results r2 < interpolate num_results r1)%Q.
Proof.
  intros Hr Hn. unfold interpolate.
  destruct (num_results <=? 1) eqn:Hle; [apply Z.leb_le in Hle; lia|].
  apply Z.leb_gt in Hle.
  set (step := (((1 # 100) - 1) / inject_Z (num_results - 1))%Q).
  assert (Hstep : (step < 0)%Q).
  { unfold step, Qdiv.
    assert (Hpos : (0 < / inject_Z (num_results - 1))%Q).
    { apply Qinv_lt_0_compat. unfold Qlt. cbn. lia. }
    setoid_replace ((1 # 100) - 1)%Q with (- (99 # 100))%Q by reflexivity.
    nra. }
  assert (Hinj : (inject_Z r1 < inject_Z r2)%Q).
  { rewrite <- Zlt_Qlt. lia. }
  nra.
Qed.

Lemma final_results_of_weight
      (results_qids filtered_qids : list string) (weights : list Q)
      (items : list (string * pyval)) (acc res : candidates)
      (qid : string) (snippet : pyval) (w : Q) :
  final_results_of results_qids filtered_qids weights items acc = Ok res ->
  dict_get res qid = Some (snippet, w) ->
  dict_get acc qid = Some (snippet, w)
  \/ exists rank, list_index qid results_qids = Ok rank /\ getitem weights rank = Ok w.
Proof.
  revert acc. induction items as [|[q s] rest IH]; intros acc H Hget;
    cbn [final_results_of] in H.
  - inversion H; subst. left. exact Hget.
  - destruct (mem_str q filtered_qids).
    + bind_inv H as rank Hrank. bind_inv H as weight Hweight.
      destruct (IH _ H Hget) as [Hacc|Hex]; [|right; exact Hex].
      destruct (String.eqb q qid) eqn:E.
      * apply String.eqb_eq in E. subst q.
        rewrite dict_get_set_same in Hacc. inversion Hacc; subst.
        right. exists rank. split; assumption.
      * apply String.eqb_neq in E. rewrite dict_get_set_other in Hacc by congruence.
        left. exact Hacc.
    + eapply IH; eauto.
Qed.

Lemma wikidata_search_steps
      (requests_get : network) (filter_properties : list string)
      (search_phrase : string) (num_results : Z) (lang_code : string) (res : candidates) :
  wikidata_search requests_get filter_properties search_phrase num_results lang_code
    = Ok res ->
  exists hits filtered_qids weights,
    results_information requests_get search_phrase num_results lang_code = Ok hits
    /\ filter_qids requests_get filter_properties (dict_keys hits) = Ok filtered_qids
    /\ linspace 1 (1 # 100) num_results = Ok weights
    /\ final_results_of (dict_keys hits) filtered_qids weights (dict_items hits) [] = Ok res.
Proof.
  unfold wikidata_search, results_information. intros H.
  bind_inv H as response Hresponse. bind_inv H as resp Hresp.
  bind_inv H as query Hquery. bind_inv H as found Hfound.
  bind_inv H as sliced Hsliced. bind_inv H as hits Hhits.
  bind_inv H as filtered_qids Hfilter. bind_inv H as weights Hweights.
  exists hits, filtered_qids, weights.
  rewrite Hresponse. cbn [bind]. rewrite Hresp. cbn [bind]. rewrite Hquery. cbn [bind].
  rewrite Hfound. cbn [bind]. rewrite Hsliced. cbn [bind].
  repeat split; assumption.
Qed.

(** C4 (as amended).  The weight of a surviving candidate is the linear
    interpolation from 1.0 down to 0.01 over the [num_results] requested
    slots, taken at the candidate's position among the snippet-bearing hits
    of the first [num_results] results; the weights fall strictly along these
    positions, and the weight of a candidate is the same whatever the filter
    of the entity type removes. *)
Theorem prior_weight_by_position_among_snippet_hits
        (requests_get : network) (filter_properties : list string)
        (search_phrase : string) (num_results : Z) (lang_code : string)
        (res : candidates) :
  wikidata_search requests_get filter_properties search_phrase num_results lang_code
    = Ok res ->
  exists hits,
    results_information requests_get search_phrase num_results lang_code = Ok hits
    /\ (forall qid snippet w,
           dict_get res qid = Some (snippet, w) ->
           exists position,
             list_index qid (dict_keys hits) = Ok position
             /\ 0 <= position < num_results
             /\ (w == interpolate num_results position)%Q)
    /\ (forall p1 p2,
           0 <= p1 < p2 -> p2 < num_results ->
           (interpolate num_results p2 < interpolate num_results p1)%Q)
    /\ (forall other_filter res' qid snippet w snippet' w',
           wikidata_search requests_get other_filter search_phrase num_results lang_code
             = Ok res' ->
           dict_get res qid = Some (snippet, w) ->
           dict_get res' qid = Some (snippet', w') ->
           w = w').
Proof.
  intros H.
  destruct (wikidata_search_steps _ _ _ _ _ _ H)
    as [hits [filtered_qids [weights [Hhits [Hfilter [Hweights Hfinal]]]]]].
  exists hits. split; [exact Hhits|]. split; [|split].
  - intros qid snippet w Hget.
    destruct (final_results_of_weight _ _ _ _ _ _ _ _ _ Hfinal Hget)
      as [Hnil|[rank [Hrank Hw]]]; [discriminate|].
    exists rank. split; [exact Hrank|].
    pose proof (list_index_bounds _ _ _ Hrank) as Hb.
    destruct (linspace_weight _ _ _ _ Hweights (proj1 Hb) Hw) as [Hlt Heq].
    split; [lia | exact Heq].
  - intros p1 p2 Hp Hn. apply interpolate_decreasing; assumption.
  - intros other_filter res' qid snippet w snippet' w' H' Hget Hget'.
    destruct (wikidata_search_steps _ _ _ _ _ _ H')
      as [hits' [filtered' [weights' [Hhits' [_ [Hweights' Hfinal']]]]]].
    rewrite Hhits in Hhits'. inversion Hhits'; subst hits'.
    rewrite Hweights in Hweights'. inversion Hweights'; subst weights'.
    destruct (final_results_of_weight _ _ _ _ _ _ _ _ _ Hfinal Hget)
      as [Hnil|[rank [Hrank Hw]]]; [discriminate|].
    destruct (final_results_of_weight _ _ _ _ _ _ _ _ _ Hfinal' Hget')
      as [Hnil|[rank' [Hrank' Hw']]]; [discriminate|].
    rewrite Hrank in Hrank'. inversion Hrank'; subst rank'.
    rewrite Hw in Hw'. inversion Hw'. reflexivity.
Qed.

Lemma prior_weight_by_position_among_snippet_hits_witness :
  exists hits,
    results_information sample_net "Amazon" 3 "en" = Ok hits
    /\ exists position,
        list_index "Q3884" (dict_keys hits) = Ok position
        /\ 0 <= position < 3
        /\ ((101 # 200) == interpolate 3 position)%Q.
Proof.
  destruct (prior_weight_by_position_among_snippet_hits
              sample_net organization_filter_properties "Amazon" 3 "en"
              [("Q3884", (VStr "American technology company", (101 # 200)%Q))])
    as [hits [Hhits [Hweight _]]].
  - vm_compute. reflexivity.
  - exists hits. split; [exact Hhits|].
    apply (Hweight "Q3884" (VStr "American technology company") (101 # 200)%Q).
    reflexivity.
Defined.

(** C4 (counterexample).  The search for "Amazon" returns three hits, the
    first with an empty snippet; three results are requested.  The company is
    third in search rank, where the interpolation gives 0.01, and its weight
    is 0.505, the value of the second slot. *)
Lemma weight_not_indexed_by_search_rank :
  search_rank sample_net "Amazon" "en" "Q3884" = Some 2
  /\ organization_wikidata_search sample_net "Amazon" 3 "en"
     = Ok [("Q3884", (VStr "American technology company", (101 # 200)%Q))]
  /\ ~ ((101 # 200) == interpolate 3 2)%Q
  /\ ((101 # 200) == interpolate 3 1)%Q.
Proof.
  split; [vm_compute; reflexivity|].
  split; [vm_compute; reflexivity|].
  split; [|vm_compute; reflexivity].
  vm_compute. discriminate.
Qed.

(** ** The disambiguator *)

(** *** The order of binary64 numbers *)

Ltac sf_cases :=
  repeat match goal with
         | s : bool |- _ => destruct s
         end;
  cbn; try congruence; try discriminate; try tauto.

Ltac cmp_cases :=
  repeat match goal with
         | |- context [PosDef.Pos.compare_cont Eq ?a ?b] =>
             change (PosDef.Pos.compare_cont Eq a b) with (Pos.compare a b)
         | H : context [PosDef.Pos.compare_cont Eq ?a ?b] |- _ =>
             change (PosDef.Pos.compare_cont Eq a b) with (Pos.compare a b) in H
         | |- context [Z.compare ?a ?b] => destruct (Z.compare_spec a b); subst
         | H : context [Z.compare ?a ?b] |- _ => destruct (Z.compare_spec a b); subst
         | |- context [Pos.compare ?a ?b] => destruct (Pos.compare_spec a b); subst
         | H : context [Pos.compare ?a ?b] |- _ => destruct (Pos.compare_spec a b); subst
         end;
  cbn in *; try congruence; try discriminate; try lia.

Lemma SFleb_trans (x y z : spec_float) :
  SFleb x y = true -> SFleb y z = true -> SFleb x z = true.
Proof.
  unfold SFleb, SFcompare.
  destruct x as [sx|sx| |sx mx ex], y as [sy|sy| |sy my ey], z as [sz|sz| |sz mz ez];
    sf_cases; intros; cmp_cases.
Qed.

Lemma SFleb_total (x y : spec_float) :
  x <> S754_nan -> y <> S754_nan -> SFleb x y = true \/ SFleb y x = true.
Proof.
  unfold SFleb, SFcompare.
  destruct x as [sx|sx| |sx mx ex], y as [sy|sy| |sy my ey];
    sf_cases; intros; cmp_cases; auto.
Qed.

Lemma SFeqb_leb (x y : spec_float) :
  SFeqb x y = SFleb x y && SFleb y x.
Proof.
  unfold SFeqb, SFleb, SFcompare.
  destruct x as [sx|sx| |sx mx ex], y as [sy|sy| |sy my ey];
    sf_cases; cmp_cases.
Qed.

Lemma SFleb_nan_l (y : spec_float) : SFleb S754_nan y = false.
Proof. destruct y; reflexivity. Qed.

Lemma SFleb_nan_r (x : spec_float) : SFleb x S754_nan = false.
Proof. destruct x; reflexivity. Qed.

Lemma SFleb_refl (x : spec_float) : x <> S754_nan -> SFleb x x = true.
Proof. intros H. destruct (SFleb_total x x H H); assumption. Qed.

Lemma is_nan_spec (x : float) : is_nan x = true <-> Prim2SF x = S754_nan.
Proof.
  unfold is_nan. rewrite eqb_spec, SFeqb_leb. split.
  - intros H. destruct (Prim2SF x) eqn:E; try reflexivity;
      rewrite SFleb_refl in H by discriminate; discriminate.
  - intros ->. reflexivity.
Qed.

Lemma float_leb_trans (x y z : float) :
  (x <=? y)%float = true -> (y <=? z)%float = true -> (x <=? z)%float = true.
Proof. rewrite !leb_spec. apply SFleb_trans. Qed.

Lemma float_leb_total (x y : float) :
  is_nan x = false -> is_nan y = false ->
  (x <=? y)%float = true \/ (y <=? x)%float = true.
Proof.
  intros Hx Hy. rewrite !leb_spec. apply SFleb_total.
  - intros E. apply is_nan_spec in E. congruence.
  - intros E. apply is_nan_spec in E. congruence.
Qed.

Lemma float_leb_refl (x : float) : is_nan x = false -> (x <=? x)%float = true.
Proof. intros H. destruct (float_leb_total x x H H); assumption. Qed.

Lemma float_eqb_leb (x y : float) :
  (x =? y)%float = ((x <=? y)%float && (y <=? x)%float).
Proof. rewrite eqb_spec, !leb_spec. apply SFeqb_leb. Qed.

Lemma float_leb_nan (x y : float) :
  is_nan x = true \/ is_nan y = true -> (x <=? y)%float = false.
Proof.
  rewrite leb_spec. intros [H|H]; apply is_nan_spec in H; rewrite H.
  - apply SFleb_nan_l.
  - apply SFleb_nan_r.
Qed.

Lemma tie_leb (x y : float) :
  tie x y <-> (x <=? y)%float = true /\ (y <=? x)%float = true.
Proof. unfold tie. rewrite float_eqb_leb. apply andb_true_iff. Qed.

Lemma tie_sym (x y : float) : tie x y -> tie y x.
Proof. rewrite !tie_leb. tauto. Qed.

Lemma tie_trans (x y z : float) : tie x y -> tie y z -> tie x z.
Proof.
  rewrite !tie_leb. intros [H1 H2] [H3 H4].
  split; eapply float_leb_trans; eauto.
Qed.

(** *** Maximum and first index *)

Lemma fold_maximum_number (rest : list float) (x : float) :
  is_nan x = false -> all_numbers rest ->
  let m := fold_left np_maximum rest x in
  In m (x :: rest) /\ is_nan m = false /\ (x <=? m)%float = true
  /\ (forall y, In y rest -> (y <=? m)%float = true).
Proof.
  revert x. induction rest as [|y rest IH]; intros x Hx Hall; cbn [fold_left].
  - split; [left; reflexivity|]. split; [exact Hx|].
    split; [apply float_leb_refl; exact Hx | intros y []].
  - inversion Hall as [|? ? Hy Hrest]; subst.
    assert (Hstep : np_maximum x y = if (y <=? x)%float then x else y)
      by (unfold np_maximum; rewrite Hx; reflexivity).
    rewrite Hstep. destruct (y <=? x)%float eqn:E.
    + destruct (IH x Hx Hrest) as [Hin [Hm [Hle Hothers]]]. split; [|split; [|split]].
      * destruct Hin as [Hin|Hin]; [left; exact Hin | right; right; exact Hin].
      * exact Hm.
      * exact Hle.
      * intros z [<-|Hz]; [eapply float_leb_trans; eauto | apply Hothers; exact Hz].
    + assert (Hxy : (x <=? y)%float = true).
      { destruct (float_leb_total x y Hx Hy) as [H|H]; [exact H | congruence]. }
      destruct (IH y Hy Hrest) as [Hin [Hm [Hle Hothers]]]. split; [|split; [|split]].
      * destruct Hin as [Hin|Hin]; [right; left; exact Hin | right; right; exact Hin].
      * exact Hm.
      * eapply float_leb_trans; eauto.
      * intros z [<-|Hz]; [exact Hle | apply Hothers; exact Hz].
Qed.

(** A NaN among the scores is what the maximum is. *)
Lemma fold_maximum_nan (rest : list float) (x : float) :
  is_nan x = true \/ Exists (fun s => is_nan s = true) rest ->
  is_nan (fold_left np_maximum rest x) = true.
Proof.
  revert x. induction rest as [|y rest IH]; intros x H; cbn [fold_left].
  - destruct H as [H|H]; [exact H | inversion H].
  - apply IH. unfold np_maximum. destruct (is_nan x) eqn:Hx; [left; exact Hx|].
    destruct H as [H|H]; [discriminate|].
    inversion H as [? ? Hy|? ? Hrest]; subst.
    + left. rewrite float_leb_nan by (left; exact Hy). exact Hy.
    + right. exact Hrest.
Qed.

Lemma array_max_spec (scores : list float) :
  scores <> [] -> all_numbers scores ->
  exists m, array_max scores = Ok m /\ In m scores /\ is_nan m = false
            /\ (forall y, In y scores -> (y <=? m)%float = true).
Proof.
  destruct scores as [|x rest]; [congruence|]. intros _ Hall.
  inversion Hall as [|? ? Hx Hrest]; subst.
  destruct (fold_maximum_number rest x Hx Hrest) as [Hin [Hm [Hle Hothers]]].
  eexists. split; [reflexivity|]. split; [exact Hin|]. split; [exact Hm|].
  intros y [<-|Hy]; [exact Hle | apply Hothers; exact Hy].
Qed.

Lemma index_of_spec (m : float) (scores : list float) :
  In m scores -> is_nan m = false ->
  exists i s,
    index_of m scores = Ok (Z.of_nat i)
    /\ nth_error scores i = Some s
    /\ tie s m
    /\ (forall j x, (j < i)%nat -> nth_error scores j = Some x -> (x =? m)%float = false).
Proof.
  intros Hin Hm. induction scores as [|y rest IH]; [destruct Hin|].
  cbn [index_of]. destruct (y =? m)%float eqn:E.
  - exists 0%nat, y. split; [reflexivity|]. split; [reflexivity|].
    split; [exact E|]. intros j x Hj. lia.
  - destruct Hin as [->|Hin].
    { rewrite float_eqb_leb, float_leb_refl in E by exact Hm. discriminate. }
    destruct (IH Hin) as [i [s [Hidx [Hnth [Heq Hfirst]]]]].
    exists (S i), s. rewrite Hidx. cbn [bind nth_error].
    split; [f_equal; lia|]. split; [exact Hnth|]. split; [exact Heq|].
    intros [|j] x Hj Hx; cbn [nth_error] in Hx.
    + inversion Hx; subst. exact E.
    + eapply Hfirst; [|exact Hx]. lia.
Qed.

(** [==] finds nothing equal to a NaN. *)
Lemma index_of_nan (m : float) (scores : list float) :
  is_nan m = true -> index_of m scores = Raise ValueError.
Proof.
  intros Hm. induction scores as [|y rest IH]; [reflexivity|].
  cbn [index_of]. rewrite float_eqb_leb, (float_leb_nan y m) by (right; exact Hm).
  cbn [andb]. rewrite IH. reflexivity.
Qed.

Lemma getitem_of_nat {A : Type} (l : list A) (i : nat) (a : A) :
  nth_error l i = Some a -> getitem l (Z.of_nat i) = Ok a.
Proof.
  intros H. unfold getitem.
  destruct (Z.of_nat i <? 0) eqn:E; [apply Z.ltb_lt in E; lia|]. rewrite E.
  rewrite Nat2Z.id, H. reflexivity.
Qed.

(** The name picked is the one at the first index holding the maximum. *)
Lemma pick_top_first_max (names : list string) (scores : list float) :
  List.length names = List.length scores -> scores <> [] -> all_numbers scores ->
  exists i top,
    pick_top names scores = Ok top
    /\ nth_error names i = Some top
    /\ first_max i scores.
Proof.
  intros Hlen Hne Hall.
  destruct (array_max_spec scores Hne Hall) as [m [Hmax [Hin [Hm Hle]]]].
  destruct (index_of_spec m scores Hin Hm) as [i [s [Hidx [Hnth [Heq Hfirst]]]]].
  assert (Hi : (i < List.length names)%nat).
  { rewrite Hlen. apply nth_error_Some. congruence. }
  destruct (nth_error names i) as [top|] eqn:Htop;
    [|apply nth_error_None in Htop; lia].
  exists i, top. unfold pick_top. rewrite Hmax. cbn [bind]. rewrite Hidx. cbn [bind].
  split; [apply getitem_of_nat; exact Htop|]. split; [exact Htop|].
  exists s. split; [exact Hnth|]. split.
  - intros x Hx. eapply float_leb_trans; [apply Hle; exact Hx|].
    apply tie_leb in Heq. tauto.
  - intros j x Hj Hx. destruct (x =? s)%float eqn:E; [|reflexivity].
    rewrite <- (Hfirst j x Hj Hx). symmetry. eapply tie_trans; eauto.
Qed.

(** With a NaN among the scores there is no index to pick. *)
Lemma pick_top_nan (names : list string) (scores : list float) :
  Exists (fun s => is_nan s = true) scores ->
  pick_top names scores = Raise ValueError.
Proof.
  intros Hnan. unfold pick_top. destruct scores as [|x rest]; [inversion Hnan|].
  cbn [array_max bind]. rewrite index_of_nan; [reflexivity|].
  apply fold_maximum_nan. inversion Hnan; subst; [left | right]; assumption.
Qed.

Lemma numbers_or_nan (scores : list float) :
  all_numbers scores \/ Exists (fun s => is_nan s = true) scores.
Proof.
  induction scores as [|x rest [IH|IH]].
  - left. constructor.
  - destruct (is_nan x) eqn:E.
    + right. left. exact E.
    + left. constructor; assumption.
  - right. right. exact IH.
Qed.

Lemma NoDupA_map_inj {A : Type} (f : A -> float) (l : list A) (a b : A) :
  NoDupA tie (map f l) -> In a l -> In b l -> tie (f a) (f b) -> a = b.
Proof.
  induction l as [|x l IH]; intros Hnd Ha Hb Heq; [destruct Ha|].
  cbn [map] in Hnd. inversion Hnd as [|? ? Hnin Hnd']; subst.
  assert (Hout : forall y, In y l -> ~ tie (f x) (f y)).
  { intros y Hy Hxy. apply Hnin. apply InA_alt. exists (f y).
    split; [exact Hxy | apply in_map; exact Hy]. }
  destruct Ha as [<-|Ha], Hb as [<-|Hb].
  - reflexivity.
  - exfalso. eapply Hout; eauto.
  - exfalso. eapply Hout; eauto. apply tie_sym. exact Heq.
  - apply IH; assumption.
Qed.

Lemma nth_error_map_pair {A : Type} (entries : list (string * A)) (f : string * A -> float)
      (i : nat) (name : string) (s : float) :
  nth_error (map fst entries) i = Some name ->
  nth_error (map f entries) i = Some s ->
  exists entry, In entry entries /\ fst entry = name /\ f entry = s.
Proof.
  rewrite !nth_error_map. destruct (nth_error entries i) as [entry|] eqn:E;
    cbn [option_map]; [|discriminate].
  intros H1 H2. inversion H1. inversion H2. exists entry.
  split; [eapply nth_error_In; eauto | split; reflexivity].
Qed.

(** With scores of which no two tie the pick does not depend on the order. *)
Lemma pick_top_permutation {A : Type} (entries entries' : list (string * A))
      (f : string * A -> float) :
  Permutation entries entries' ->
  pairwise_distinct (map f entries) ->
  pick_top (map fst entries') (map f entries')
  = pick_top (map fst entries) (map f entries).
Proof.
  intros Hperm Hnd.
  destruct entries as [|e0 rest] eqn:Hentries.
  - apply Permutation_nil in Hperm. subst. reflexivity.
  - rewrite <- Hentries in *.
    assert (Hne : map f entries <> []) by (subst; discriminate).
    assert (Hne' : map f entries' <> []).
    { intros Hnil. apply map_eq_nil in Hnil. subst entries'.
      apply Permutation_sym, Permutation_nil in Hperm. congruence. }
    assert (Hscores : Permutation (map f entries) (map f entries'))
      by (apply Permutation_map; exact Hperm).
    destruct (numbers_or_nan (map f entries)) as [Hall|Hnan].
    + assert (Hall' : all_numbers (map f entries')).
      { unfold all_numbers. eapply Permutation_Forall; eauto. }
      destruct (pick_top_first_max (map fst entries) (map f entries))
        as [i [top [Hpick [Hname [s [Hs [Hmax _]]]]]]];
        [rewrite !length_map; reflexivity | exact Hne | exact Hall |].
      destruct (pick_top_first_max (map fst entries') (map f entries'))
        as [i' [top' [Hpick' [Hname' [s' [Hs' [Hmax' _]]]]]]];
        [rewrite !length_map; reflexivity | exact Hne' | exact Hall' |].
      destruct (nth_error_map_pair _ f _ _ _ Hname Hs) as [e [He [Hfst Hf]]].
      destruct (nth_error_map_pair _ f _ _ _ Hname' Hs') as [e' [He' [Hfst' Hf']]].
      assert (He'in : In e' entries).
      { eapply Permutation_in; [apply Permutation_sym; exact Hperm | exact He']. }
      assert (Hein' : In e entries').
      { eapply Permutation_in; [exact Hperm | exact He]. }
      assert (Heq : tie (f e) (f e')).
      { apply tie_leb. split.
        - rewrite Hf'. apply Hmax'. apply in_map. exact Hein'.
        - rewrite Hf. apply Hmax. apply in_map. exact He'in. }
      assert (e = e') by (eapply NoDupA_map_inj; eauto).
      rewrite Hpick, Hpick'. congruence.
    + assert (Hnan' : Exists (fun s => is_nan s = true) (map f entries')).
      { apply Exists_exists in Hnan. destruct Hnan as [s [Hs Hnan]].
        apply Exists_exists. exists s. split; [|exact Hnan].
        eapply Permutation_in; eauto. }
      rewrite !pick_top_nan by assumption. reflexivity.
Qed.

Section Matching.

Variable cos_sim : string -> string -> Q.
Variable query : string.

Lemma context_texts (c : candidates) :
  all_text c ->
  exists texts,
    mapM as_text (map fst (map snd c)) = Ok texts
    /\ multiply (map (cos_sim query) texts) (map snd (map snd c))
       = context_scores cos_sim query c.
Proof.
  induction 1 as [|[qid [snippet w]] c [text Htext] _ [texts [Htexts Hscores]]];
    cbn [map fst snd mapM] in *.
  - exists []. split; reflexivity.
  - subst snippet. cbn [as_text bind]. rewrite Htexts. cbn [bind].
    exists (text :: texts). split; [reflexivity|].
    unfold multiply, context_scores in *. cbn [map combine fst snd].
    rewrite Hscores. reflexivity.
Qed.

Lemma context_entity_matching_pick (c : candidates) :
  NoDup (map fst c) -> all_text c ->
  context_entity_matching cos_sim query c
  = pick_top (map fst c) (context_scores cos_sim query c).
Proof.
  intros Hnd Htext. unfold context_entity_matching, dict_values, dict_keys.
  rewrite (dict_items_NoDup c Hnd).
  destruct (context_texts c Htext) as [texts [Htexts Hscores]].
  rewrite Htexts. cbn [bind]. rewrite Hscores. reflexivity.
Qed.

Lemma entity_label_matching_pick (l : list (string * Q)) :
  NoDup (map fst l) ->
  entity_label_matching cos_sim query l
  = pick_top (map fst l) (label_scores cos_sim query l).
Proof.
  intros Hnd. unfold entity_label_matching, dict_values, dict_keys.
  rewrite (dict_items_NoDup l Hnd).
  replace (multiply (map (cos_sim query) (map fst l)) (map snd l))
    with (label_scores cos_sim query l); [reflexivity|].
  unfold multiply, label_scores. induction l as [|[name w] l IH]; [reflexivity|].
  cbn [map combine fst snd]. cbn [map fst] in Hnd. inversion Hnd; subst.
  rewrite IH by assumption. reflexivity.
Qed.

End Matching.

(** C8.  The weighted scores are the binary64 products of cosine and weight
    that the code computes.  For a non-empty candidate set whose scores are
    numbers, [context_entity_matching] and [entity_label_matching] return
    the candidate at the first index, in iteration order, that holds the
    maximum weighted score: of the candidates that tie for the maximum the
    first seen.  When no two weighted scores tie, every reordering of the
    set gives the same outcome.  A score that is not a number (a NaN, the
    product of an infinite weight and a zero cosine) makes both functions
    raise [ValueError], in every order.  (A candidate set is a dictionary:
    its ids are distinct; the snippets the encoder is given are strings.) *)
Theorem matching_first_maximum_any_order
        (cos_sim : string -> string -> Q) (query : string)
        (c c' : candidates) (l l' : list (string * Q)) :
  NoDup (map fst c) -> all_text c -> c <> [] -> Permutation c c' ->
  NoDup (map fst l) -> l <> [] -> Permutation l l' ->
  (all_numbers (context_scores cos_sim query c) ->
   exists i top,
     context_entity_matching cos_sim query c = Ok top
     /\ nth_error (dict_keys c) i = Some top
     /\ first_max i (context_scores cos_sim query c))
  /\ (all_numbers (label_scores cos_sim query l) ->
      exists i top,
        entity_label_matching cos_sim query l = Ok top
        /\ nth_error (dict_keys l) i = Some top
        /\ first_max i (label_scores cos_sim query l))
  /\ (pairwise_distinct (context_scores cos_sim query c) ->
      context_entity_matching cos_sim query c' = context_entity_matching cos_sim query c)
  /\ (pairwise_distinct (label_scores cos_sim query l) ->
      entity_label_matching cos_sim query l' = entity_label_matching cos_sim query l)
  /\ (~ all_numbers (context_scores cos_sim query c) ->
      context_entity_matching cos_sim query c = Raise ValueError)
  /\ (~ all_numbers (label_scores cos_sim query l) ->
      entity_label_matching cos_sim query l = Raise ValueError).
Proof.
  intros Hc Htext Hne Hperm Hl Hlne Hlperm.
  assert (Hc' : NoDup (map fst c')).
  { eapply Permutation_NoDup; [apply Permutation_map; exact Hperm | exact Hc]. }
  assert (Htext' : all_text c').
  { unfold all_text. eapply Permutation_Forall; eauto. }
  assert (Hl' : NoDup (map fst l')).
  { eapply Permutation_NoDup; [apply Permutation_map; exact Hlperm | exact Hl]. }
  split; [|split; [|split; [|split; [|split]]]].
  - intros Hall. rewrite context_entity_matching_pick by assumption.
    unfold dict_keys. rewrite (dict_items_NoDup c Hc).
    apply pick_top_first_max.
    + unfold context_scores. rewrite !length_map. reflexivity.
    + destruct c; [congruence | discriminate].
    + exact Hall.
  - intros Hall. rewrite entity_label_matching_pick by assumption.
    unfold dict_keys. rewrite (dict_items_NoDup l Hl).
    apply pick_top_first_max.
    + unfold label_scores. rewrite !length_map. reflexivity.
    + destruct l; [congruence | discriminate].
    + exact Hall.
  - intros Hdistinct. rewrite !context_entity_matching_pick by assumption.
    unfold context_scores. apply pick_top_permutation; assumption.
  - intros Hdistinct. rewrite !entity_label_matching_pick by assumption.
    unfold label_scores. apply pick_top_permutation; assumption.
  - intros Hnan. rewrite context_entity_matching_pick by assumption.
    apply pick_top_nan.
    destruct (numbers_or_nan (context_scores cos_sim query c)); [contradiction | assumption].
  - intros Hnan. rewrite entity_label_matching_pick by assumption.
    apply pick_top_nan.
    destruct (numbers_or_nan (label_scores cos_sim query l)); [contradiction | assumption].
Qed.

Lemma matching_first_maximum_any_order_witness :
  (exists i top,
      context_entity_matching sample_cos_sim "an office of the Amazon company"
                              two_candidates = Ok top
      /\ nth_error (dict_keys two_candidates) i = Some top
      /\ first_max i (context_scores sample_cos_sim "an office of the Amazon company"
                                     two_candidates))
  /\ (exists i top,
         entity_label_matching quarter_cos_sim "Amazon" close_labels = Ok top
         /\ nth_error (dict_keys close_labels) i = Some top
         /\ first_max i (label_scores quarter_cos_sim "Amazon" close_labels))
  /\ context_entity_matching sample_cos_sim "an office of the Amazon company"
                             (rev two_candidates)
     = context_entity_matching sample_cos_sim "an office of the Amazon company"
                               two_candidates
  /\ entity_label_matching quarter_cos_sim "Amazon" (rev close_labels)
     = entity_label_matching quarter_cos_sim "Amazon" close_labels.
Proof.
  destruct (matching_first_maximum_any_order
              sample_cos_sim "an office of the Amazon company"
              two_candidates (rev two_candidates) close_labels (rev close_labels))
    as [H1 [_ [H3 _]]].
  - repeat constructor; cbn; intuition discriminate.
  - repeat constructor; cbn; eauto.
  - discriminate.
  - apply Permutation_rev.
  - repeat constructor; cbn; intuition discriminate.
  - discriminate.
  - apply Permutation_rev.
  - destruct (matching_first_maximum_any_order
                quarter_cos_sim "Amazon"
                two_candidates (rev two_candidates) close_labels (rev close_labels))
      as [_ [H2 [_ [H4 _]]]].
    + repeat constructor; cbn; intuition discriminate.
    + repeat constructor; cbn; eauto.
    + discriminate.
    + apply Permutation_rev.
    + repeat constructor; cbn; intuition discriminate.
    + discriminate.
    + apply Permutation_rev.
    + split; [|split; [|split]].
      * apply H1. repeat constructor.
      * apply H2. repeat constructor.
      * apply H3. repeat constructor; rewrite ?InA_cons, ?InA_nil; vm_compute;
          intuition discriminate.
      * apply H4. repeat constructor; rewrite ?InA_cons, ?InA_nil; vm_compute;
          intuition discriminate.
Defined.

(** The products are those of binary64: 0.25 * 0.3 is below 0.75 * 0.1,
    though the two are one rational number, so the second label wins in
    either order. *)
Example binary64_products_decide :
  label_scores quarter_cos_sim "Amazon" close_labels
  = [(binary64 (1 # 4) * binary64 (3 # 10))%float; (binary64 (3 # 4) * binary64 (1 # 10))%float]
  /\ (binary64 (1 # 4) * binary64 (3 # 10) <? binary64 (3 # 4) * binary64 (1 # 10))%float = true
  /\ entity_label_matching quarter_cos_sim "Amazon" close_labels = Ok "A"
  /\ entity_label_matching quarter_cos_sim "Amazon" (rev close_labels) = Ok "A".
Proof. repeat split; vm_compute; reflexivity. Qed.

(** With equal weighted scores the first candidate seen wins, so the winner
    follows the order; a tie can be one of the rounded products only:
    0.75 times the binary64 number nearest to a third is 0.25. *)
Example tie_goes_to_first_seen :
  entity_label_matching sample_cos_sim "Amazon" [("Amazon River", 1%Q); ("Amazon.com", 1%Q)]
    = Ok "Amazon River"
  /\ entity_label_matching sample_cos_sim "Amazon" [("Amazon.com", 1%Q); ("Amazon River", 1%Q)]
    = Ok "Amazon.com"
  /\ tie (binary64 (3 # 4) * binary64 (1 # 3))%float (binary64 (1 # 4) * binary64 1)%float
  /\ entity_label_matching quarter_cos_sim "Amazon" rounded_tie_labels = Ok "A"
  /\ entity_label_matching quarter_cos_sim "Amazon" (rev rounded_tie_labels) = Ok "B".
Proof. repeat split; vm_compute; reflexivity. Qed.

(** ** The dispatcher *)

Section Dispatcher.

Variable requests_get : network.
Variable cos_sim : string -> string -> Q.
Variable set_iter : set_order.
Variable word_tokenize : string -> list string.
Variable person_entity_extraction :
  string -> string -> Z -> Z -> Z -> string -> result pydict.
Variable organization_properties : list (string * string).
Variable location_properties : list (string * string).
Variable stopwords : list string.
Variable text : string.
Variable num_search_results context_window : Z.
Variable lang_code : string.

Local Notation "'route_of'" :=
  (route requests_get cos_sim set_iter person_entity_extraction
         organization_properties location_properties).
Local Notation "'resolve_of'" :=
  (resolve requests_get cos_sim set_iter person_entity_extraction
           organization_properties location_properties
           text num_search_results context_window lang_code).
Local Notation "'loop_of'" :=
  (fun items =>
     extract_entities_loop requests_get cos_sim set_iter word_tokenize
                           person_entity_extraction organization_properties
                           location_properties stopwords items
                           text num_search_results context_window lang_code).
Local Notation "'mentions_of'" := (processed_mentions word_tokenize stopwords).

(** For a registered tag the outcome of the routing does not depend on the
    earlier binding of [entity_info]. *)
Lemma route_registered (entity_info : option pydict) (processed : string)
      (start_char : Z) (entity_type : string) :
  registered entity_type = true ->
  route_of entity_info text processed start_char entity_type
           num_search_results context_window lang_code
  = route_of None text processed start_char entity_type
             num_search_results context_window lang_code.
Proof.
  unfold registered, route. intros H.
  destruct (String.eqb (lower entity_type) "per"); [reflexivity|].
  destruct (String.eqb (lower entity_type) "org"); [reflexivity|].
  destruct (String.eqb (lower entity_type) "loc"); [reflexivity|].
  destruct (String.eqb (lower entity_type) "gpe"); [reflexivity|].
  discriminate.
Qed.

(** Only a resolver raises in the routing. *)
Lemma route_raises (entity_info : option pydict) (processed : string)
      (start_char : Z) (entity_type : string) (e : exn) :
  route_of None text processed start_char entity_type
           num_search_results context_window lang_code = Raise e ->
  route_of entity_info text processed start_char entity_type
           num_search_results context_window lang_code = Raise e.
Proof.
  unfold route.
  destruct (String.eqb (lower entity_type) "per"); [auto|].
  destruct (String.eqb (lower entity_type) "org"); [auto|].
  destruct (String.eqb (lower entity_type) "loc" || String.eqb (lower entity_type) "gpe");
    [auto|discriminate].
Qed.

Lemma mapM_cons_ok {A B : Type} (f : A -> result B) (a : A) (l : list A) (bs : list B) :
  mapM f (a :: l) = Ok bs -> exists b bs', f a = Ok b /\ mapM f l = Ok bs' /\ bs = b :: bs'.
Proof.
  cbn [mapM]. intros H. bind_inv H as b Hb. bind_inv H as bs' Hbs.
  inversion H. eauto.
Qed.

Lemma loop_all_resolved (items : list (string * (Z * string)))
      (mentions : list mention) (records : list pydict) :
  mentions_of items = Ok mentions ->
  Forall (fun m => registered (mention_type m) = true) mentions ->
  mapM resolve_of mentions = Ok records ->
  forall entity_info out,
    loop_of items entity_info out = ((out ++ printed mentions records)%list, Ok VNone).
Proof.
  revert mentions records.
  induction items as [|[entity [start_char entity_type]] rest IH];
    intros mentions records Hm Hreg Hres entity_info out;
    cbn [processed_mentions extract_entities_loop] in *.
  - inversion Hm; subst. cbn [printed]. rewrite app_nil_r. reflexivity.
  - bind_inv Hm as processed Hp. bind_inv Hm as mentions' Hm'.
    rewrite Hp. destruct (String.eqb processed "") eqn:E; cbn [negb].
    + inversion Hm; subst. eapply IH; eauto.
    + inversion Hm; subst mentions. clear Hm.
      inversion Hreg as [|? ? Hreg1 Hreg']; subst. cbn [mention_type] in Hreg1.
      apply mapM_cons_ok in Hres. destruct Hres as [r [records' [Hr [Hres' ->]]]].
      unfold resolve in Hr. cbn [mention_processed mention_start mention_type] in Hr.
      bind_inv Hr as bound Hroute.
      rewrite (route_registered entity_info _ _ _ Hreg1), Hroute.
      destruct bound as [info|]; cbn [read_local] in Hr; [|discriminate].
      inversion Hr; subst info. cbn [read_local].
      rewrite (IH _ _ Hm' Hreg' Hres'). cbn [printed mention_entity mention_type
                                                      mention_processed].
      rewrite <- !app_assoc. reflexivity.
Qed.

Lemma loop_stops_at_failure (before rest : list (string * (Z * string)))
      (entity : string) (start_char : Z) (entity_type processed : string) (e : exn)
      (mentions : list mention) (records : list pydict) :
  mentions_of before = Ok mentions ->
  Forall (fun m => registered (mention_type m) = true) mentions ->
  mapM resolve_of mentions = Ok records ->
  preprocess_entity_name word_tokenize stopwords entity = Ok processed ->
  processed <> "" ->
  route_of None text processed start_char entity_type
           num_search_results context_window lang_code = Raise e ->
  forall entity_info out,
    loop_of (before ++ (entity, (start_char, entity_type)) :: rest)%list entity_info out
    = ((out ++ printed mentions records
            ++ [PrintMention entity entity_type processed])%list, Raise e).
Proof.
  intros Hm Hreg Hres Hp Hne Hroute. revert mentions records Hm Hreg Hres.
  induction before as [|[entity0 [start0 type0]] before IH];
    intros mentions records Hm Hreg Hres entity_info out;
    cbn [app processed_mentions extract_entities_loop] in *.
  - inversion Hm; subst. inversion Hres; subst. cbn [printed app].
    rewrite Hp. apply String.eqb_neq in Hne. rewrite Hne. cbn [negb].
    rewrite (route_raises entity_info _ _ _ _ Hroute). reflexivity.
  - bind_inv Hm as processed0 Hp0. bind_inv Hm as mentions' Hm'.
    rewrite Hp0. destruct (String.eqb processed0 "") eqn:E; cbn [negb].
    + inversion Hm; subst. eapply IH; eauto.
    + inversion Hm; subst mentions. clear Hm.
      inversion Hreg as [|? ? Hreg1 Hreg']; subst. cbn [mention_type] in Hreg1.
      apply mapM_cons_ok in Hres. destruct Hres as [r [records' [Hr [Hres' ->]]]].
      unfold resolve in Hr. cbn [mention_processed mention_start mention_type] in Hr.
      bind_inv Hr as bound Hroute0.
      rewrite (route_registered entity_info _ _ _ Hreg1), Hroute0.
      destruct bound as [info|]; cbn [read_local] in Hr; [|discriminate].
      inversion Hr; subst info. cbn [read_local].
      rewrite (IH _ _ Hm' Hreg' Hres'). cbn [printed mention_entity mention_type
                                                      mention_processed].
      rewrite <- !app_assoc. reflexivity.
Qed.

End Dispatcher.

Lemma route_registered_binds
      (requests_get : network) (cos_sim : string -> string -> Q) (set_iter : set_order)
      (person_entity_extraction : string -> string -> Z -> Z -> Z -> string -> result pydict)
      (organization_properties location_properties : list (string * string))
      (text processed : string) (start_char : Z) (entity_type : string)
      (num_search_results context_window : Z) (lang_code : string)
      (bound : option pydict) :
  registered entity_type = true ->
  route requests_get cos_sim set_iter person_entity_extraction
        organization_properties location_properties
        None text processed start_char entity_type
        num_search_results context_window lang_code = Ok bound ->
  exists info, bound = Some info.
Proof.
  unfold registered, route. intros Hreg H.
  destruct (String.eqb (lower entity_type) "per").
  { bind_inv H as info Hinfo. inversion H. eauto. }
  destruct (String.eqb (lower entity_type) "org").
  { bind_inv H as info Hinfo. inversion H. eauto. }
  destruct (String.eqb (lower entity_type) "loc" || String.eqb (lower entity_type) "gpe")
    eqn:E.
  { bind_inv H as info Hinfo. inversion H. eauto. }
  cbn [orb] in Hreg. congruence.
Qed.

(** C1 (as amended).  When every label can be normalized, every processed
    mention has a registered type tag and every resolver call returns,
    [extract_entities] prints, for each processed mention in input order,
    the header of the mention and then its record, empty or not; the call
    itself returns [None]. *)
Theorem extract_entities_prints_in_order_returns_none
        (requests_get : network) (cos_sim : string -> string -> Q) (set_iter : set_order)
        (word_tokenize : string -> list string)
        (person_entity_extraction :
           string -> string -> Z -> Z -> Z -> string -> result pydict)
        (organization_properties location_properties : list (string * string))
        (stopwords : list string)
        (entity_dict : list (string * (Z * string))) (text : string)
        (num_search_results context_window : Z) (lang_code : string)
        (mentions : list mention) (records : list pydict) :
  processed_mentions word_tokenize stopwords (dict_items entity_dict) = Ok mentions ->
  Forall (fun m => registered (mention_type m) = true) mentions ->
  mapM (resolve requests_get cos_sim set_iter person_entity_extraction
                organization_properties location_properties
                text num_search_results context_window lang_code) mentions
    = Ok records ->
  extract_entities requests_get cos_sim set_iter word_tokenize person_entity_extraction
                   organization_properties location_properties stopwords
                   entity_dict text num_search_results context_window lang_code
  = (printed mentions records, Ok VNone).
Proof.
  intros Hm Hreg Hres. unfold extract_entities.
  rewrite (loop_all_resolved _ _ _ _ _ _ _ _ _ _ _ _ _ _ _ Hm Hreg Hres).
  reflexivity.
Qed.

Lemma extract_entities_prints_in_order_returns_none_witness :
  exists mentions records,
    processed_mentions re_split_space sample_stopwords
      (dict_items [("Paris", (0, "LOC")); ("The Amazon", (25, "ORG"))]) = Ok mentions
    /\ List.length mentions = 2%nat
    /\ sample_linker [("Paris", (0, "LOC")); ("The Amazon", (25, "ORG"))]
                     sample_text 3 2 "en"
       = (printed mentions records, Ok VNone).
Proof.
  eexists. eexists.
  split; [vm_compute; reflexivity|]. split; [reflexivity|].
  apply extract_entities_prints_in_order_returns_none.
  - vm_compute. reflexivity.
  - repeat constructor.
  - vm_compute. reflexivity.
Defined.

(** C1 (counterexample).  One location mention whose search finds nothing:
    the record is printed and the call returns [None], not the list with the
    pair of the mention and its empty record. *)
Lemma extract_entities_returns_no_pairs :
  sample_linker [("Berlin", (0, "LOC"))] sample_text 3 2 "en"
    = ([PrintMention "Berlin" "LOC" "Berlin"; PrintInfo []], Ok VNone)
  /\ snd (sample_linker [("Berlin", (0, "LOC"))] sample_text 3 2 "en")
     <> Ok (VList [VList [VStr "Berlin"; VDict []]]).
Proof.
  split; [vm_compute; reflexivity|]. vm_compute. discriminate.
Qed.

(** C2 (as amended).  When the mentions processed before a mention are
    resolved (each has a registered type tag and its resolver returns a
    record) and the resolver of that mention, which has a name that is not
    empty after normalization and a registered type tag, raises, the
    exception leaves [extract_entities] at once and the call raises it.  Of the output of
    [extract_entities] itself, the header it prints for a mention and the
    record it pretty-prints, the call has written header and record of each
    mention before, then the header of the failing mention, and nothing
    else: no record for it, and no header or record for any later mention,
    none of which is processed.  The lines the resolvers print themselves
    are not among the events and the statement does not speak of them. *)
Theorem failing_mention_stops_dispatch
        (requests_get : network) (cos_sim : string -> string -> Q) (set_iter : set_order)
        (word_tokenize : string -> list string)
        (person_entity_extraction :
           string -> string -> Z -> Z -> Z -> string -> result pydict)
        (organization_properties location_properties : list (string * string))
        (stopwords : list string)
        (entity_dict before rest : list (string * (Z * string)))
        (entity : string) (start_char : Z) (entity_type processed : string) (e : exn)
        (text : string) (num_search_results context_window : Z) (lang_code : string)
        (mentions : list mention) (records : list pydict) :
  dict_items entity_dict = (before ++ (entity, (start_char, entity_type)) :: rest)%list ->
  processed_mentions word_tokenize stopwords before = Ok mentions ->
  Forall (fun m => registered (mention_type m) = true) mentions ->
  mapM (resolve requests_get cos_sim set_iter person_entity_extraction
                organization_properties location_properties
                text num_search_results context_window lang_code) mentions
    = Ok records ->
  preprocess_entity_name word_tokenize stopwords entity = Ok processed ->
  processed <> "" ->
  registered entity_type = true ->
  resolve requests_get cos_sim set_iter person_entity_extraction
          organization_properties location_properties
          text num_search_results context_window lang_code
          (Mention entity processed start_char entity_type) = Raise e ->
  extract_entities requests_get cos_sim set_iter word_tokenize person_entity_extraction
                   organization_properties location_properties stopwords
                   entity_dict text num_search_results context_window lang_code
  = ((printed mentions records ++ [PrintMention entity entity_type processed])%list,
     Raise e).
Proof.
  intros Hitems Hm Hreg Hres Hp Hne Htag Hfail. unfold extract_entities.
  rewrite Hitems.
  assert (Hroute : route requests_get cos_sim set_iter person_entity_extraction
                     organization_properties location_properties
                     None text processed start_char entity_type
                     num_search_results context_window lang_code = Raise e).
  { unfold resolve in Hfail.
    cbn [mention_processed mention_start mention_type] in Hfail.
    destruct (route _ _ _ _ _ _ None text processed start_char entity_type _ _ _)
      as [bound|e'] eqn:Hroute.
    - destruct (route_registered_binds _ _ _ _ _ _ _ _ _ _ _ _ _ _ Htag Hroute)
        as [info ->].
      discriminate.
    - cbn [bind] in Hfail. inversion Hfail. reflexivity. }
  rewrite (loop_stops_at_failure _ _ _ _ _ _ _ _ _ _ _ _ _ _ _ _ _ _ _ _ _
             Hm Hreg Hres Hp Hne Hroute).
  reflexivity.
Qed.

Lemma failing_mention_stops_dispatch_witness :
  exists records,
    sample_linker [("Paris", (0, "LOC")); ("Atlantis", (45, "LOC"));
                   ("The Amazon", (25, "ORG"))] sample_text 3 2 "en"
    = ((printed [Mention "Paris" "Paris" 0 "LOC"] records
          ++ [PrintMention "Atlantis" "LOC" "Atlantis"])%list, Raise KeyError).
Proof.
  eexists.
  apply (failing_mention_stops_dispatch
           sample_net sample_cos_sim cpython_set_order re_split_space
           sample_person_extraction sample_organization_properties
           sample_location_properties sample_stopwords
           [("Paris", (0, "LOC")); ("Atlantis", (45, "LOC")); ("The Amazon", (25, "ORG"))]
           [("Paris", (0, "LOC"))] [("The Amazon", (25, "ORG"))]
           "Atlantis" 45 "LOC" "Atlantis" KeyError).
  - vm_compute. reflexivity.
  - vm_compute. reflexivity.
  - repeat constructor.
  - vm_compute. reflexivity.
  - vm_compute. reflexivity.
  - discriminate.
  - reflexivity.
  - vm_compute. reflexivity.
Defined.

(** C2 (counterexample).  The record the first mention resolves to has no
    label in any language: its projection raises [KeyError], the call raises
    it too, and the second mention, which resolves when it stands alone, is
    never processed. *)
Lemma one_bad_mention_aborts_the_rest :
  location_entity_extraction sample_net sample_cos_sim cpython_set_order
    sample_location_properties sample_text "Atlantis" 45 3 2 "en" = Raise KeyError
  /\ is_ok (location_entity_extraction sample_net sample_cos_sim cpython_set_order
              sample_location_properties sample_text "Paris" 0 3 2 "en") = true
  /\ sample_linker [("Atlantis", (45, "LOC")); ("Paris", (0, "LOC"))] sample_text 3 2 "en"
     = ([PrintMention "Atlantis" "LOC" "Atlantis"], Raise KeyError)
  /\ ~ In (PrintMention "Paris" "LOC" "Paris")
          (fst (sample_linker [("Atlantis", (45, "LOC")); ("Paris", (0, "LOC"))]
                              sample_text 3 2 "en")).
Proof.
  split; [vm_compute; reflexivity|].
  split; [vm_compute; reflexivity|].
  split; [vm_compute; reflexivity|].
  vm_compute. intros [H|[]]. discriminate.
Qed.

(** * Further properties of the code *)

(** ** Context extraction within the text *)

Lemma units_length_app (sep : Z) (l1 l2 : list string) :
  units_length sep (l1 ++ l2) = units_length sep l1 + units_length sep l2.
Proof.
  induction l1 as [|u l1 IH]; cbn [app units_length]; [reflexivity|]. rewrite IH. lia.
Qed.

Lemma units_length_nonneg (sep : Z) (l : list string) :
  0 <= sep -> 0 <= units_length sep l.
Proof.
  intros Hsep. induction l as [|u l IH]; cbn [units_length]; [lia|].
  pose proof (len_str_nonneg u). lia.
Qed.

Lemma list_index_nth (x : string) (l : list string) (i : Z) :
  list_index x l = Ok i -> nth_error l (Z.to_nat i) = Some x.
Proof.
  revert i. induction l as [|y l IH]; intros i H; cbn [list_index] in H; [discriminate|].
  destruct (String.eqb y x) eqn:E.
  - apply String.eqb_eq in E. inversion H; subst. reflexivity.
  - bind_inv H as j Hj. inversion H; subst.
    pose proof (list_index_bounds _ _ _ Hj) as Hb.
    replace (Z.to_nat (j + 1)) with (S (Z.to_nat j)) by lia.
    cbn [nth_error]. apply IH. exact Hj.
Qed.

Lemma list_index_found (x : string) (l : list string) :
  In x l -> exists i, list_index x l = Ok i.
Proof.
  induction l as [|y l IH]; intros Hin; [destruct Hin|]. cbn [list_index].
  destruct (String.eqb y x) eqn:E; [eauto|].
  destruct Hin as [->|Hin]; [rewrite String.eqb_refl in E; discriminate|].
  destruct (IH Hin) as [i Hi]. rewrite Hi. cbn [bind]. eauto.
Qed.

(** The loop over [rest], entered with the count of the units [before] it. *)
Lemma anchor_loop_stops (sep : Z) (all_units before rest : list string) (start_char : Z) :
  0 <= sep ->
  all_units = (before ++ rest)%list ->
  before = [] \/ units_length sep before <= start_char ->
  start_char < units_length sep all_units ->
  rest <> [] ->
  exists unit a,
    stops_at sep all_units start_char unit
    /\ anchor_loop sep all_units rest (units_length sep before) start_char = Ok (Some a)
    /\ nth_error all_units (Z.to_nat a) = Some unit.
Proof.
  intros Hsep. revert before.
  induction rest as [|unit rest IH]; intros before Hall Hbefore Htotal Hne;
    [congruence|].
  cbn [anchor_loop].
  destruct (start_char <? units_length sep before + len_str unit + sep) eqn:Hlt.
  - apply Z.ltb_lt in Hlt.
    destruct (list_index_found unit all_units) as [a Ha].
    { subst all_units. apply in_or_app. right. left. reflexivity. }
    exists unit, a. split; [|split].
    + exists before, rest. auto.
    + rewrite Ha. reflexivity.
    + apply list_index_nth. exact Ha.
  - apply Z.ltb_ge in Hlt.
    assert (Hcount : units_length sep (before ++ [unit])
                     = units_length sep before + len_str unit + sep).
    { rewrite units_length_app. cbn [units_length]. lia. }
    destruct (IH (before ++ [unit])%list) as [u [a [Hstop [Hloop Hnth]]]].
    + rewrite <- app_assoc. exact Hall.
    + right. lia.
    + exact Htotal.
    + intros ->. subst all_units. rewrite units_length_app in Htotal.
      cbn [units_length] in Htotal. lia.
    + exists u, a. rewrite Hcount in Hloop. auto.
Qed.

(** X1.  With a window of 0 both extractors return the unit their count
    stops at, the first word (sentence) at which the running count of
    characters exceeds [start_char]: the word extractor for an offset of at
    most the length of the text, the sentence extractor for a text with at
    least one sentence and an offset below the sum of the lengths of its
    sentences.  (That sum leaves out the white space between the sentences:
    an offset near the end of the text can lie beyond it, and then the
    anchor is unbound.)  The detour through [units.index] changes the index
    when the unit is repeated, not the unit returned. *)
Theorem window_zero_returns_unit_of_offset
        (set_iter : set_order) (sent_tokenize : string -> list string)
        (text : string) (start_char : Z) :
  (start_char <= len_str text ->
   exists word,
     stops_at 1 (re_split_space text) start_char word
     /\ extract_context_by_words set_iter text start_char 0 = Ok word)
  /\ (sent_tokenize text <> [] ->
      start_char < units_length 0 (sent_tokenize text) ->
      exists sentence,
        stops_at 0 (sent_tokenize text) start_char sentence
        /\ extract_context_by_sentences set_iter sent_tokenize text start_char 0
           = Ok sentence).
Proof.
  split.
  - intros Hin.
    destruct (anchor_loop_stops 1 (re_split_space text) [] (re_split_space text) start_char)
      as [word [a [Hstop [Hloop Hnth]]]]; try reflexivity; auto; try lia.
    + rewrite re_split_space_length. lia.
    + apply re_split_space_nonempty.
    + exists word. split; [exact Hstop|].
      unfold extract_context_by_words. cbn [units_length] in Hloop. rewrite Hloop.
      cbn [bind read_local Z.eqb].
      pose proof (anchor_loop_bounds _ _ _ _ _ _ Hloop) as Hb.
      destruct (getitem_in_range (re_split_space text) a Hb) as [w [Hget Hw]].
      rewrite Hget. congruence.
  - intros Hne Hlt.
    destruct (anchor_loop_stops 0 (sent_tokenize text) [] (sent_tokenize text) start_char)
      as [sentence [a [Hstop [Hloop Hnth]]]]; try reflexivity; auto; try lia.
    exists sentence. split; [exact Hstop|].
    unfold extract_context_by_sentences, context_of_sentences.
    cbn [units_length] in Hloop. rewrite Hloop. cbn [bind read_local Z.eqb].
    pose proof (anchor_loop_bounds _ _ _ _ _ _ Hloop) as Hb.
    destruct (getitem_in_range (sent_tokenize text) a Hb) as [w [Hget Hw]].
    rewrite Hget. congruence.
Qed.

Lemma window_zero_returns_unit_of_offset_witness :
  (exists word,
      stops_at 1 (re_split_space sample_text) 25 word
      /\ extract_context_by_words cpython_set_order sample_text 25 0 = Ok word)
  /\ (exists sentence,
         stops_at 0 (split_sentences sample_text) 25 sentence
         /\ extract_context_by_sentences cpython_set_order split_sentences sample_text 25 0
            = Ok sentence).
Proof.
  destruct (window_zero_returns_unit_of_offset
              cpython_set_order split_sentences sample_text 25) as [Hwords Hsentences].
  split.
  - apply Hwords. vm_compute. discriminate.
  - apply Hsentences.
    + vm_compute. discriminate.
    + vm_compute. reflexivity.
Defined.

(** The words find their unit at the very end of a text, where the sentences
    do not: the lengths of the two sentences of this text of 25 characters
    sum to 24. *)
Example last_offset_has_a_word_but_no_sentence :
  len_str "One is here. Two is there" = 25
  /\ units_length 0 (split_sentences "One is here. Two is there") = 24
  /\ extract_context_by_words cpython_set_order "One is here. Two is there" 24 0
     = Ok "there"
  /\ extract_context_by_sentences cpython_set_order split_sentences
                                  "One is here. Two is there" 24 0
     = Raise UnboundLocalError.
Proof. repeat split; vm_compute; reflexivity. Qed.

(** *** Sorting the clipped indices *)

From Stdlib Require Import Sorting.Sorted.

Lemma insert_sorted_In (x y : Z) (l : list Z) :
  In y (insert_sorted x l) <-> y = x \/ In y l.
Proof.
  induction l as [|z l IH]; cbn [insert_sorted].
  - simpl. intuition congruence.
  - destruct (x <=? z); simpl; [intuition congruence|].
    rewrite IH. intuition congruence.
Qed.

Lemma sorted_In (x : Z) (l : list Z) : In x (sorted l) <-> In x l.
Proof.
  unfold sorted. induction l as [|y l IH]; cbn [fold_right]; [tauto|].
  rewrite insert_sorted_In, IH. simpl. intuition congruence.
Qed.

Lemma insert_sorted_increasing (x : Z) (l : list Z) :
  StronglySorted Z.lt l -> ~ In x l -> StronglySorted Z.lt (insert_sorted x l).
Proof.
  induction l as [|y l IH]; intros Hs Hnin; cbn [insert_sorted].
  - constructor; constructor.
  - inversion Hs as [|? ? Hs' Hall]; subst.
    destruct (x <=? y) eqn:E.
    + apply Z.leb_le in E.
      assert (Hxy : x < y) by (simpl in Hnin; lia).
      constructor; [exact Hs|]. constructor; [exact Hxy|].
      eapply Forall_impl; [|exact Hall]. intros z Hz. cbn in Hz. lia.
    + apply Z.leb_gt in E. constructor.
      * apply IH; [exact Hs'|]. simpl in Hnin. tauto.
      * apply Forall_forall. intros z Hz. apply insert_sorted_In in Hz.
        destruct Hz as [->|Hz]; [exact E|].
        rewrite Forall_forall in Hall. apply Hall. exact Hz.
Qed.

Lemma sorted_increasing (l : list Z) : NoDup l -> StronglySorted Z.lt (sorted l).
Proof.
  unfold sorted. induction 1 as [|x l Hnin Hnd IH]; cbn [fold_right].
  - constructor.
  - apply insert_sorted_increasing; [exact IH|].
    intros Hin. apply Hnin. apply (sorted_In x l). exact Hin.
Qed.

Lemma increasing_unique (l1 l2 : list Z) :
  StronglySorted Z.lt l1 -> StronglySorted Z.lt l2 ->
  (forall x, In x l1 <-> In x l2) -> l1 = l2.
Proof.
  intros H1. revert l2. induction H1 as [|x l1 Hs1 IH Hall1]; intros l2 H2 Hsame.
  - destruct l2 as [|y l2]; [reflexivity|].
    exfalso. apply (Hsame y). left. reflexivity.
  - destruct l2 as [|y l2].
    + exfalso. apply (Hsame x). left. reflexivity.
    + inversion H2 as [|? ? Hs2 Hall2]; subst.
      rewrite Forall_forall in Hall1, Hall2.
      assert (Hxy : x = y).
      { destruct (proj1 (Hsame x) (or_introl eq_refl)) as [Hy|Hx]; [congruence|].
        destruct (proj2 (Hsame y) (or_introl eq_refl)) as [Hx'|Hy']; [congruence|].
        specialize (Hall1 _ Hy'). specialize (Hall2 _ Hx). cbn in *. lia. }
      subst y. f_equal. apply IH; [exact Hs2|].
      intros z. split; intros Hz.
      * destruct (proj1 (Hsame z) (or_intror Hz)) as [Hzx|Hz2]; [|exact Hz2].
        subst z. specialize (Hall1 _ Hz). cbn in Hall1. lia.
      * destruct (proj2 (Hsame z) (or_intror Hz)) as [Hzx|Hz1]; [|exact Hz1].
        subst z. specialize (Hall2 _ Hz). cbn in Hall2. lia.
Qed.

Lemma arange_increasing (lo hi : Z) : StronglySorted Z.lt (arange lo hi).
Proof.
  unfold arange. generalize (Z.to_nat (hi - lo)) as n. intros n.
  generalize 0%nat as s. induction n as [|n IH]; intros s; cbn [seq map].
  - constructor.
  - constructor; [apply IH|]. apply Forall_forall. intros z Hz.
    apply in_map_iff in Hz. destruct Hz as [k [<- Hk]]. apply in_seq in Hk. lia.
Qed.

Lemma mapM_getitem_nth (l : list string) (ids : list Z) :
  (forall i, In i ids -> 0 <= i < len l) ->
  mapM (getitem l) ids = Ok (map (fun i => nth (Z.to_nat i) l "") ids).
Proof.
  induction ids as [|i ids IH]; intros Hall; cbn [mapM map]; [reflexivity|].
  destruct (getitem_in_range l i) as [a [Ha Hnth]]; [apply Hall; left; reflexivity|].
  rewrite Ha, IH by (intros j Hj; apply Hall; right; exact Hj). cbn [bind].
  rewrite (nth_error_nth _ _ _ Hnth). reflexivity.
Qed.

Lemma words_anchor_found (text : string) (start_char : Z) :
  start_char <= len_str text ->
  exists a,
    anchor_loop 1 (re_split_space text) (re_split_space text) 0 start_char = Ok (Some a)
    /\ 0 <= a < len (re_split_space text).
Proof.
  intros Hin.
  destruct (anchor_loop_stops 1 (re_split_space text) [] (re_split_space text) start_char)
    as [word [a [_ [Hloop _]]]]; try reflexivity; auto; try lia.
  - rewrite re_split_space_length. lia.
  - apply re_split_space_nonempty.
  - cbn [units_length] in Hloop. exists a. split; [exact Hloop|].
    eapply anchor_loop_bounds; eauto.
Qed.

Lemma words_window_selected
        (set_iter : set_order) (text : string) (start_char context_window : Z) :
  set_order_ok set_iter ->
  start_char <= len_str text ->
  1 <= context_window ->
  exists anchor,
    anchor_loop 1 (re_split_space text) (re_split_space text) 0 start_char
      = Ok (Some anchor)
    /\ 0 <= anchor < len (re_split_space text)
    /\ extract_context_by_words set_iter text start_char context_window
       = Ok (join " " (units_between (re_split_space text)
                         (Z.max 0 (anchor - context_window))
                         (Z.min (len (re_split_space text) - 1)
                                (anchor + context_window)))).
Proof.
  intros Hset Hin Hw.
  destruct (words_anchor_found text start_char Hin) as [a [Hloop Ha]].
  exists a. split; [exact Hloop|]. split; [exact Ha|].
  unfold extract_context_by_words. rewrite Hloop. cbn [bind read_local].
  destruct (context_window =? 0) eqn:Hz; [apply Z.eqb_eq in Hz; lia|].
  set (words := re_split_space text) in *.
  set (ids := map (clip_function (len words))
                  (arange (a - context_window) (a + context_window + 1))).
  destruct (Hset ids) as [Hnd Hsame].
  assert (Hsorted : sorted (set_iter ids)
                    = arange (Z.max 0 (a - context_window))
                             (Z.min (len words - 1) (a + context_window) + 1)).
  { apply increasing_unique.
    - apply sorted_increasing. exact Hnd.
    - apply arange_increasing.
    - intros x. rewrite sorted_In, Hsame. unfold ids.
      rewrite clipped_window_spec by lia. rewrite In_arange. lia. }
  rewrite Hsorted. rewrite mapM_getitem_nth.
  - reflexivity.
  - intros i Hi. apply In_arange in Hi. lia.
Qed.


(** X2.  For an offset of at most the length of the text and a window of at
    least one and at most [max_window], the word extractor returns the words
    at the indices from [anchor - window] to [anchor + window], cut at the
    first and the last word, each once and in text order, joined by single
    blanks, whatever the order in which the runtime iterates the set of
    indices. *)
Theorem words_context_is_window_slice
        (set_iter : set_order) (text : string) (start_char context_window : Z) :
  set_order_ok set_iter ->
  start_char <= len_str text ->
  1 <= context_window <= max_window ->
  exists anchor,
    anchor_loop 1 (re_split_space text) (re_split_space text) 0 start_char
      = Ok (Some anchor)
    /\ 0 <= anchor < len (re_split_space text)
    /\ extract_context_by_words set_iter text start_char context_window
       = Ok (join " " (units_between (re_split_space text)
                         (Z.max 0 (anchor - context_window))
                         (Z.min (len (re_split_space text) - 1)
                                (anchor + context_window)))).
Proof.
  intros Hset Hin [Hw _].
  exact (words_window_selected set_iter text start_char context_window Hset Hin Hw).
Qed.

Lemma words_context_is_window_slice_witness :
  exists anchor,
    anchor_loop 1 (re_split_space sample_text) (re_split_space sample_text) 0 25
      = Ok (Some anchor)
    /\ 0 <= anchor < len (re_split_space sample_text)
    /\ extract_context_by_words cpython_set_order sample_text 25 2
       = Ok (join " " (units_between (re_split_space sample_text)
                         (Z.max 0 (anchor - 2))
                         (Z.min (len (re_split_space sample_text) - 1) (anchor + 2)))).
Proof.
  apply (words_context_is_window_slice cpython_set_order sample_text 25 2).
  - exact cpython_set_order_ok.
  - vm_compute. discriminate.
  - vm_compute. split; discriminate.
Defined.

Lemma set_order_of_nil (set_iter : set_order) : set_order_ok set_iter -> set_iter [] = [].
Proof.
  intros Hset. destruct (Hset []) as [_ Hsame].
  destruct (set_iter []) as [|x l]; [reflexivity|].
  exfalso. apply (Hsame x). left. reflexivity.
Qed.

(** X3.  A negative window, down to [- max_window], selects nothing: both
    extractors return the empty string, not the anchor unit; the word
    extractor for an offset of at most the length of the text, the sentence
    extractor for a text with at least one sentence and an offset below the
    sum of the lengths of its sentences. *)
Theorem negative_window_gives_empty_context
        (set_iter : set_order) (sent_tokenize : string -> list string)
        (text : string) (start_char context_window : Z) :
  set_order_ok set_iter ->
  - max_window <= context_window < 0 ->
  (start_char <= len_str text ->
   extract_context_by_words set_iter text start_char context_window = Ok "")
  /\ (sent_tokenize text <> [] ->
      start_char < units_length 0 (sent_tokenize text) ->
      extract_context_by_sentences set_iter sent_tokenize text start_char context_window
      = Ok "").
Proof.
  intros Hset [_ Hw].
  assert (Hnone : forall n a,
             set_iter (map (clip_function n)
                           (arange (a - context_window) (a + context_window + 1))) = []).
  { intros n a. unfold arange.
    replace (Z.to_nat (a + context_window + 1 - (a - context_window))) with 0%nat by lia.
    apply set_order_of_nil. exact Hset. }
  split.
  - intros Hin. destruct (words_anchor_found text start_char Hin) as [a [Hloop Ha]].
    unfold extract_context_by_words. rewrite Hloop. cbn [bind read_local].
    destruct (context_window =? 0) eqn:Hz; [apply Z.eqb_eq in Hz; lia|].
    rewrite Hnone. reflexivity.
  - intros Hne Hlt.
    destruct (anchor_loop_stops 0 (sent_tokenize text) [] (sent_tokenize text) start_char)
      as [sentence [a [_ [Hloop _]]]]; try reflexivity; auto; try lia.
    cbn [units_length] in Hloop.
    unfold extract_context_by_sentences, context_of_sentences.
    rewrite Hloop. cbn [bind read_local].
    destruct (context_window =? 0) eqn:Hz; [apply Z.eqb_eq in Hz; lia|].
    rewrite Hnone. reflexivity.
Qed.

Lemma negative_window_gives_empty_context_witness :
  extract_context_by_words cpython_set_order sample_text 25 (-1) = Ok ""
  /\ extract_context_by_sentences cpython_set_order split_sentences sample_text 25 (-1)
     = Ok "".
Proof.
  destruct (negative_window_gives_empty_context
              cpython_set_order split_sentences sample_text 25 (-1))
    as [Hwords Hsentences].
  - exact cpython_set_order_ok.
  - vm_compute. split; [discriminate | reflexivity].
  - split.
    + apply Hwords. vm_compute. discriminate.
    + apply Hsentences.
      * vm_compute. discriminate.
      * vm_compute. reflexivity.
Defined.

(** ** The filters and the exact lookup *)

(** X4.  When every request gets a response, whatever its status or body,
    both filters return, and they return the accepted ids of the input in the
    order of the input: a status other than 200, a body that is no JSON and
    structural data of another shape only leave the id out. *)
Theorem filter_keeps_accepted_in_order
        (requests_get : network) (qid_list : list string) :
  (forall qid, In qid qid_list ->
               is_ok (requests_get (entity_data_url qid) []) = true) ->
  filter_location_qids requests_get qid_list
    = Ok (filter (accepts requests_get location_filter_properties) qid_list)
  /\ filter_organization_qids requests_get qid_list
    = Ok (filter (accepts requests_get organization_filter_properties) qid_list).
Proof.
  intros Hall. split.
  - destruct (filter_qids_loop_returns requests_get location_filter_properties
                qid_list [] Hall) as [out Hout].
    unfold filter_location_qids, filter_qids. rewrite Hout.
    apply filter_qids_loop_accepts in Hout. subst out. reflexivity.
  - destruct (filter_qids_loop_returns requests_get organization_filter_properties
                qid_list [] Hall) as [out Hout].
    unfold filter_organization_qids, filter_qids. rewrite Hout.
    apply filter_qids_loop_accepts in Hout. subst out. reflexivity.
Qed.

Lemma filter_keeps_accepted_in_order_witness :
  filter_location_qids sample_net ["Q3783"; "Q90"; "Q64"; "Q666"]
    = Ok (filter (accepts sample_net location_filter_properties)
                 ["Q3783"; "Q90"; "Q64"; "Q666"])
  /\ filter_organization_qids sample_net ["Q3783"; "Q90"; "Q64"; "Q666"]
    = Ok (filter (accepts sample_net organization_filter_properties)
                 ["Q3783"; "Q90"; "Q64"; "Q666"]).
Proof.
  apply (filter_keeps_accepted_in_order sample_net ["Q3783"; "Q90"; "Q64"; "Q666"]).
  intros qid Hin. cbn in Hin.
  destruct Hin as [<-|[<-|[<-|[<-|[]]]]]; vm_compute; reflexivity.
Defined.

Lemma get_typed_qnumber_accepted
      (requests_get : network) (filter_properties : list string)
      (wikiarticle wikisite lang_code qid : string) :
  get_typed_qnumber requests_get filter_properties wikiarticle wikisite lang_code = Ok qid ->
  qid = "-1" \/ accepts requests_get filter_properties qid = true.
Proof.
  unfold get_typed_qnumber. intros H.
  bind_inv H as q Hq. bind_inv H as response Hresponse.
  destruct (status_code response =? 200) eqn:Hstatus.
  - destruct (passes_filter filter_properties response q) as [[|]|e] eqn:Hpass;
      cbn [try_except bind] in H; inversion H; subst.
    + right. unfold accepts. rewrite Hresponse, Hstatus, Hpass. reflexivity.
    + left. reflexivity.
    + left. reflexivity.
  - inversion H. left. reflexivity.
Qed.

(** X5.  The exact lookup of either linker returns "-1" or an id its filter
    accepts: an exact title hit is never used without passing the filter. *)
Theorem exact_lookup_passes_filter
        (requests_get : network) (wikiarticle wikisite lang_code qid : string) :
  (get_location_qnumber requests_get wikiarticle wikisite lang_code = Ok qid ->
   qid = "-1" \/ accepts requests_get location_filter_properties qid = true)
  /\ (get_organization_qnumber requests_get wikiarticle wikisite lang_code = Ok qid ->
      qid = "-1" \/ accepts requests_get organization_filter_properties qid = true).
Proof.
  split; intros H.
  - exact (get_typed_qnumber_accepted requests_get location_filter_properties
             wikiarticle wikisite lang_code qid H).
  - exact (get_typed_qnumber_accepted requests_get organization_filter_properties
             wikiarticle wikisite lang_code qid H).
Qed.

Lemma exact_lookup_passes_filter_witness :
  get_location_qnumber sample_net "Paris" "enwiki" "en" = Ok "Q90"
  /\ accepts sample_net location_filter_properties "Q90" = true
  /\ get_organization_qnumber sample_net "Paris" "enwiki" "en" = Ok "-1".
Proof.
  assert (H : get_location_qnumber sample_net "Paris" "enwiki" "en" = Ok "Q90")
    by (vm_compute; reflexivity).
  split; [exact H|]. split; [|vm_compute; reflexivity].
  destruct (proj1 (exact_lookup_passes_filter sample_net "Paris" "enwiki" "en" "Q90") H)
    as [Hminus|Hacc]; [discriminate | exact Hacc].
Defined.

Lemma entity_extraction_projects_accepted
      (requests_get : network) (cos_sim : string -> string -> Q) (set_iter : set_order)
      (filter_properties : list string) (entity_properties : list (string * string))
      (text entity : string) (start_char num_search_results context_window : Z)
      (lang_code : string) (info : pydict) :
  entity_extraction requests_get cos_sim set_iter filter_properties entity_properties
                    text entity start_char num_search_results context_window lang_code
    = Ok info ->
  info = []
  \/ exists qid,
      accepts requests_get filter_properties qid = true
      /\ extract_wikidata_entity_info requests_get qid entity_properties lang_code = Ok info.
Proof.
  unfold entity_extraction. intros H. bind_inv H as qid Hqid.
  destruct (String.eqb qid "-1") eqn:E; cbn [negb] in H.
  - bind_inv H as search_results Hsearch. bind_inv H as context Hcontext.
    destruct search_results as [|c cs]; [inversion H; left; reflexivity|].
    bind_inv H as top Htop. right. exists top. split; [|exact H].
    eapply wikidata_search_accepted; [exact Hsearch|].
    eapply context_entity_matching_among; exact Htop.
  - right. exists qid. split; [|exact H].
    destruct (get_typed_qnumber_accepted requests_get filter_properties entity
                (lang_code ++ "wiki") lang_code qid Hqid) as [->|Hacc]; [|exact Hacc].
    discriminate.
Qed.

(** X6.  Whatever a typed linker returns is the empty record or the
    projection of an id that its filter accepts, on the exact path as on the
    search path. *)
Theorem linker_returns_empty_or_accepted_record
        (requests_get : network) (cos_sim : string -> string -> Q) (set_iter : set_order)
        (entity_properties : list (string * string))
        (text entity : string) (start_char num_search_results context_window : Z)
        (lang_code : string) (info : pydict) :
  (location_entity_extraction requests_get cos_sim set_iter entity_properties
     text entity start_char num_search_results context_window lang_code = Ok info ->
   info = []
   \/ exists qid,
       accepts requests_get location_filter_properties qid = true
       /\ extract_wikidata_entity_info requests_get qid entity_properties lang_code
          = Ok info)
  /\ (organization_entity_extraction requests_get cos_sim set_iter entity_properties
        text entity start_char num_search_results context_window lang_code = Ok info ->
      info = []
      \/ exists qid,
          accepts requests_get organization_filter_properties qid = true
          /\ extract_wikidata_entity_info requests_get qid entity_properties lang_code
             = Ok info).
Proof.
  split; intros H.
  - exact (entity_extraction_projects_accepted
             requests_get cos_sim set_iter location_filter_properties entity_properties
             text entity start_char num_search_results context_window lang_code info H).
  - exact (entity_extraction_projects_accepted
             requests_get cos_sim set_iter organization_filter_properties
             entity_properties
             text entity start_char num_search_results context_window lang_code info H).
Qed.

Lemma linker_returns_empty_or_accepted_record_witness :
  exists info,
    organization_entity_extraction sample_net sample_cos_sim cpython_set_order
      sample_organization_properties sample_text "Amazon" 25 3 2 "en" = Ok info
    /\ (info = []
        \/ exists qid,
            accepts sample_net organization_filter_properties qid = true
            /\ extract_wikidata_entity_info sample_net qid
                 sample_organization_properties "en" = Ok info).
Proof.
  eexists. split; [vm_compute; reflexivity|].
  apply (proj2 (linker_returns_empty_or_accepted_record
                  sample_net sample_cos_sim cpython_set_order
                  sample_organization_properties sample_text "Amazon" 25 3 2 "en" _)).
  vm_compute. reflexivity.
Defined.

Lemma words_offset_past_end (set_iter : set_order) (text : string)
      (start_char context_window : Z) :
  len_str text < start_char ->
  extract_context_by_words set_iter text start_char context_window
  = Raise UnboundLocalError.
Proof.
  intros Hpast. unfold extract_context_by_words.
  rewrite anchor_loop_runs_out.
  - cbn [bind read_local]. destruct (context_window =? 0); reflexivity.
  - lia.
  - rewrite re_split_space_length. lia.
Qed.

(** X7.  On the search path the context is extracted before the candidate
    set is looked at: with an offset past the end of the text a linker raises
    [UnboundLocalError] even when the search found nothing, where it would
    have returned the empty record. *)
Theorem search_path_raises_on_offset_past_end
        (requests_get : network) (cos_sim : string -> string -> Q) (set_iter : set_order)
        (filter_properties : list string) (entity_properties : list (string * string))
        (text entity : string) (start_char num_search_results context_window : Z)
        (lang_code : string) (search_results : candidates) :
  get_typed_qnumber requests_get filter_properties entity (lang_code ++ "wiki") lang_code
    = Ok "-1" ->
  wikidata_search requests_get filter_properties entity num_search_results lang_code
    = Ok search_results ->
  len_str text < start_char ->
  entity_extraction requests_get cos_sim set_iter filter_properties entity_properties
                    text entity start_char num_search_results context_window lang_code
  = Raise UnboundLocalError.
Proof.
  intros Hq Hsearch Hpast. unfold entity_extraction.
  rewrite Hq. cbn [bind String.eqb negb]. rewrite Hsearch. cbn [bind].
  rewrite words_offset_past_end by exact Hpast. reflexivity.
Qed.

Lemma search_path_raises_on_offset_past_end_witness :
  location_entity_extraction sample_net sample_cos_sim cpython_set_order
    sample_location_properties sample_text "Berlin" 500 3 2 "en"
  = Raise UnboundLocalError.
Proof.
  apply (search_path_raises_on_offset_past_end
           sample_net sample_cos_sim cpython_set_order location_filter_properties
           sample_location_properties sample_text "Berlin" 500 3 2 "en" []).
  - vm_compute. reflexivity.
  - vm_compute. reflexivity.
  - vm_compute. reflexivity.
Defined.

(** ** The exact lookup and the disambiguation check *)

Lemma dict_keys_cons_first {A : Type} (k : string) (v : A) (d : list (string * A)) :
  exists rest, dict_keys ((k, v) :: d) = k :: rest.
Proof.
  unfold dict_keys, dict_items. cbn [dict_items_from mem_str map fst]. eauto.
Qed.

Lemma dict_mem_get {A : Type} (d : list (string * A)) (k : string) (v : A) :
  dict_get d k = Some v -> dict_mem d k = true.
Proof. unfold dict_mem. intros ->. reflexivity. Qed.

(** X8.  The disambiguation check of the exact lookup always reads the
    English description.  When the title index answers with an id whose
    record has descriptions but none in English, the check raises [KeyError]
    and so does the linker, whatever the requested language, the text and
    the offset. *)
Theorem exact_hit_without_english_description_raises
        (requests_get : network) (cos_sim : string -> string -> Q) (set_iter : set_order)
        (filter_properties : list string) (entity_properties : list (string * string))
        (text entity : string) (start_char num_search_results context_window : Z)
        (lang_code qid : string)
        (titles checked : response) (hit : pyval)
        (index others data record entities descriptions : pydict) :
  requests_get api_url
    [("action", "wbgetentities"); ("titles", entity);
     ("sites", lang_code ++ "wiki"); ("props", ""); ("format", "json")] = Ok titles ->
  json titles = Ok (VDict index) ->
  dict_get index "entities" = Some (VDict ((qid, hit) :: others)) ->
  requests_get api_url
    [("action", "wbgetentities"); ("format", "json");
     ("ids", qid); ("languages", "en")] = Ok checked ->
  json checked = Ok (VDict data) ->
  dict_get data "entities" = Some (VDict entities) ->
  dict_get entities qid = Some (VDict record) ->
  dict_get record "descriptions" = Some (VDict descriptions) ->
  dict_get descriptions "en" = None ->
  entity_extraction requests_get cos_sim set_iter filter_properties entity_properties
                    text entity start_char num_search_results context_window lang_code
  = Raise KeyError.
Proof.
  intros Htitles Hindex Hentities Hchecked Hdata Hfound Hrecord Hdescs Hen.
  assert (Hcheck : check_wikimedia_disambiguation_page requests_get qid "en"
                   = Raise KeyError).
  { unfold check_wikimedia_disambiguation_page.
    rewrite Hchecked. cbn [bind]. rewrite Hdata. cbn [bind contains subscript].
    rewrite (dict_mem_get _ _ _ Hfound), Hfound. cbn [bind contains subscript].
    rewrite (dict_mem_get _ _ _ Hrecord), Hrecord. cbn [bind subscript].
    rewrite Hdescs. cbn [bind subscript]. rewrite Hen. reflexivity. }
  assert (Hq : get_qnumber requests_get entity (lang_code ++ "wiki") = Raise KeyError).
  { unfold get_qnumber. rewrite Htitles. cbn [bind]. rewrite Hindex.
    cbn [bind subscript]. rewrite Hentities. cbn [bind iterate].
    destruct (dict_keys_cons_first qid hit others) as [rest ->].
    cbn [map]. unfold getitem. cbn [bind as_id Z.ltb Z.compare Z.to_nat nth_error].
    rewrite Hcheck. reflexivity. }
  unfold entity_extraction, get_typed_qnumber. rewrite Hq. reflexivity.
Qed.

Lemma exact_hit_without_english_description_raises_witness :
  entity_extraction (sample_net_with_title "Commerce en ligne" "Q484847")
    sample_cos_sim cpython_set_order
    organization_filter_properties sample_organization_properties
    sample_text "Commerce en ligne" 0 3 2 "fr"
  = Raise KeyError.
Proof.
  eapply (exact_hit_without_english_description_raises
            (sample_net_with_title "Commerce en ligne" "Q484847")
            sample_cos_sim cpython_set_order
            organization_filter_properties sample_organization_properties
            sample_text "Commerce en ligne" 0 3 2 "fr" "Q484847").
  - vm_compute. reflexivity.
  - vm_compute. reflexivity.
  - vm_compute. reflexivity.
  - vm_compute. reflexivity.
  - vm_compute. reflexivity.
  - vm_compute. reflexivity.
  - vm_compute. reflexivity.
  - vm_compute. reflexivity.
  - vm_compute. reflexivity.
Defined.

(** ** The candidate set *)

Lemma dict_set_absent_keys {A : Type} (d : list (string * A)) (k : string) (v : A) :
  ~ In k (map fst d) -> map fst (dict_set d k v) = (map fst d ++ [k])%list.
Proof.
  induction d as [|[k0 v0] d IH]; intros Hnin; cbn [dict_set map fst app].
  - reflexivity.
  - destruct (String.eqb k0 k) eqn:E.
    + apply String.eqb_eq in E. subst. exfalso. apply Hnin. left. reflexivity.
    + cbn [map fst]. rewrite IH; [reflexivity|].
      intros Hin. apply Hnin. right. exact Hin.
Qed.

Lemma dict_set_In {A : Type} (d : list (string * A)) (k : string) (v : A) (x : string * A) :
  In x (dict_set d k v) -> x = (k, v) \/ In x d.
Proof.
  induction d as [|[k0 v0] d IH]; cbn [dict_set In].
  - intros [<-|[]]. left. reflexivity.
  - destruct (String.eqb k0 k); cbn [In].
    + intros [<-|Hin]; [left; reflexivity | right; right; exact Hin].
    + intros [<-|Hin]; [right; left; reflexivity|].
      destruct (IH Hin) as [->|Hd]; [left; reflexivity | right; right; exact Hd].
Qed.

Lemma dict_set_length {A : Type} (d : list (string * A)) (k : string) (v : A) :
  (List.length (dict_set d k v) <= S (List.length d))%nat.
Proof.
  induction d as [|[k0 v0] d IH]; cbn [dict_set List.length]; [lia|].
  destruct (String.eqb k0 k); cbn [List.length]; lia.
Qed.

Lemma dict_items_from_keys {A : Type} (seen : list string) (d : list (string * A)) :
  NoDup (map fst (dict_items_from seen d))
  /\ forall k, In k (map fst (dict_items_from seen d)) -> ~ In k seen.
Proof.
  revert seen. induction d as [|[k v] d IH]; intros seen; cbn [dict_items_from].
  - split; [constructor | intros k []].
  - destruct (mem_str k seen) eqn:E.
    + apply IH.
    + destruct (IH (k :: seen)) as [Hnd Hout]. cbn [map fst]. split.
      * constructor; [|exact Hnd]. intros Hin. apply (Hout k Hin). left. reflexivity.
      * intros k' [<-|Hin].
        -- intros Hseen. apply mem_str_In in Hseen. congruence.
        -- intros Hseen. apply (Hout k' Hin). right. exact Hseen.
Qed.

Lemma dict_keys_NoDup {A : Type} (d : list (string * A)) : NoDup (dict_keys d).
Proof. unfold dict_keys, dict_items. apply dict_items_from_keys. Qed.

Lemma dict_items_from_length {A : Type} (seen : list string) (d : list (string * A)) :
  (List.length (dict_items_from seen d) <= List.length d)%nat.
Proof.
  revert seen. induction d as [|[k v] d IH]; intros seen; cbn [dict_items_from List.length];
    [lia|].
  destruct (mem_str k seen); cbn [List.length].
  - specialize (IH seen). lia.
  - specialize (IH (k :: seen)). lia.
Qed.

Lemma In_dict_get {A : Type} (d : list (string * A)) (k : string) (v : A) :
  NoDup (map fst d) -> In (k, v) d -> dict_get d k = Some v.
Proof.
  induction d as [|[k0 v0] d IH]; intros Hnd Hin; [destruct Hin|].
  cbn [map fst] in Hnd. inversion Hnd; subst. cbn [dict_get].
  destruct Hin as [Heq|Hin].
  - inversion Heq; subst. rewrite String.eqb_refl. reflexivity.
  - destruct (String.eqb k0 k) eqn:E.
    + apply String.eqb_eq in E. subst. exfalso. apply H1.
      apply (in_map fst) in Hin. exact Hin.
    + apply IH; assumption.
Qed.

Lemma final_results_of_exact
      (results_qids filtered_qids : list string) (weights : list Q)
      (items : list (string * pyval)) (acc res : candidates) :
  final_results_of results_qids filtered_qids weights items acc = Ok res ->
  NoDup (map fst items) ->
  (forall k, In k (map fst items) -> ~ In k (map fst acc)) ->
  map fst res
  = (map fst acc ++ filter (fun qid => mem_str qid filtered_qids) (map fst items))%list
  /\ forall qid snippet w,
      In (qid, (snippet, w)) res ->
      In (qid, (snippet, w)) acc \/ In (qid, snippet) items.
Proof.
  revert acc. induction items as [|[q s] rest IH]; intros acc H Hnd Hout;
    cbn [final_results_of map fst filter] in *.
  - inversion H; subst. rewrite app_nil_r. split; [reflexivity|]. intros; left; assumption.
  - inversion Hnd as [|? ? Hq Hnd']; subst.
    destruct (mem_str q filtered_qids) eqn:E.
    + bind_inv H as rank Hrank. bind_inv H as weight Hweight.
      assert (Hqacc : ~ In q (map fst acc)) by (apply Hout; left; reflexivity).
      destruct (IH _ H Hnd') as [Hkeys Hin].
      { intros k Hk. rewrite dict_set_absent_keys by exact Hqacc.
        intros Hkacc. apply in_app_or in Hkacc. destruct Hkacc as [Hkacc|[<-|[]]].
        - apply (Hout k); [right; exact Hk | exact Hkacc].
        - contradiction. }
      split.
      * rewrite Hkeys, dict_set_absent_keys by exact Hqacc.
        rewrite <- app_assoc. reflexivity.
      * intros qid snippet w Hres. destruct (Hin _ _ _ Hres) as [Hacc|Hitems].
        -- apply dict_set_In in Hacc. destruct Hacc as [Heq|Hacc].
           ++ inversion Heq; subst. right. left. reflexivity.
           ++ left. exact Hacc.
        -- right. right. exact Hitems.
    + destruct (IH _ H Hnd') as [Hkeys Hin].
      { intros k Hk. apply Hout. right. exact Hk. }
      split; [exact Hkeys|].
      intros qid snippet w Hres. destruct (Hin _ _ _ Hres) as [Hacc|Hitems].
      * left. exact Hacc.
      * right. right. exact Hitems.
Qed.

Lemma filter_mem_of_filter (f : string -> bool) (l : list string) :
  filter (fun q => mem_str q (filter f l)) l = filter f l.
Proof.
  apply filter_ext_in. intros q Hq.
  destruct (f q) eqn:E.
  - apply mem_str_In. apply filter_In. split; assumption.
  - destruct (mem_str q (filter f l)) eqn:M; [|reflexivity].
    apply mem_str_In, filter_In in M. destruct M as [_ M]. congruence.
Qed.

(** X9.  The candidate set a search returns holds the accepted ids among the
    snippet-bearing hits of the first [num_results] results: all of them,
    each once, in the order of the search. *)
Theorem candidates_are_accepted_hits_in_search_order
        (requests_get : network) (filter_properties : list string)
        (search_phrase : string) (num_results : Z) (lang_code : string)
        (res : candidates) :
  wikidata_search requests_get filter_properties search_phrase num_results lang_code
    = Ok res ->
  exists hits,
    results_information requests_get search_phrase num_results lang_code = Ok hits
    /\ dict_keys res
       = filter (accepts requests_get filter_properties) (dict_keys hits)
    /\ NoDup (map fst res).
Proof.
  intros H.
  destruct (wikidata_search_steps _ _ _ _ _ _ H)
    as [hits [filtered_qids [weights [Hhits [Hfilter [Hweights Hfinal]]]]]].
  exists hits. split; [exact Hhits|].
  unfold filter_qids in Hfilter. apply filter_qids_loop_accepts in Hfilter.
  cbn [app] in Hfilter. subst filtered_qids.
  destruct (final_results_of_exact _ _ _ _ _ _ Hfinal) as [Hkeys _].
  { apply (dict_keys_NoDup hits). }
  { intros k _ []. }
  cbn [map app] in Hkeys. fold (dict_keys hits) in Hkeys.
  rewrite filter_mem_of_filter in Hkeys.
  assert (Hnd : NoDup (map fst res)).
  { rewrite Hkeys. apply NoDup_filter. apply dict_keys_NoDup. }
  split; [|exact Hnd].
  unfold dict_keys at 1. rewrite (dict_items_NoDup res Hnd). exact Hkeys.
Qed.

Lemma candidates_are_accepted_hits_in_search_order_witness :
  exists hits,
    results_information sample_net "Amazon" 3 "en" = Ok hits
    /\ dict_keys [("Q3884", (VStr "American technology company", (101 # 200)%Q))]
       = filter (accepts sample_net organization_filter_properties) (dict_keys hits)
    /\ NoDup (map fst [("Q3884", (VStr "American technology company", (101 # 200)%Q))]).
Proof.
  apply (candidates_are_accepted_hits_in_search_order
           sample_net organization_filter_properties "Amazon" 3 "en").
  vm_compute. reflexivity.
Defined.

Lemma results_information_of_spec (search_results : list pyval) (acc hits : pydict) :
  results_information_of search_results acc = Ok hits ->
  (forall qid snippet, In (qid, snippet) acc -> eq_str snippet "" = false) ->
  (forall qid snippet, In (qid, snippet) hits -> eq_str snippet "" = false)
  /\ (List.length hits <= List.length acc + List.length search_results)%nat.
Proof.
  revert acc. induction search_results as [|result rest IH]; intros acc H Hacc;
    cbn [results_information_of List.length] in *.
  - inversion H; subst. split; [exact Hacc | lia].
  - bind_inv H as snippet Hsnippet.
    destruct (eq_str snippet "") eqn:E; cbn [negb] in H.
    + destruct (IH _ H Hacc) as [H1 H2]. split; [exact H1 | lia].
    + bind_inv H as title Htitle. bind_inv H as id Hid. bind_inv H as snippet' Hsnippet'.
      rewrite Hsnippet in Hsnippet'. inversion Hsnippet'; subst snippet'.
      destruct (IH _ H) as [H1 H2].
      * intros q s Hin. apply dict_set_In in Hin. destruct Hin as [Heq|Hin].
        -- inversion Heq; subst. exact E.
        -- eapply Hacc; eauto.
      * split; [exact H1|]. pose proof (dict_set_length acc id snippet). lia.
Qed.

Lemma slice_results_length (search_results : pyval) (num_results : Z) (sliced : list pyval) :
  slice_results search_results num_results = Ok sliced ->
  0 <= num_results ->
  len sliced <= num_results.
Proof.
  intros H Hn. unfold len.
  assert (Hcut : forall l : list pyval,
             Z.of_nat (List.length (slice_to l num_results)) <= num_results).
  { intros l. unfold slice_to.
    destruct (num_results <? 0) eqn:E; [apply Z.ltb_lt in E; lia|].
    pose proof (firstn_le_length (Z.to_nat num_results) l).
    rewrite length_firstn. lia. }
  destruct search_results; cbn [slice_results] in H; try discriminate.
  - bind_inv H as items Hitems. inversion H; subst. apply Hcut.
  - inversion H; subst. apply Hcut.
Qed.

Lemma interpolate_bounds (num_results position : Z) :
  0 <= position < num_results ->
  ((1 # 100) <= interpolate num_results position
   /\ interpolate num_results position <= 1)%Q.
Proof.
  intros Hp. unfold interpolate.
  destruct (num_results <=? 1) eqn:Hle.
  - split; [vm_compute; discriminate | apply Qle_refl].
  - apply Z.leb_gt in Hle.
    set (d := inject_Z (num_results - 1)). set (x := inject_Z position).
    assert (Hd : (0 < d)%Q) by (unfold d; rewrite <- (Zlt_Qlt 0); lia).
    assert (Hx0 : (0 <= x)%Q) by (unfold x; rewrite <- (Zle_Qle 0); lia).
    assert (Hxd : (x <= d)%Q) by (unfold x, d; rewrite <- Zle_Qle; lia).
    assert (Hratio : (0 <= x / d /\ x / d <= 1)%Q).
    { split.
      - apply Qle_shift_div_l; [exact Hd|]. rewrite Qmult_0_l. exact Hx0.
      - apply Qle_shift_div_r; [exact Hd|]. rewrite Qmult_1_l. exact Hxd. }
    assert (Heq : (1 + x * (((1 # 100) - 1) / d) == 1 - (99 # 100) * (x / d))%Q).
    { field. intros Hz. rewrite Hz in Hd. apply (Qlt_irrefl 0). exact Hd. }
    rewrite Heq. destruct Hratio as [H0 H1]. split; lra.
Qed.

Lemma candidates_of_search
      (requests_get : network) (filter_properties : list string)
      (search_phrase : string) (num_results : Z) (lang_code : string)
      (res : candidates) :
  wikidata_search requests_get filter_properties search_phrase num_results lang_code
    = Ok res ->
  exists hits filtered_qids weights,
    results_information requests_get search_phrase num_results lang_code = Ok hits
    /\ linspace 1 (1 # 100) num_results = Ok weights
    /\ final_results_of (dict_keys hits) filtered_qids weights (dict_items hits) [] = Ok res
    /\ map fst res = filter (fun qid => mem_str qid filtered_qids) (dict_keys hits)
    /\ forall qid snippet w, In (qid, (snippet, w)) res -> In (qid, snippet) hits.
Proof.
  intros H.
  destruct (wikidata_search_steps _ _ _ _ _ _ H)
    as [hits [filtered_qids [weights [Hhits [Hfilter [Hweights Hfinal]]]]]].
  exists hits, filtered_qids, weights.
  destruct (final_results_of_exact _ _ _ _ _ _ Hfinal) as [Hkeys Hin].
  { apply (dict_keys_NoDup hits). }
  { intros k _ []. }
  repeat split; try assumption.
  intros qid snippet w Hres. destruct (Hin _ _ _ Hres) as [[]|Hitems].
  eapply dict_items_from_incl. exact Hitems.
Qed.

(** X10.  Every candidate a search returns has a snippet other than the
    empty string and a prior weight between 0.01 and 1; for a non-negative
    [num_results] there are at most [num_results] candidates. *)
Theorem candidate_set_invariants
        (requests_get : network) (filter_properties : list string)
        (search_phrase : string) (num_results : Z) (lang_code : string)
        (res : candidates) :
  wikidata_search requests_get filter_properties search_phrase num_results lang_code
    = Ok res ->
  (forall qid snippet w,
      In (qid, (snippet, w)) res ->
      eq_str snippet "" = false /\ ((1 # 100) <= w /\ w <= 1)%Q)
  /\ (0 <= num_results -> len res <= num_results).
Proof.
  intros H.
  destruct (candidates_of_search _ _ _ _ _ _ H)
    as [hits [filtered_qids [weights [Hhits [Hweights [Hfinal [Hkeys Hsnip]]]]]]].
  assert (Hnd : NoDup (map fst res)).
  { rewrite Hkeys. apply NoDup_filter. apply dict_keys_NoDup. }
  unfold results_information in Hhits.
  bind_inv Hhits as response Hresponse. bind_inv Hhits as resp Hresp.
  bind_inv Hhits as query Hquery. bind_inv Hhits as found Hfound.
  bind_inv Hhits as sliced Hsliced.
  destruct (results_information_of_spec _ _ _ Hhits) as [Hnonempty Hlen];
    [intros q s []|].
  split.
  - intros qid snippet w Hin. split.
    + eapply Hnonempty. eapply Hsnip. exact Hin.
    + pose proof (In_dict_get _ _ _ Hnd Hin) as Hget.
      destruct (final_results_of_weight _ _ _ _ _ _ _ _ _ Hfinal Hget)
        as [Hnil|[rank [Hrank Hw]]]; [discriminate|].
      pose proof (list_index_bounds _ _ _ Hrank) as Hb.
      destruct (linspace_weight _ _ _ _ Hweights (proj1 Hb) Hw) as [Hlt Heq].
      rewrite Heq. apply interpolate_bounds. lia.
  - intros Hn. pose proof (slice_results_length _ _ _ Hsliced Hn) as Hs.
    unfold len in *. cbn [List.length] in Hlen.
    assert (Hres : (List.length res <= List.length (dict_keys hits))%nat).
    { rewrite <- (length_map fst res), Hkeys. apply filter_length_le. }
    assert (Hk : (List.length (dict_keys hits) <= List.length hits)%nat).
    { unfold dict_keys, dict_items. rewrite length_map. apply dict_items_from_length. }
    lia.
Qed.

Lemma candidate_set_invariants_witness :
  (forall qid snippet w,
      In (qid, (snippet, w))
         [("Q3884", (VStr "American technology company", (101 # 200)%Q))] ->
      eq_str snippet "" = false /\ ((1 # 100) <= w /\ w <= 1)%Q)
  /\ (0 <= 3 ->
      len [("Q3884", (VStr "American technology company", (101 # 200)%Q))] <= 3).
Proof.
  apply (candidate_set_invariants
           sample_net organization_filter_properties "Amazon" 3 "en").
  vm_compute. reflexivity.
Defined.

(** X11.  A negative [num_results] never yields a candidate set: the search
    raises ([np.linspace] refuses a negative number of samples, after the
    hits were fetched and filtered). *)
Theorem negative_result_count_raises
        (requests_get : network) (filter_properties : list string)
        (search_phrase : string) (num_results : Z) (lang_code : string) :
  num_results < 0 ->
  is_ok (wikidata_search requests_get filter_properties search_phrase
                         num_results lang_code) = false.
Proof.
  intros Hneg.
  destruct (wikidata_search requests_get filter_properties search_phrase
                            num_results lang_code) as [res|e] eqn:H; [|reflexivity].
  destruct (wikidata_search_steps _ _ _ _ _ _ H)
    as [hits [filtered_qids [weights [_ [_ [Hweights _]]]]]].
  unfold linspace in Hweights. apply Z.ltb_lt in Hneg. rewrite Hneg in Hweights.
  discriminate.
Qed.

Lemma negative_result_count_raises_witness :
  is_ok (wikidata_search sample_net organization_filter_properties "Amazon" (-1) "en")
  = false
  /\ organization_wikidata_search sample_net "Amazon" (-1) "en" = Raise ValueError.
Proof.
  split; [|vm_compute; reflexivity].
  apply negative_result_count_raises. lia.
Defined.

(** ** The projected record *)

Lemma dict_items_from_complete {A : Type} (seen : list string) (d : list (string * A))
      (k : string) :
  In k (map fst d) -> ~ In k seen -> In k (map fst (dict_items_from seen d)).
Proof.
  revert seen. induction d as [|[k0 v0] d IH]; intros seen Hin Hseen;
    cbn [dict_items_from map fst In] in *; [destruct Hin|].
  destruct (mem_str k0 seen) eqn:E.
  - destruct Hin as [->|Hin]; [apply mem_str_In in E; contradiction|].
    apply IH; assumption.
  - cbn [map fst In]. destruct (String.eqb k0 k) eqn:Ek.
    + apply String.eqb_eq in Ek. left. exact Ek.
    + apply String.eqb_neq in Ek. right.
      destruct Hin as [Heq|Hin]; [contradiction|].
      apply IH; [exact Hin|]. intros [Heq|Hs]; [contradiction | exact (Hseen Hs)].
Qed.

Lemma mem_str_dict_keys {A : Type} (d : list (string * A)) (k : string) :
  mem_str k (dict_keys d) = dict_mem d k.
Proof.
  destruct (dict_mem d k) eqn:E.
  - apply mem_str_In. apply dict_mem_In in E.
    apply dict_items_from_complete; [exact E | intros []].
  - destruct (mem_str k (dict_keys d)) eqn:M; [|reflexivity].
    apply mem_str_In, dict_keys_incl, dict_mem_In in M. congruence.
Qed.

(** The language selection on a table of localized texts. *)
Lemma localized_value_selects (table : pydict) (lang_code : string) :
  localized_value (VDict table) lang_code
  = match dict_get table lang_code with
    | Some entry => subscript entry "value"
    | None => match dict_get table "en" with
              | Some entry => subscript entry "value"
              | None => Raise KeyError
              end
    end.
Proof.
  unfold localized_value. cbn [keys_of bind subscript].
  rewrite mem_str_dict_keys. unfold dict_mem.
  destruct (dict_get table lang_code) as [entry|]; cbn [bind]; [reflexivity|].
  destruct (dict_get table "en") as [entry|]; reflexivity.
Qed.

Lemma dict_set_keys_extend {A : Type} (d : list (string * A)) (k : string) (v : A) :
  exists extra, map fst (dict_set d k v) = (map fst d ++ extra)%list.
Proof.
  induction d as [|[k0 v0] d [extra IH]]; cbn [dict_set map fst app].
  - exists [k]. reflexivity.
  - destruct (String.eqb k0 k) eqn:E; cbn [map fst].
    + apply String.eqb_eq in E. subst. exists []. rewrite app_nil_r. reflexivity.
    + exists extra. rewrite IH. reflexivity.
Qed.

Section ProjectionShape.

Variable requests_get : network.
Variable entity_properties : list (string * string).
Variable lang_code : string.

Lemma project_claims_extends (item_claims : pyval) (props : list pyval)
      (info0 info : pydict) :
  project_claims requests_get item_claims entity_properties lang_code props info0
    = Ok info ->
  (exists extra, map fst info = (map fst info0 ++ extra)%list)
  /\ (NoDup (map fst info0) -> NoDup (map fst info))
  /\ (forall field v,
         dict_get info0 field = Some v ->
         (forall prop, dict_get entity_properties prop <> Some field) ->
         dict_get info field = Some v).
Proof.
  revert info0. induction props as [|prop rest IH]; intros info0 H;
    cbn [project_claims] in H.
  - inversion H; subst. split; [exists []; rewrite app_nil_r; reflexivity|].
    split; auto.
  - bind_inv H as requested Hrequested. destruct requested.
    + bind_inv H as prop_claims Hsub. bind_inv H as cls Hiter.
      bind_inv H as property_data Hdata. bind_inv H as stored Hstored.
      destruct (dict_get entity_properties (prop_id prop)) as [field_p|] eqn:Hp;
        [|discriminate].
      destruct (IH _ H) as [[extra Hext] [Hnd Hkeep]].
      destruct (dict_set_keys_extend info0 field_p stored) as [extra0 Hext0].
      split; [|split].
      * exists (extra0 ++ extra)%list. rewrite Hext, Hext0, app_assoc. reflexivity.
      * intros Hnd0. apply Hnd. apply dict_set_NoDup. exact Hnd0.
      * intros field v Hv Hfree. apply Hkeep; [|exact Hfree].
        rewrite dict_get_set_other; [exact Hv|].
        intros ->. apply (Hfree (prop_id prop)). exact Hp.
    + apply IH. exact H.
Qed.

End ProjectionShape.

(** X12.  A record the projection returns is empty, or its keys are distinct
    and begin with "label" and "description", in this order, before any
    property field. *)
Theorem projected_record_starts_with_label_and_description
        (requests_get : network) (wikidata_qid : string)
        (entity_properties : list (string * string)) (lang_code : string)
        (info : pydict) :
  extract_wikidata_entity_info requests_get wikidata_qid entity_properties lang_code
    = Ok info ->
  info = []
  \/ (NoDup (map fst info)
      /\ exists fields, map fst info = "label" :: "description" :: fields).
Proof.
  unfold extract_wikidata_entity_info. intros H.
  bind_inv H as item_info Hitem.
  destruct (truthy item_info); [|inversion H; left; reflexivity].
  bind_inv H as labels Hlabels. bind_inv H as entity_label Hlabel.
  bind_inv H as descriptions Hdescs. bind_inv H as description Hdesc.
  bind_inv H as item_claims Hclaims. bind_inv H as props Hprops.
  destruct (project_claims_extends _ _ _ _ _ _ _ H) as [[extra Hext] [Hnd _]].
  right. split.
  - apply Hnd. cbn. repeat constructor; cbn; intuition discriminate.
  - exists extra. rewrite Hext. reflexivity.
Qed.

Lemma projected_record_starts_with_label_and_description_witness :
  exists info,
    extract_wikidata_entity_info sample_net "Q90" sample_location_properties "fr" = Ok info
    /\ (info = []
        \/ (NoDup (map fst info)
            /\ exists fields, map fst info = "label" :: "description" :: fields)).
Proof.
  eexists. split; [vm_compute; reflexivity|].
  apply (projected_record_starts_with_label_and_description
           sample_net "Q90" sample_location_properties "fr").
  vm_compute. reflexivity.
Defined.

(** X13.  The label and the description of a projected record are the texts
    in the requested language when the record has them, and the English
    texts otherwise (no schema field being named "label" or "description"). *)
Theorem label_and_description_prefer_requested_language
        (requests_get : network) (wikidata_qid : string)
        (entity_properties : list (string * string)) (lang_code : string)
        (record labels descriptions info : pydict) :
  get_entity_info requests_get wikidata_qid = Ok (VDict record) ->
  dict_get record "labels" = Some (VDict labels) ->
  dict_get record "descriptions" = Some (VDict descriptions) ->
  (forall prop, dict_get entity_properties prop <> Some "label") ->
  (forall prop, dict_get entity_properties prop <> Some "description") ->
  extract_wikidata_entity_info requests_get wikidata_qid entity_properties lang_code
    = Ok info ->
  (exists entry text,
      dict_get labels (if dict_mem labels lang_code then lang_code else "en") = Some entry
      /\ subscript entry "value" = Ok text
      /\ dict_get info "label" = Some text)
  /\ (exists entry text,
         dict_get descriptions (if dict_mem descriptions lang_code then lang_code else "en")
           = Some entry
         /\ subscript entry "value" = Ok text
         /\ dict_get info "description" = Some text).
Proof.
  intros Hitem Hlabels Hdescs Hfree_label Hfree_desc H.
  unfold extract_wikidata_entity_info in H. rewrite Hitem in H. cbn [bind] in H.
  assert (Htruthy : truthy (VDict record) = true).
  { destruct record; [discriminate | reflexivity]. }
  rewrite Htruthy in H. cbn [subscript] in H.
  rewrite Hlabels in H. cbn [bind] in H.
  bind_inv H as entity_label Hlabel.
  rewrite Hdescs in H. cbn [bind] in H.
  bind_inv H as description Hdesc.
  bind_inv H as item_claims Hclaims. bind_inv H as props Hprops.
  destruct (project_claims_extends _ _ _ _ _ _ _ H) as [_ [_ Hkeep]].
  rewrite localized_value_selects in Hlabel, Hdesc.
  split.
  - unfold dict_mem.
    destruct (dict_get labels lang_code) as [entry|] eqn:E.
    + exists entry, entity_label. split; [first [reflexivity | eassumption]|]. split; [exact Hlabel|].
      apply Hkeep; [reflexivity | exact Hfree_label].
    + destruct (dict_get labels "en") as [entry|] eqn:Een; [|discriminate].
      exists entry, entity_label. split; [first [reflexivity | eassumption]|]. split; [exact Hlabel|].
      apply Hkeep; [reflexivity | exact Hfree_label].
  - unfold dict_mem.
    destruct (dict_get descriptions lang_code) as [entry|] eqn:E.
    + exists entry, description. split; [first [reflexivity | eassumption]|]. split; [exact Hdesc|].
      apply Hkeep; [reflexivity | exact Hfree_desc].
    + destruct (dict_get descriptions "en") as [entry|] eqn:Een; [|discriminate].
      exists entry, description. split; [first [reflexivity | eassumption]|]. split; [exact Hdesc|].
      apply Hkeep; [reflexivity | exact Hfree_desc].
Qed.

Lemma label_and_description_prefer_requested_language_witness :
  exists record labels descriptions info,
    get_entity_info sample_net "Q90" = Ok (VDict record)
    /\ dict_get record "labels" = Some (VDict labels)
    /\ dict_get record "descriptions" = Some (VDict descriptions)
    /\ extract_wikidata_entity_info sample_net "Q90" sample_location_properties "fr"
       = Ok info
    /\ (exists entry text,
           dict_get labels (if dict_mem labels "fr" then "fr" else "en") = Some entry
           /\ subscript entry "value" = Ok text
           /\ dict_get info "label" = Some text)
    /\ (exists entry text,
           dict_get descriptions (if dict_mem descriptions "fr" then "fr" else "en")
             = Some entry
           /\ subscript entry "value" = Ok text
           /\ dict_get info "description" = Some text).
Proof.
  do 4 eexists.
  split; [vm_compute; reflexivity|].
  split; [vm_compute; reflexivity|].
  split; [vm_compute; reflexivity|].
  split; [vm_compute; reflexivity|].
  eapply (label_and_description_prefer_requested_language
            sample_net "Q90" sample_location_properties "fr").
  - vm_compute. reflexivity.
  - vm_compute. reflexivity.
  - vm_compute. reflexivity.
  - intros prop Hprop. apply dict_get_In in Hprop. cbn in Hprop.
    intuition discriminate.
  - intros prop Hprop. apply dict_get_In in Hprop. cbn in Hprop.
    intuition discriminate.
  - vm_compute. reflexivity.
Defined.

(** X14.  A fetched record that has neither a label in the requested
    language nor an English one, or a label but neither description, makes
    the projection raise [KeyError]: no partial record is returned. *)
Theorem projection_without_fallback_text_raises
        (requests_get : network) (wikidata_qid : string)
        (entity_properties : list (string * string)) (lang_code : string)
        (record labels descriptions : pydict) :
  get_entity_info requests_get wikidata_qid = Ok (VDict record) ->
  dict_get record "labels" = Some (VDict labels) ->
  dict_get record "descriptions" = Some (VDict descriptions) ->
  (dict_get labels lang_code = None /\ dict_get labels "en" = None)
  \/ (is_ok (localized_value (VDict labels) lang_code) = true
      /\ dict_get descriptions lang_code = None /\ dict_get descriptions "en" = None) ->
  extract_wikidata_entity_info requests_get wikidata_qid entity_properties lang_code
  = Raise KeyError.
Proof.
  intros Hitem Hlabels Hdescs Hmissing.
  unfold extract_wikidata_entity_info. rewrite Hitem. cbn [bind].
  assert (Htruthy : truthy (VDict record) = true).
  { destruct record; [discriminate | reflexivity]. }
  rewrite Htruthy. cbn [subscript]. rewrite Hlabels. cbn [bind].
  destruct Hmissing as [[Hl Hen]|[Hlabel [Hd Hen]]].
  - rewrite localized_value_selects, Hl, Hen. reflexivity.
  - destruct (localized_value (VDict labels) lang_code) as [entity_label|];
      [|discriminate].
    cbn [bind]. rewrite Hdescs. cbn [bind].
    rewrite localized_value_selects, Hd, Hen. reflexivity.
Qed.

Lemma projection_without_fallback_text_raises_witness :
  extract_wikidata_entity_info sample_net "Q666" sample_location_properties "fr"
    = Raise KeyError
  /\ extract_wikidata_entity_info sample_net "Q484847" sample_location_properties "fr"
    = Raise KeyError.
Proof.
  split.
  - eapply (projection_without_fallback_text_raises
              sample_net "Q666" sample_location_properties "fr").
    + vm_compute. reflexivity.
    + vm_compute. reflexivity.
    + vm_compute. reflexivity.
    + left. split; vm_compute; reflexivity.
  - eapply (projection_without_fallback_text_raises
              sample_net "Q484847" sample_location_properties "fr").
    + vm_compute. reflexivity.
    + vm_compute. reflexivity.
    + vm_compute. reflexivity.
    + right. repeat split; vm_compute; reflexivity.
Defined.

(** X15.  The values of a property never depend on the network for their
    extraction to return.  For claims of a readable shape the loop over the
    claims returns on every network, one that raises included, and its
    result is the values it had followed by what each claim contributes on
    its own, in the order of the claims: the value of a literal, the label
    of a referenced record whose lookup returns one, nothing for a snak
    without value and nothing for a reference whose lookup fails.  A failed
    lookup costs that value only: the result is the one of the same claims
    without that claim. *)
Theorem property_values_survive_lookup_failures
        (requests_get : network) (lang_code : string)
        (claims property_data : list pyval) :
  Forall (fun claim => claim_readable claim = true) claims ->
  collect_property_data requests_get lang_code claims property_data
  = Ok (property_data ++ flat_map (claim_values requests_get lang_code) claims)%list
  /\ (forall before claim after,
         claims = (before ++ claim :: after)%list ->
         claim_values requests_get lang_code claim = [] ->
         collect_property_data requests_get lang_code claims property_data
         = collect_property_data requests_get lang_code (before ++ after)%list
                                 property_data).
Proof.
  assert (Hloop : forall claims, Forall (fun claim => claim_readable claim = true) claims ->
            forall property_data,
              collect_property_data requests_get lang_code claims property_data
              = Ok (property_data
                      ++ flat_map (claim_values requests_get lang_code) claims)%list).
  { clear claims property_data. intros claims Hall.
    induction Hall as [|claim rest Hclaim _ IH]; intros property_data;
      cbn [collect_property_data flat_map].
    - rewrite app_nil_r. reflexivity.
    - unfold claim_readable in Hclaim. unfold claim_values at 1.
      destruct (subscript claim "mainsnak") as [mainsnak|]; [|discriminate]. cbn [bind].
      destruct (subscript mainsnak "snaktype") as [snaktype|]; [|discriminate]. cbn [bind].
      destruct (eq_str snaktype "value").
      + destruct (subscript mainsnak "datavalue") as [datavalue|]; [|discriminate].
        cbn [bind].
        destruct (subscript datavalue "value") as [value|]; [|discriminate]. cbn [bind].
        destruct (contains "id" value) as [[|]|]; [| |discriminate]; cbn [bind].
        * destruct (resolve_reference requests_get value lang_code) as [[label|]|e];
            cbn [try_except bind app]; rewrite IH, <- ?app_assoc; reflexivity.
        * rewrite IH, <- app_assoc. reflexivity.
      + rewrite IH. reflexivity. }
  intros Hall. split; [apply Hloop; exact Hall|].
  intros before claim after -> Hnone.
  rewrite (Hloop _ Hall).
  apply Forall_app in Hall. destruct Hall as [Hbefore Hafter].
  inversion Hafter as [|? ? _ Hafter']; subst.
  rewrite Hloop by (apply Forall_app; split; assumption).
  rewrite !flat_map_app. cbn [flat_map]. rewrite Hnone. reflexivity.
Qed.

Lemma property_values_survive_lookup_failures_witness :
  claim_values offline_net "en" (snak (item_ref "Q484847")) = []
  /\ collect_property_data offline_net "en"
       [snak (item_ref "Q484847"); snak_novalue; snak (VStr "0000000")] []
     = Ok [VStr "0000000"]
  /\ collect_property_data offline_net "en"
       [snak (VStr "0000000"); snak (item_ref "Q484847")] [VStr "1111111"]
     = collect_property_data offline_net "en" [snak (VStr "0000000")] [VStr "1111111"].
Proof.
  split; [reflexivity|]. split.
  - apply (property_values_survive_lookup_failures offline_net "en"
             [snak (item_ref "Q484847"); snak_novalue; snak (VStr "0000000")] []).
    repeat constructor.
  - apply (proj2 (property_values_survive_lookup_failures offline_net "en"
                    [snak (VStr "0000000"); snak (item_ref "Q484847")] [VStr "1111111"]
                    ltac:(repeat constructor))
                 [snak (VStr "0000000")] (snak (item_ref "Q484847")) []);
      reflexivity.
Defined.

(** ** The dispatcher at its edges *)

Section DispatcherEdges.

Variable requests_get : network.
Variable cos_sim : string -> string -> Q.
Variable set_iter : set_order.
Variable word_tokenize : string -> list string.
Variable person_entity_extraction :
  string -> string -> Z -> Z -> Z -> string -> result pydict.
Variable organization_properties : list (string * string).
Variable location_properties : list (string * string).
Variable stopwords : list string.
Variable text : string.
Variable num_search_results context_window : Z.
Variable lang_code : string.

Local Notation "'run_loop'" :=
  (fun items =>
     extract_entities_loop requests_get cos_sim set_iter word_tokenize
                           person_entity_extraction organization_properties
                           location_properties stopwords items
                           text num_search_results context_window lang_code).

Lemma route_unregistered (entity_info : option pydict) (processed : string)
      (start_char : Z) (entity_type : string) :
  registered entity_type = false ->
  route requests_get cos_sim set_iter person_entity_extraction
        organization_properties location_properties
        entity_info text processed start_char entity_type
        num_search_results context_window lang_code = Ok entity_info.
Proof.
  unfold registered, route. intros H.
  destruct (String.eqb (lower entity_type) "per"); [discriminate|].
  destruct (String.eqb (lower entity_type) "org"); [discriminate|].
  destruct (String.eqb (lower entity_type) "loc"); [discriminate|].
  destruct (String.eqb (lower entity_type) "gpe"); [discriminate|].
  reflexivity.
Qed.

(** X16.  A processed mention whose type tag has no resolver is not skipped:
    after its header the record of the previous processed mention is printed
    again and kept for the next one; when there is no previous record the
    call raises [UnboundLocalError] after the header. *)
Theorem unregistered_tag_reprints_or_raises
        (entity : string) (start_char : Z) (entity_type processed : string)
        (rest : list (string * (Z * string))) (out : list event) :
  registered entity_type = false ->
  preprocess_entity_name word_tokenize stopwords entity = Ok processed ->
  processed <> "" ->
  (forall previous,
      run_loop ((entity, (start_char, entity_type)) :: rest) (Some previous) out
      = run_loop rest (Some previous)
                 (out ++ [PrintMention entity entity_type processed;
                          PrintInfo previous])%list)
  /\ run_loop ((entity, (start_char, entity_type)) :: rest) None out
     = ((out ++ [PrintMention entity entity_type processed])%list,
        Raise UnboundLocalError).
Proof.
  intros Htag Hp Hne. apply String.eqb_neq in Hne. split.
  - intros previous. cbn [extract_entities_loop]. rewrite Hp, Hne. cbn [negb].
    rewrite route_unregistered by exact Htag. cbn [read_local].
    rewrite <- app_assoc. reflexivity.
  - cbn [extract_entities_loop]. rewrite Hp, Hne. cbn [negb].
    rewrite route_unregistered by exact Htag. reflexivity.
Qed.

(** X17.  The two edges of the normalization: a label without any token
    makes the call raise [IndexError] before anything is printed for it, and
    a label that is one stopword is passed over without output, the loop
    going on as if the mention were not there. *)
Theorem label_without_content_raises_or_is_skipped
        (entity : string) (start_char : Z) (entity_type : string)
        (rest : list (string * (Z * string)))
        (entity_info : option pydict) (out : list event) :
  (word_tokenize entity = [] ->
   run_loop ((entity, (start_char, entity_type)) :: rest) entity_info out
   = (out, Raise IndexError))
  /\ (forall token,
         word_tokenize entity = [token] ->
         mem_str (lower token) stopwords = true ->
         run_loop ((entity, (start_char, entity_type)) :: rest) entity_info out
         = run_loop rest entity_info out).
Proof.
  split.
  - intros Htok. cbn [extract_entities_loop]. unfold preprocess_entity_name.
    rewrite Htok. reflexivity.
  - intros token Htok Hstop. cbn [extract_entities_loop]. unfold preprocess_entity_name.
    rewrite Htok. unfold getitem. cbn [Z.ltb Z.compare Z.to_nat nth_error bind].
    rewrite Hstop. reflexivity.
Qed.

End DispatcherEdges.

Lemma unregistered_tag_reprints_or_raises_witness :
  sample_linker [("Paris", (0, "LOC")); ("Seine", (10, "MISC"))] sample_text 3 2 "en"
  = ([PrintMention "Paris" "LOC" "Paris";
      PrintInfo [("label", VStr "Paris"); ("description", VStr "capital of France");
                 ("population", VDict [("amount", VStr "+2145906"); ("unit", VStr "1")]);
                 ("country", VStr "France")];
      PrintMention "Seine" "MISC" "Seine";
      PrintInfo [("label", VStr "Paris"); ("description", VStr "capital of France");
                 ("population", VDict [("amount", VStr "+2145906"); ("unit", VStr "1")]);
                 ("country", VStr "France")]],
     Ok VNone)
  /\ sample_linker [("Seine", (10, "MISC")); ("Paris", (0, "LOC"))] sample_text 3 2 "en"
     = ([PrintMention "Seine" "MISC" "Seine"], Raise UnboundLocalError).
Proof.
  split.
  - vm_compute. reflexivity.
  - unfold sample_linker, extract_entities.
    replace (dict_items [("Seine", (10, "MISC")); ("Paris", (0, "LOC"))])
      with [("Seine", (10, "MISC")); ("Paris", (0, "LOC"))] by reflexivity.
    apply (proj2 (unregistered_tag_reprints_or_raises
                    sample_net sample_cos_sim cpython_set_order re_split_space
                    sample_person_extraction sample_organization_properties
                    sample_location_properties sample_stopwords sample_text 3 2 "en"
                    "Seine" 10 "MISC" "Seine" [("Paris", (0, "LOC"))] [] 
                    eq_refl eq_refl ltac:(discriminate))).
Defined.

Lemma label_without_content_raises_or_is_skipped_witness :
  sample_linker [("The", (0, "ORG")); ("Paris", (0, "LOC"))] sample_text 3 2 "en"
  = sample_linker [("Paris", (0, "LOC"))] sample_text 3 2 "en".
Proof.
  unfold sample_linker, extract_entities.
  replace (dict_items [("The", (0, "ORG")); ("Paris", (0, "LOC"))])
    with [("The", (0, "ORG")); ("Paris", (0, "LOC"))] by reflexivity.
  replace (dict_items [("Paris", (0, "LOC"))]) with [("Paris", (0, "LOC"))]
    by reflexivity.
  apply (proj2 (label_without_content_raises_or_is_skipped
                  sample_net sample_cos_sim cpython_set_order re_split_space
                  sample_person_extraction sample_organization_properties
                  sample_location_properties sample_stopwords sample_text 3 2 "en"
                  "The" 0 "ORG" [("Paris", (0, "LOC"))] None []) "The");
    reflexivity.
Defined.

(** ** Property values by SPARQL *)

Lemma collect_bindings_length (bindings values out : list pyval) :
  collect_bindings bindings values = Ok out ->
  List.length out = (List.length values + List.length (filter has_value bindings))%nat.
Proof.
  revert values. induction bindings as [|binding rest IH]; intros values H;
    cbn [collect_bindings filter] in *.
  - inversion H; subst. cbn. lia.
  - bind_inv H as found Hfound.
    assert (Hv : has_value binding = found) by (unfold has_value; rewrite Hfound; reflexivity).
    rewrite Hv. destruct found.
    + bind_inv H as value Hvalue. bind_inv H as value_type Htype.
      bind_inv H as is_date Hdate. destruct is_date.
      * bind_inv H as raw Hraw. apply IH in H. rewrite H, length_app. cbn. lia.
      * bind_inv H as has_label Hlabel. bind_inv H as item Hitem.
        apply IH in H. rewrite H, length_app. cbn. lia.
    + apply IH. exact H.
Qed.

Lemma collect_bindings_plain_literal (bindings values : list pyval) (binding : pyval) :
  In binding bindings -> plain_literal binding ->
  is_ok (collect_bindings bindings values) = false.
Proof.
  intros Hin [fields [value [-> [Hvalue [Htype Hdatatype]]]]]. revert values.
  induction bindings as [|b rest IH]; intros values; [destruct Hin|].
  destruct Hin as [->|Hin].
  - cbn [collect_bindings contains bind]. rewrite (dict_mem_get _ _ _ Hvalue).
    cbn [subscript]. rewrite Hvalue. cbn [bind subscript]. rewrite Htype.
    cbn [bind eq_str String.eqb Ascii.eqb Bool.eqb]. rewrite Hdatatype. reflexivity.
  - cbn [collect_bindings].
    destruct (contains "value" b) as [[|]|]; cbn [bind]; try reflexivity.
    + destruct (subscript b "value") as [v|]; cbn [bind]; [|reflexivity].
      destruct (subscript v "type") as [t|]; cbn [bind]; [|reflexivity].
      destruct (if eq_str t "literal"
                then datatype <- subscript v "datatype" ;;
                     Ok (eq_str datatype "http://www.w3.org/2001/XMLSchema#dateTime")
                else Ok false) as [[|]|]; cbn [bind]; [| |reflexivity].
      * destruct (subscript v "value"); cbn [bind]; [apply IH; exact Hin | reflexivity].
      * destruct (contains "valueLabel" b) as [has_label|]; cbn [bind]; [|reflexivity].
        destruct (if has_label
                  then label <- subscript b "valueLabel" ;; subscript label "value"
                  else subscript v "value"); cbn [bind];
          [apply IH; exact Hin | reflexivity].
    + apply IH. exact Hin.
Qed.

(** X18.  [get_entity_property_values] is all or nothing.  For a result with
    a list of bindings it returns [None] or the list with exactly one value
    per binding that carries a value, never a shorter list; and one binding
    whose value is a literal without a datatype (a plain string) makes it
    return [None], whatever the other bindings hold. *)
Theorem sparql_values_all_or_nothing
        (sparql_query : string -> result pyval) (qid property_id lang_code : string)
        (result results : pyval) (bindings : list pyval) :
  sparql_query (sparql_query_text qid property_id lang_code) = Ok result ->
  subscript result "results" = Ok results ->
  subscript results "bindings" = Ok (VList bindings) ->
  (get_entity_property_values sparql_query qid property_id lang_code = Ok VNone
   \/ exists values,
       get_entity_property_values sparql_query qid property_id lang_code
         = Ok (VList values)
       /\ List.length values = List.length (filter has_value bindings))
  /\ (forall binding,
         In binding bindings -> plain_literal binding ->
         get_entity_property_values sparql_query qid property_id lang_code = Ok VNone).
Proof.
  intros Hquery Hresults Hbindings. unfold get_entity_property_values.
  rewrite Hquery. cbn [bind]. rewrite Hresults. cbn [bind]. rewrite Hbindings.
  cbn [bind iterate]. split.
  - destruct (collect_bindings bindings []) as [values|e] eqn:Hvalues;
      cbn [bind try_except].
    + right. exists values. split; [reflexivity|].
      apply collect_bindings_length in Hvalues. exact Hvalues.
    + left. reflexivity.
  - intros binding Hin Hplain.
    pose proof (collect_bindings_plain_literal bindings [] binding Hin Hplain) as Hfail.
    destruct (collect_bindings bindings []); [discriminate | reflexivity].
Qed.

Lemma sparql_values_all_or_nothing_witness :
  get_entity_property_values (sample_sparql sample_bindings) "Q90" "P17" "en"
    = Ok (VList [VStr "France"; VStr "1994-07-05T00:00:00Z"])
  /\ get_entity_property_values
       (sample_sparql (sample_bindings ++ [sample_plain_binding])) "Q90" "P1448" "en"
     = Ok VNone.
Proof.
  split; [vm_compute; reflexivity|].
  refine (proj2 (sparql_values_all_or_nothing
                   (sample_sparql (sample_bindings ++ [sample_plain_binding]))
                   "Q90" "P1448" "en" _ _ _ eq_refl eq_refl eq_refl)
                sample_plain_binding _ _).
  - right. right. right. left. reflexivity.
  - do 2 eexists. repeat split.
Defined.

(** ** More on the exact lookup and on the window of words *)

Lemma get_qnumber_checked
      (requests_get : network) (wikiarticle wikisite q_number : string) :
  get_qnumber requests_get wikiarticle wikisite = Ok q_number ->
  q_number = "-1"
  \/ exists verdict,
      check_wikimedia_disambiguation_page requests_get q_number "en" = Ok verdict
      /\ is_True verdict = false.
Proof.
  unfold get_qnumber. intros H.
  bind_inv H as response Hresponse. bind_inv H as resp Hresp.
  bind_inv H as entities Hentities. bind_inv H as ids Hids.
  bind_inv H as first Hfirst. bind_inv H as q Hq. bind_inv H as verdict Hverdict.
  destruct (is_True verdict) eqn:E; inversion H; subst.
  - left. reflexivity.
  - right. exists verdict. split; assumption.
Qed.

(** What the disambiguation check saw when it did not answer [True]. *)
Lemma check_not_True (requests_get : network) (qid lang_code : string) (verdict : pyval) :
  check_wikimedia_disambiguation_page requests_get qid lang_code = Ok verdict ->
  is_True verdict = false ->
  exists response data,
    requests_get api_url (check_request qid lang_code) = Ok response
    /\ json response = Ok data
    /\ ((has_entry data qid = Ok false /\ verdict = VBool false)
        \/ (has_entry data qid = Ok true
            /\ verdict = VNone
            /\ exists description,
                description_of data qid lang_code = Ok description
                /\ eq_str description "Wikimedia disambiguation page" = false)).
Proof.
  unfold check_wikimedia_disambiguation_page. intros H Hverdict.
  bind_inv H as response Hresponse. bind_inv H as data Hdata.
  exists response, data. split; [exact Hresponse|]. split; [exact Hdata|].
  unfold has_entry, description_of.
  destruct (contains "entities" data) as [has_entities|] eqn:Hentities;
    cbn [bind] in H |- *; [|discriminate].
  destruct has_entities.
  - destruct (subscript data "entities") as [entities|] eqn:Hsub;
      cbn [bind] in H |- *; [|discriminate].
    destruct (contains qid entities) as [[|]|] eqn:Hqid; cbn [bind] in H |- *;
      [| |discriminate].
    + right. split; [reflexivity|].
      destruct (subscript entities qid) as [entity|]; cbn [bind] in H |- *; [|discriminate].
      destruct (subscript entity "descriptions") as [descriptions|];
        cbn [bind] in H |- *; [|discriminate].
      destruct (subscript descriptions lang_code) as [localized|];
        cbn [bind] in H |- *; [|discriminate].
      destruct (subscript localized "value") as [description|];
        cbn [bind] in H |- *; [|discriminate].
      destruct (eq_str description "Wikimedia disambiguation page") eqn:Hd;
        inversion H; subst; [discriminate|].
      split; [reflexivity|]. exists description. split; [reflexivity | exact Hd].
    + left. inversion H. split; reflexivity.
  - cbn [bind] in H. left. inversion H. split; reflexivity.
Qed.

Lemma get_typed_qnumber_checked
      (requests_get : network) (filter_properties : list string)
      (wikiarticle wikisite lang_code qid : string) :
  get_typed_qnumber requests_get filter_properties wikiarticle wikisite lang_code = Ok qid ->
  qid <> "-1" ->
  get_qnumber requests_get wikiarticle wikisite = Ok qid.
Proof.
  intros H Hne. unfold get_typed_qnumber in H.
  bind_inv H as q Hq. bind_inv H as response Hresponse.
  assert (Hqid : q = qid).
  { destruct (status_code response =? 200).
    - destruct (try_except (passes_filter filter_properties response q)
                           (fun _ => Ok false)) as [[|]|]; cbn [bind] in H;
        inversion H; congruence.
    - inversion H; congruence. }
  subst q. exact Hq.
Qed.

(** X19.  An id the exact lookup of a linker returns, other than "-1", went
    through the disambiguation check with the language "en", and what the
    check got for it is one of two things: a response without an entry for
    the id, in which case no description was read and the check answered
    [False]; or a response with an entry whose English description was read
    and is not "Wikimedia disambiguation page", in which case the check
    answered [None]. *)
Theorem exact_lookup_id_passed_disambiguation_check
        (requests_get : network) (wikiarticle wikisite lang_code qid : string) :
  get_location_qnumber requests_get wikiarticle wikisite lang_code = Ok qid
  \/ get_organization_qnumber requests_get wikiarticle wikisite lang_code = Ok qid ->
  qid <> "-1" ->
  exists response data,
    requests_get api_url (check_request qid "en") = Ok response
    /\ json response = Ok data
    /\ ((has_entry data qid = Ok false
         /\ check_wikimedia_disambiguation_page requests_get qid "en" = Ok (VBool false))
        \/ (has_entry data qid = Ok true
            /\ check_wikimedia_disambiguation_page requests_get qid "en" = Ok VNone
            /\ exists description,
                description_of data qid "en" = Ok description
                /\ eq_str description "Wikimedia disambiguation page" = false)).
Proof.
  intros Hlookup Hne.
  assert (Hq : get_qnumber requests_get wikiarticle wikisite = Ok qid).
  { destruct Hlookup as [H|H].
    - exact (get_typed_qnumber_checked requests_get location_filter_properties
               wikiarticle wikisite lang_code qid H Hne).
    - exact (get_typed_qnumber_checked requests_get organization_filter_properties
               wikiarticle wikisite lang_code qid H Hne). }
  destruct (get_qnumber_checked _ _ _ _ Hq) as [->|[verdict [Hcheck Hverdict]]];
    [congruence|].
  destruct (check_not_True _ _ _ _ Hcheck Hverdict)
    as [response [data [Hresponse [Hdata Hcases]]]].
  exists response, data. split; [exact Hresponse|]. split; [exact Hdata|].
  destruct Hcases as [[Hentry ->]|[Hentry [-> Hdescription]]].
  - left. split; assumption.
  - right. split; [exact Hentry|]. split; assumption.
Qed.

Lemma exact_lookup_id_passed_disambiguation_check_witness :
  exists response data,
    sample_net api_url (check_request "Q90" "en") = Ok response
    /\ json response = Ok data
    /\ ((has_entry data "Q90" = Ok false
         /\ check_wikimedia_disambiguation_page sample_net "Q90" "en" = Ok (VBool false))
        \/ (has_entry data "Q90" = Ok true
            /\ check_wikimedia_disambiguation_page sample_net "Q90" "en" = Ok VNone
            /\ exists description,
                description_of data "Q90" "en" = Ok description
                /\ eq_str description "Wikimedia disambiguation page" = false)).
Proof.
  apply (exact_lookup_id_passed_disambiguation_check
           sample_net "Paris" "enwiki" "en" "Q90").
  - left. vm_compute. reflexivity.
  - discriminate.
Defined.

Lemma arange_split (lo mid hi : Z) :
  lo <= mid <= hi -> arange lo hi = (arange lo mid ++ arange mid hi)%list.
Proof.
  intros H. apply increasing_unique.
  - apply arange_increasing.
  - assert (Happ : forall l1 l2,
               StronglySorted Z.lt l1 -> StronglySorted Z.lt l2 ->
               (forall x y, In x l1 -> In y l2 -> x < y) ->
               StronglySorted Z.lt (l1 ++ l2)).
    { induction l1 as [|a l1 IH]; intros l2 H1 H2 Hlt; cbn [app]; [exact H2|].
      inversion H1 as [|? ? H1' Hall]; subst. constructor.
      - apply IH; [exact H1' | exact H2|].
        intros x y Hx Hy. apply Hlt; [right; exact Hx | exact Hy].
      - apply Forall_app. split; [exact Hall|].
        apply Forall_forall. intros y Hy. apply Hlt; [left; reflexivity | exact Hy]. }
    apply Happ; try apply arange_increasing.
    intros x y Hx Hy. apply In_arange in Hx, Hy. lia.
  - intros x. rewrite in_app_iff, !In_arange. lia.
Qed.

(** X20.  Widening the window never shrinks the context of words.  For an
    offset of at most the length of the text and windows
    [1 <= w <= w' <= max_window], the context with [w] is the words at the
    indices [lo .. hi] around the anchor word, which is among them, and the
    context with [w'] is the words at [lo' .. lo - 1], those same words at
    [lo .. hi], and the words at [hi + 1 .. hi'], where [lo' <= lo] and
    [hi <= hi']: the words of the narrower window, with the further words
    before and after them. *)
Theorem wider_window_extends_words_context
        (set_iter : set_order) (text : string) (start_char w w' : Z) :
  set_order_ok set_iter ->
  start_char <= len_str text ->
  1 <= w <= w' ->
  w' <= max_window ->
  exists anchor,
    anchor_loop 1 (re_split_space text) (re_split_space text) 0 start_char
      = Ok (Some anchor)
    /\ let words := re_split_space text in
       let lo := Z.max 0 (anchor - w) in
       let hi := Z.min (len words - 1) (anchor + w) in
       let lo' := Z.max 0 (anchor - w') in
       let hi' := Z.min (len words - 1) (anchor + w') in
       0 <= lo' <= lo /\ lo <= anchor <= hi /\ hi <= hi' < len words
       /\ extract_context_by_words set_iter text start_char w
          = Ok (join " " (units_between words lo hi))
       /\ extract_context_by_words set_iter text start_char w'
          = Ok (join " " (units_between words lo' (lo - 1)
                            ++ units_between words lo hi
                            ++ units_between words (hi + 1) hi')%list).
Proof.
  intros Hset Hin Hw _.
  destruct (words_window_selected set_iter text start_char w Hset Hin)
    as [a [Hloop [Ha Hctx]]]; [lia|].
  destruct (words_window_selected set_iter text start_char w' Hset Hin)
    as [a' [Hloop' [_ Hctx']]]; [lia|].
  rewrite Hloop in Hloop'. inversion Hloop'; subst a'. clear Hloop'.
  exists a. split; [exact Hloop|]. cbv zeta.
  set (words := re_split_space text) in *.
  set (n := len words) in *.
  split; [lia|]. split; [lia|]. split; [lia|].
  split; [exact Hctx|].
  rewrite Hctx'. unfold units_between. rewrite <- !map_app.
  replace (Z.max 0 (a - w) - 1 + 1) with (Z.max 0 (a - w)) by lia.
  rewrite <- (arange_split (Z.max 0 (a - w)) (Z.min (n - 1) (a + w) + 1)) by lia.
  rewrite <- (arange_split (Z.max 0 (a - w')) (Z.max 0 (a - w))) by lia.
  reflexivity.
Qed.

Lemma wider_window_extends_words_context_witness :
  exists anchor,
    anchor_loop 1 (re_split_space sample_text) (re_split_space sample_text) 0 25
      = Ok (Some anchor)
    /\ let words := re_split_space sample_text in
       let lo := Z.max 0 (anchor - 1) in
       let hi := Z.min (len words - 1) (anchor + 1) in
       let lo' := Z.max 0 (anchor - 3) in
       let hi' := Z.min (len words - 1) (anchor + 3) in
       0 <= lo' <= lo /\ lo <= anchor <= hi /\ hi <= hi' < len words
       /\ extract_context_by_words cpython_set_order sample_text 25 1
          = Ok (join " " (units_between words lo hi))
       /\ extract_context_by_words cpython_set_order sample_text 25 3
          = Ok (join " " (units_between words lo' (lo - 1)
                            ++ units_between words lo hi
                            ++ units_between words (hi + 1) hi')%list).
Proof.
  apply (wider_window_extends_words_context cpython_set_order sample_text 25 1 3).
  - exact cpython_set_order_ok.
  - vm_compute. discriminate.
  - lia.
  - vm_compute. discriminate.
Defined.
